(** * Fit-Check: the try-on history, its handlers and the Gemini service

    A shallow embedding of the TypeScript sources

      - [App.tsx] (src/unnamed/part_000: [useHistoryState], the handlers
        and effects of [App] and its suggestions panel),
      - [services/geminiService.ts] (the data URLs, [handleApiResponse], the
        image calls and [generateStyleScore]),
      - [components/WardrobeModal.tsx] ([handleItemClick], [handleFileChange]),
      - [components/OutfitStack.tsx] (src/unnamed/part_002: the colour of the
        score and the buttons of the stack),
      - [wardrobe.ts] (src/unnamed/part_001: [defaultWardrobe]),

    followed by the properties of the history container, of the garment,
    pose and accessory handlers, of saving and loading outfits and of the
    service helpers.

    Conventions of the embedding.
      - A JS [number] used as an index or counter is a [Z]; [string | null]
        and [string | undefined] are [option string].
      - A React state cell is a field of [World]; a handler is a function
        [World -> World].  The values a handler closes over (the cells as
        they were when the component rendered) are passed as a [Render]:
        a handler reads them from the render and writes the live cells.
        This holds for the [setState] of [useHistoryState] too, which
        applies its updater to the state of its render.
      - An [async] handler runs to its end as one step: no other event is
        handled between its [await]s.
      - A [poseImages] object is mutated in place by [handlePoseSelect] and
        shared by every history entry that holds the layer, so it lives in
        a heap and a layer holds its location.
      - A call into [geminiService] is a [Request] appended to the log
        [calls]; its outcome is given by the environment.
      - An effect runs after the event that changed its dependencies;
        where React compares objects that the states, as values, do not
        tell apart, the comparison is a parameter. *)

From Stdlib Require Import ZArith List String Ascii Bool Lia QArith DecimalString.
Import ListNotations.
Open Scope Z_scope.

(* ===================================================================== *)
(** ** JavaScript values and built-ins used by the sources *)
(* ===================================================================== *)

Module Js.

(** [a[i]]: [undefined] outside the array. *)
Definition index {A} (a : list A) (i : Z) : option A :=
  if i <? 0 then None else nth_error a (Z.to_nat i).

(** [a.length]. *)
Definition length {A} (a : list A) : Z := Z.of_nat (List.length a).

(** [a.slice(0, e)]: a negative [e] counts from the end. *)
Definition slice0 {A} (a : list A) (e : Z) : list A :=
  let k := if e <? 0 then Z.max (length a + e) 0 else Z.min e (length a) in
  firstn (Z.to_nat k) a.

(** [a.slice(1)]. *)
Definition slice1 {A} (a : list A) : list A := skipn 1 a.

(** Truthiness of a [string | null | undefined]. *)
Definition truthy (v : option string) : bool :=
  match v with
  | Some s => negb (String.eqb s "")
  | None => false
  end.

(** [a ?? b]. *)
Definition nullish {A} (a b : option A) : option A :=
  match a with
  | Some _ => a
  | None => b
  end.

(** [v?.startsWith(p)], with [undefined] read as false. *)
Definition startsWith (p : string) (v : option string) : bool :=
  match v with
  | Some s => String.prefix p s
  | None => false
  end.

(** [`${v}`] for a [string | undefined]. *)
Definition template (v : option string) : string :=
  match v with
  | Some s => s
  | None => "undefined"
  end.

(** A plain object with string keys, none of them an array index: its
    own properties in insertion order.  A property may hold
    [undefined]. *)
Definition object := list (string * option string).

(** [o[k]]. *)
Fixpoint get (o : object) (k : string) : option string :=
  match o with
  | [] => None
  | (k', v) :: rest => if String.eqb k' k then v else get rest k
  end.

(** [o[k] = v]: an existing property keeps its place. *)
Fixpoint set (o : object) (k : string) (v : string) : object :=
  match o with
  | [] => [(k, Some v)]
  | (k', v') :: rest =>
      if String.eqb k' k then (k', Some v) :: rest else (k', v') :: set rest k v
  end.

(** [Object.values(o)[0]]. *)
Definition values0 (o : object) : option string :=
  match o with
  | [] => None
  | (_, v) :: _ => v
  end.

(** [Object.keys(o)]. *)
Definition keys (o : object) : list string := map fst o.

(** What [JSON.stringify] keeps of an object: the properties that are
    not [undefined], in order. *)
Fixpoint stringified (o : object) : list (string * string) :=
  match o with
  | [] => []
  | (k, Some v) :: rest => (k, v) :: stringified rest
  | (_, None) :: rest => stringified rest
  end.

(** A thrown value: an [Error] with its message, or a [TypeError] raised
    by the engine on a property access of [null] or [undefined]. *)
Inductive Thrown :=
  | Error (message : string)
  | TypeError.

(** The outcome of an [await] or of a call that may throw. *)
Inductive outcome (A : Type) :=
  | Returns (a : A)
  | Throws (e : Thrown).
Arguments Returns {A} a.
Arguments Throws {A} e.

End Js.

Import Js(Returns, Throws).

(* ===================================================================== *)
(** ** [useHistoryState] (App.tsx, lines 60-102) *)
(* ===================================================================== *)

Module HistoryState.
Section Container.

Context {T : Type}.

(** [JSON.stringify(a) === JSON.stringify(b)]. *)
Variable same : T -> T -> bool.

(** The two cells of the hook: [history] and [currentIndex]. *)
Record Cells := { history : list T; currentIndex : Z }.

(** [useState([initialState])], [useState(0)]. *)
Definition init (initialState : T) : Cells :=
  {| history := [initialState]; currentIndex := 0 |}.

(** [state = history[currentIndex]]. *)
Definition state (c : Cells) : option T := Js.index (history c) (currentIndex c).

(** [setState] as created by the render that saw [history0],
    [currentIndex0] and [state0] (its [useCallback] depends on the three):
    the updater is applied to the captured state, and the new history is
    computed from the captured history and written over the cells with
    [setHistory] and [setCurrentIndex].  [App] always passes an updater
    function, so [value] is one. *)
Definition setState (history0 : list T) (currentIndex0 : Z) (state0 : T)
           (value : T -> T) (c : Cells) : Cells :=
  let newState := value state0 in
  if same newState state0 then c
  else
    let newHistory := Js.slice0 history0 (currentIndex0 + 1) ++ [newState] in
    {| history := newHistory; currentIndex := Js.length newHistory - 1 |}.

(** [undo] as created by the render that saw [currentIndex0]; the update
    itself is functional ([prevIndex => prevIndex - 1]). *)
Definition undo (currentIndex0 : Z) (c : Cells) : Cells :=
  if 0 <? currentIndex0
  then {| history := history c; currentIndex := currentIndex c - 1 |}
  else c.

(** [redo] as created by the render that saw [currentIndex0] and
    [history.length]; the update is [prevIndex => prevIndex - 1]. *)
Definition redo (currentIndex0 : Z) (length0 : Z) (c : Cells) : Cells :=
  if currentIndex0 <? length0 - 1
  then {| history := history c; currentIndex := currentIndex c - 1 |}
  else c.

(** [reset]. *)
Definition reset (newState : T) (c : Cells) : Cells :=
  {| history := [newState]; currentIndex := 0 |}.

Definition canUndo (c : Cells) : bool := 0 <? currentIndex c.
Definition canRedo (c : Cells) : bool := currentIndex c <? Js.length (history c) - 1.

(** A click on the undo or redo button of the current render. *)
Definition click_undo (c : Cells) : Cells := undo (currentIndex c) c.
Definition click_redo (c : Cells) : Cells :=
  redo (currentIndex c) (Js.length (history c)) c.

(** [currentIndex] is an index into [history]. *)
Definition valid (c : Cells) : Prop :=
  0 <= currentIndex c < Js.length (history c).

End Container.
Arguments Cells T : clear implicits.
End HistoryState.

(* ===================================================================== *)
(** ** The data of the application (types.ts, as App.tsx uses it) *)
(* ===================================================================== *)

(** ['garment' | 'accessory']. *)
Inductive ItemType := garment | accessory.

Module WardrobeItem.
Record t := { id : string; name : string; url : string; type : ItemType }.
End WardrobeItem.

(** [item.type === 'garment']. *)
Definition is_garment (item : WardrobeItem.t) : bool :=
  match WardrobeItem.type item with
  | garment => true
  | accessory => false
  end.

(** A location of the heap of [poseImages] objects. *)
Definition loc := nat.

(** [OutfitLayer]: [item] is [null] for the base model; [poseImages] is a
    reference to an object keyed by pose instruction. *)
Module OutfitLayer.
Record t := { item : option WardrobeItem.t; poseImages : loc }.
End OutfitLayer.

(** [AppState] (App.tsx, lines 51-58). *)
Module AppState.
Record t := {
  modelImageUrl : option string;
  garmentHistory : list OutfitLayer.t;
  currentGarmentIndex : Z;
  activeAccessories : list WardrobeItem.t;
  generatedAccessoryImageUrl : option string;
  currentPoseIndex : Z
}.
End AppState.

(** A layer of a saved outfit: [{ item, imageUrl }]. *)
Module StoredLayer.
Record t := { item : option WardrobeItem.t; imageUrl : option string }.
End StoredLayer.

(** [SavedOutfit], as [handleSaveOutfit] builds it. *)
Module SavedOutfit.
Record t := {
  id : string;
  name : string;
  thumbnailUrl : option string;
  modelImageUrl : option string;
  garmentHistory : list StoredLayer.t;
  activeAccessories : list WardrobeItem.t;
  wardrobe : list WardrobeItem.t
}.
End SavedOutfit.

(** A browser [File]: opaque to the application, which only passes it on. *)
Record File := { file_name : string; file_data : string }.

(** The calls into [geminiService] that [App] makes. *)
Inductive Request :=
| GarmentTryOn (modelImageUrl : option string) (itemImage : File)
| AccessoryTryOn (modelImageUrl : string) (accessoryFiles : list File)
                 (accessories : list WardrobeItem.t)
| PoseVariation (tryOnImageUrl : string) (poseInstruction : option string).

(** What the application does not define itself: [urlToFile] and
    [getFriendlyErrorMessage] of [lib/utils], and the outcome of a call
    into [geminiService], which may depend on the calls made before it. *)
Class Env := {
  urlToFile : string -> string -> Js.outcome File;
  gemini : list Request -> Request -> Js.outcome string;
  getFriendlyErrorMessage : Js.Thrown -> string -> string
}.

(** [POSE_INSTRUCTIONS] (App.tsx, lines 21-28). *)
Definition POSE_INSTRUCTIONS : list string :=
  [ "Full frontal view, hands on hips";
    "Slightly turned, 3/4 view";
    "Side profile view";
    "Jumping in the air, mid-action shot";
    "Walking towards camera";
    "Leaning against a wall" ]%string.

(** [POSE_INSTRUCTIONS[i]] used as a property key: [undefined] is
    converted to the key ["undefined"]. *)
Definition pose_key (i : Z) : string := Js.template (Js.index POSE_INSTRUCTIONS i).

(** The cells of [App] and of [WardrobePanel], the heap of [poseImages]
    objects and the log of service calls. *)
Record World := {
  hist : HistoryState.Cells AppState.t;
  isLoading : bool;
  loadingMessage : string;
  error : option string;
  wardrobe : list WardrobeItem.t;
  savedOutfits : list SavedOutfit.t;
  panelError : option string;
  heap : list Js.object;
  calls : list Request
}.

Definition setHist (v : HistoryState.Cells AppState.t) (w : World) : World :=
  {| hist := v; isLoading := isLoading w; loadingMessage := loadingMessage w;
     error := error w; wardrobe := wardrobe w; savedOutfits := savedOutfits w;
     panelError := panelError w; heap := heap w; calls := calls w |}.

Definition setIsLoading (v : bool) (w : World) : World :=
  {| hist := hist w; isLoading := v; loadingMessage := loadingMessage w;
     error := error w; wardrobe := wardrobe w; savedOutfits := savedOutfits w;
     panelError := panelError w; heap := heap w; calls := calls w |}.

Definition setLoadingMessage (v : string) (w : World) : World :=
  {| hist := hist w; isLoading := isLoading w; loadingMessage := v;
     error := error w; wardrobe := wardrobe w; savedOutfits := savedOutfits w;
     panelError := panelError w; heap := heap w; calls := calls w |}.

Definition setError (v : option string) (w : World) : World :=
  {| hist := hist w; isLoading := isLoading w; loadingMessage := loadingMessage w;
     error := v; wardrobe := wardrobe w; savedOutfits := savedOutfits w;
     panelError := panelError w; heap := heap w; calls := calls w |}.

Definition setWardrobe (v : list WardrobeItem.t) (w : World) : World :=
  {| hist := hist w; isLoading := isLoading w; loadingMessage := loadingMessage w;
     error := error w; wardrobe := v; savedOutfits := savedOutfits w;
     panelError := panelError w; heap := heap w; calls := calls w |}.

Definition setSavedOutfits (v : list SavedOutfit.t) (w : World) : World :=
  {| hist := hist w; isLoading := isLoading w; loadingMessage := loadingMessage w;
     error := error w; wardrobe := wardrobe w; savedOutfits := v;
     panelError := panelError w; heap := heap w; calls := calls w |}.

Definition setPanelError (v : option string) (w : World) : World :=
  {| hist := hist w; isLoading := isLoading w; loadingMessage := loadingMessage w;
     error := error w; wardrobe := wardrobe w; savedOutfits := savedOutfits w;
     panelError := v; heap := heap w; calls := calls w |}.

Definition setHeap (v : list Js.object) (w : World) : World :=
  {| hist := hist w; isLoading := isLoading w; loadingMessage := loadingMessage w;
     error := error w; wardrobe := wardrobe w; savedOutfits := savedOutfits w;
     panelError := panelError w; heap := v; calls := calls w |}.

Definition setCalls (v : list Request) (w : World) : World :=
  {| hist := hist w; isLoading := isLoading w; loadingMessage := loadingMessage w;
     error := error w; wardrobe := wardrobe w; savedOutfits := savedOutfits w;
     panelError := panelError w; heap := heap w; calls := v |}.

Notation "w |> f" := (f w) (at level 45, left associativity, only parsing).

(** The object at a location; every location a layer holds is allocated. *)
Definition deref (h : list Js.object) (l : loc) : Js.object := nth l h [].

(** [{ [k]: v }] as a new object of the heap. *)
Definition alloc (o : Js.object) (w : World) : loc * World :=
  (List.length (heap w), setHeap (heap w ++ [o]) w).

(** The heap with [f] applied to the object at [l]. *)
Fixpoint update {A} (l : nat) (f : A -> A) (h : list A) : list A :=
  match h, l with
  | [], _ => []
  | x :: rest, O => f x :: rest
  | x :: rest, S l' => x :: update l' f rest
  end.

(** [o[k] = v] on the object [o] at [l]. *)
Definition assign (l : loc) (k : string) (v : string) (w : World) : World :=
  setHeap (update l (fun o => Js.set o k v) (heap w)) w.

(* ===================================================================== *)
(** ** [App] (App.tsx, lines 142-590) *)
(* ===================================================================== *)

(** What [JSON.stringify] shows of a state: the layers with the contents of
    their [poseImages] objects.  The two states [setState] compares always
    list their keys in the same order, the new one being a spread of the
    old one, so the strings are equal exactly when these values are. *)
Definition JsonState : Type :=
  option string * list (option WardrobeItem.t * list (string * string)) * Z
  * list WardrobeItem.t * option string * Z.

Definition json_layer (h : list Js.object) (l : OutfitLayer.t)
  : option WardrobeItem.t * list (string * string) :=
  (OutfitLayer.item l, Js.stringified (deref h (OutfitLayer.poseImages l))).

Definition json_state (h : list Js.object) (s : AppState.t) : JsonState :=
  (AppState.modelImageUrl s,
   map (json_layer h) (AppState.garmentHistory s),
   AppState.currentGarmentIndex s,
   AppState.activeAccessories s,
   AppState.generatedAccessoryImageUrl s,
   AppState.currentPoseIndex s).

Definition JsonState_eq_dec (a b : JsonState) : {a = b} + {a <> b}.
Proof. repeat decide equality. Defined.

(** [JSON.stringify(a) === JSON.stringify(b)], on the heap [h]. *)
Definition same_json (h : list Js.object) (a b : AppState.t) : bool :=
  if JsonState_eq_dec (json_state h a) (json_state h b) then true else false.

(** [initialState]. *)
Definition initialState : AppState.t :=
  {| AppState.modelImageUrl := None;
     AppState.garmentHistory := [];
     AppState.currentGarmentIndex := 0;
     AppState.activeAccessories := [];
     AppState.generatedAccessoryImageUrl := None;
     AppState.currentPoseIndex := 0 |}.

(** [activeGarmentLayers]. *)
Definition activeGarmentLayers (s : AppState.t) : list OutfitLayer.t :=
  Js.slice0 (AppState.garmentHistory s) (AppState.currentGarmentIndex s + 1).

(** [layers.map(layer => layer.item!.id)]: a [null] item throws. *)
Fixpoint item_ids (layers : list OutfitLayer.t) : option (list string) :=
  match layers with
  | [] => Some []
  | l :: rest =>
      match OutfitLayer.item l, item_ids rest with
      | Some it, Some ids => Some (WardrobeItem.id it :: ids)
      | _, _ => None
      end
  end.

(** One render of [App]: the cells it saw, the state it destructured and
    the ids of the active garments it computed.  The handlers it created
    close over these values. *)
Record Render := {
  snapshot : World;
  state : AppState.t;
  activeGarmentIds : list string
}.

(** [App] renders when [state] is defined and every active garment layer
    has an item; otherwise the render throws. *)
Definition render (w : World) : option Render :=
  match HistoryState.state (hist w) with
  | Some s =>
      match item_ids (Js.slice1 (activeGarmentLayers s)) with
      | Some ids => Some {| snapshot := w; state := s; activeGarmentIds := ids |}
      | None => None
      end
  | None => None
  end.

Definition activeAccessoryIds (r : Render) : list string :=
  map WardrobeItem.id (AppState.activeAccessories (state r)).

Definition activeItemIds (r : Render) : list string :=
  activeGarmentIds r ++ activeAccessoryIds r.

(** [displayImageUrl] (lines 186-194), computed on the heap of the render. *)
Definition displayImageUrl (r : Render) : option string :=
  let s := state r in
  match Js.index (AppState.garmentHistory s) (AppState.currentGarmentIndex s) with
  | None => AppState.modelImageUrl s
  | Some currentGarmentLayer =>
      let images := deref (heap (snapshot r)) (OutfitLayer.poseImages currentGarmentLayer) in
      let baseGarmentImageUrl :=
        Js.nullish (Js.get images (pose_key (AppState.currentPoseIndex s)))
                   (Js.values0 images) in
      Js.nullish (AppState.generatedAccessoryImageUrl s) baseGarmentImageUrl
  end.

(** The [setState] and [reset] of [useHistoryState], as the render [r]
    holds them.  [setState] is a [useCallback] over [history],
    [currentIndex] and [state] (line 79) and [updateAccessoryLayer] one
    over [setState] (line 258), so every [setState] a handler reaches,
    directly or through [updateAccessoryLayer], is the one of the render
    that created the handler: it reads [state r] and the history of
    [snapshot r], whatever was written to the cells in between.  The
    comparison of the two [JSON.stringify] reads the [poseImages] objects
    as they are when it runs. *)
Definition setState (r : Render) (value : AppState.t -> AppState.t) (w : World) : World :=
  let seen := hist (snapshot r) in
  setHist (HistoryState.setState (same_json (heap w))
             (HistoryState.history seen) (HistoryState.currentIndex seen)
             (state r) value (hist w)) w.

Definition reset (newState : AppState.t) (w : World) : World :=
  setHist (HistoryState.reset newState (hist w)) w.

(** The undo and redo buttons of the canvas. *)
Definition undo (r : Render) (w : World) : World :=
  setHist (HistoryState.undo (HistoryState.currentIndex (hist (snapshot r))) (hist w)) w.

Definition redo (r : Render) (w : World) : World :=
  let seen := hist (snapshot r) in
  setHist (HistoryState.redo (HistoryState.currentIndex seen)
             (Js.length (HistoryState.history seen)) (hist w)) w.

Section Handlers.

Context {E : Env}.

(** A call into [geminiService]: logged, answered by the environment. *)
Definition call (req : Request) (w : World) : Js.outcome string * World :=
  (gemini (calls w) req, setCalls (calls w ++ [req]) w).

(** [Promise.all(accessories.map(acc => urlToFile(acc.url, acc.name)))];
    of several failures the first in the list is the one reported. *)
Fixpoint accessoryFiles (accessories : list WardrobeItem.t) : Js.outcome (list File) :=
  match accessories with
  | [] => Returns []
  | acc :: rest =>
      match urlToFile (WardrobeItem.url acc) (WardrobeItem.name acc) with
      | Throws e => Throws e
      | Returns f =>
          match accessoryFiles rest with
          | Throws e => Throws e
          | Returns fs => Returns (f :: fs)
          end
      end
  end.

(** [baseImageUrl] of [updateAccessoryLayer] (lines 232-233); the
    [poseImages] object is read when the function runs. *)
Definition accessoryBaseImageUrl (r : Render) (overrideBaseImageUrl : option string)
           (w : World) : option string :=
  let s := state r in
  let currentGarmentLayer :=
    Js.index (AppState.garmentHistory s) (AppState.currentGarmentIndex s) in
  Js.nullish overrideBaseImageUrl
    match currentGarmentLayer with
    | Some layer => Js.values0 (deref (heap w) (OutfitLayer.poseImages layer))
    | None => AppState.modelImageUrl s
    end.

(** [updateAccessoryLayer] (lines 231-258). *)
Definition updateAccessoryLayer (r : Render) (accessories : list WardrobeItem.t)
           (overrideBaseImageUrl : option string) (w : World) : World :=
  let baseImageUrl := accessoryBaseImageUrl r overrideBaseImageUrl w in
  match baseImageUrl with
  | None => w
  | Some base =>
      if String.eqb base "" then w
      else
        match accessories with
        | [] =>
            w |> setState r (fun prev =>
              {| AppState.modelImageUrl := AppState.modelImageUrl prev;
                 AppState.garmentHistory := AppState.garmentHistory prev;
                 AppState.currentGarmentIndex := AppState.currentGarmentIndex prev;
                 AppState.activeAccessories := [];
                 AppState.generatedAccessoryImageUrl := None;
                 AppState.currentPoseIndex := AppState.currentPoseIndex prev |})
        | _ :: _ =>
            let w := w |> setIsLoading true
                       |> setLoadingMessage "Styling accessories..."
                       |> setError None in
            let w :=
              match accessoryFiles accessories with
              | Throws err =>
                  w |> setError (Some (getFriendlyErrorMessage err "Failed to apply accessories"))
              | Returns files =>
                  match call (AccessoryTryOn base files accessories) w with
                  | (Throws err, w) =>
                      w |> setError (Some (getFriendlyErrorMessage err "Failed to apply accessories"))
                  | (Returns newImageUrl, w) =>
                      w |> setState r (fun prev =>
                        {| AppState.modelImageUrl := AppState.modelImageUrl prev;
                           AppState.garmentHistory := AppState.garmentHistory prev;
                           AppState.currentGarmentIndex := AppState.currentGarmentIndex prev;
                           AppState.activeAccessories := accessories;
                           AppState.generatedAccessoryImageUrl := Some newImageUrl;
                           AppState.currentPoseIndex := AppState.currentPoseIndex prev |})
                  end
              end in
            w |> setIsLoading false |> setLoadingMessage ""
        end
  end.

(** [handleModelFinalized] (lines 260-269). *)
Definition handleModelFinalized (url : string) (w : World) : World :=
  let (l, w) := alloc [(pose_key 0, Some url)] w in
  w |> reset
    {| AppState.modelImageUrl := Some url;
       AppState.garmentHistory := [ {| OutfitLayer.item := None; OutfitLayer.poseImages := l |} ];
       AppState.currentGarmentIndex := 0;
       AppState.activeAccessories := [];
       AppState.generatedAccessoryImageUrl := None;
       AppState.currentPoseIndex := 0 |}.

(** [nextLayer && nextLayer.item?.id === itemInfo.id]. *)
Definition is_next_layer (s : AppState.t) (itemInfo : WardrobeItem.t) : bool :=
  match Js.index (AppState.garmentHistory s) (AppState.currentGarmentIndex s + 1) with
  | Some nextLayer =>
      match OutfitLayer.item nextLayer with
      | Some it => String.eqb (WardrobeItem.id it) (WardrobeItem.id itemInfo)
      | None => false
      end
  | None => false
  end.

(** The base image of [handleItemSelect]:
    [displayImageUrl?.startsWith('data:') ? displayImageUrl : modelImageUrl]. *)
Definition baseGarmentImageUrl (r : Render) : option string :=
  if Js.startsWith "data:" (displayImageUrl r)
  then displayImageUrl r
  else AppState.modelImageUrl (state r).

(** The accessories after a click on [itemInfo] (lines 327-330). *)
Definition toggled (activeAccessories : list WardrobeItem.t) (itemInfo : WardrobeItem.t)
  : list WardrobeItem.t :=
  let isAlreadyActive :=
    existsb (fun acc => String.eqb (WardrobeItem.id acc) (WardrobeItem.id itemInfo))
            activeAccessories in
  if isAlreadyActive
  then filter (fun acc => negb (String.eqb (WardrobeItem.id acc) (WardrobeItem.id itemInfo)))
              activeAccessories
  else activeAccessories ++ [itemInfo].

(** [handleItemSelect] (lines 281-334). *)
Definition handleItemSelect (r : Render) (itemFile : File) (itemInfo : WardrobeItem.t)
           (w : World) : World :=
  let s := state r in
  match baseGarmentImageUrl r with
  | None => w
  | Some base =>
      if String.eqb base "" || isLoading (snapshot r) then w
      else
        match WardrobeItem.type itemInfo with
        | garment =>
            if is_next_layer s itemInfo then
              w |> setState r (fun prev =>
                {| AppState.modelImageUrl := AppState.modelImageUrl prev;
                   AppState.garmentHistory := AppState.garmentHistory prev;
                   AppState.currentGarmentIndex := AppState.currentGarmentIndex prev + 1;
                   AppState.activeAccessories := [];
                   AppState.generatedAccessoryImageUrl := None;
                   AppState.currentPoseIndex := 0 |})
            else
              let w := w |> setError None
                         |> setIsLoading true
                         |> setLoadingMessage ("Adding " ++ WardrobeItem.name itemInfo ++ "...") in
              let w :=
                match call (GarmentTryOn (Some base) itemFile) w with
                | (Throws err, w) =>
                    w |> setError (Some (getFriendlyErrorMessage err "Failed to apply item"))
                | (Returns newImageUrl, w) =>
                    let currentPoseInstruction := pose_key (AppState.currentPoseIndex s) in
                    let (l, w) := alloc [(currentPoseInstruction, Some newImageUrl)] w in
                    let newLayer :=
                      {| OutfitLayer.item := Some itemInfo; OutfitLayer.poseImages := l |} in
                    w |> setState r (fun prev =>
                           let newHistory :=
                             Js.slice0 (AppState.garmentHistory prev)
                                       (AppState.currentGarmentIndex prev + 1) in
                           {| AppState.modelImageUrl := AppState.modelImageUrl prev;
                              AppState.garmentHistory := newHistory ++ [newLayer];
                              AppState.currentGarmentIndex := AppState.currentGarmentIndex prev + 1;
                              AppState.activeAccessories := [];
                              AppState.generatedAccessoryImageUrl := None;
                              AppState.currentPoseIndex := AppState.currentPoseIndex prev |})
                      |> (fun w =>
                           let prev := wardrobe w in
                           if existsb (fun item => String.eqb (WardrobeItem.id item)
                                                              (WardrobeItem.id itemInfo)) prev
                           then w
                           else setWardrobe (prev ++ [itemInfo]) w)
                end in
              w |> setIsLoading false |> setLoadingMessage ""
        | accessory =>
            updateAccessoryLayer r (toggled (AppState.activeAccessories s) itemInfo) None w
        end
  end%string.

(** [handleRemoveLastGarment] (lines 336-346). *)
Definition handleRemoveLastGarment (r : Render) (w : World) : World :=
  if 0 <? AppState.currentGarmentIndex (state r) then
    w |> setState r (fun prev =>
      {| AppState.modelImageUrl := AppState.modelImageUrl prev;
         AppState.garmentHistory := AppState.garmentHistory prev;
         AppState.currentGarmentIndex := AppState.currentGarmentIndex prev - 1;
         AppState.activeAccessories := [];
         AppState.generatedAccessoryImageUrl := None;
         AppState.currentPoseIndex := 0 |})
  else w.

(** [handlePoseSelect] (lines 348-391).  The generated image is written
    into the [poseImages] object of the current layer itself. *)
Definition handlePoseSelect (r : Render) (newIndex : Z) (w : World) : World :=
  let s := state r in
  if isLoading (snapshot r)
     || (Js.length (AppState.garmentHistory s) =? 0)
     || (newIndex =? AppState.currentPoseIndex s)
  then w
  else
    let poseInstruction := Js.index POSE_INSTRUCTIONS newIndex in
    match Js.index (AppState.garmentHistory s) (AppState.currentGarmentIndex s) with
    | None => w (* [currentLayer.poseImages] throws before the [try] *)
    | Some currentLayer =>
        let l := OutfitLayer.poseImages currentLayer in
        let cached := Js.get (deref (heap w) l) (Js.template poseInstruction) in
        if Js.truthy cached then
          let w := w |> setState r (fun prev =>
            {| AppState.modelImageUrl := AppState.modelImageUrl prev;
               AppState.garmentHistory := AppState.garmentHistory prev;
               AppState.currentGarmentIndex := AppState.currentGarmentIndex prev;
               AppState.activeAccessories := AppState.activeAccessories prev;
               AppState.generatedAccessoryImageUrl := AppState.generatedAccessoryImageUrl prev;
               AppState.currentPoseIndex := newIndex |}) in
          match AppState.activeAccessories s with
          | [] => w
          | _ :: _ => updateAccessoryLayer r (AppState.activeAccessories s) cached w
          end
        else
          match Js.values0 (deref (heap w) l) with
          | None => w
          | Some baseImageForPoseChange =>
              if String.eqb baseImageForPoseChange "" then w
              else
                let w := w |> setError None
                           |> setIsLoading true
                           |> setLoadingMessage "Changing pose..." in
                let w :=
                  match call (PoseVariation baseImageForPoseChange poseInstruction) w with
                  | (Throws err, w) =>
                      w |> setError (Some (getFriendlyErrorMessage err "Failed to change pose"))
                  | (Returns newImageUrl, w) =>
                      let newHistory := AppState.garmentHistory s in
                      let w := w |> assign l (Js.template poseInstruction) newImageUrl
                                 |> setState r (fun prev =>
                        {| AppState.modelImageUrl := AppState.modelImageUrl prev;
                           AppState.garmentHistory := newHistory;
                           AppState.currentGarmentIndex := AppState.currentGarmentIndex prev;
                           AppState.activeAccessories := AppState.activeAccessories prev;
                           AppState.generatedAccessoryImageUrl :=
                             AppState.generatedAccessoryImageUrl prev;
                           AppState.currentPoseIndex := newIndex |}) in
                      match AppState.activeAccessories s with
                      | [] => w
                      | _ :: _ =>
                          updateAccessoryLayer r (AppState.activeAccessories s)
                                               (Some newImageUrl) w
                      end
                  end in
                w |> setIsLoading false |> setLoadingMessage ""
          end
    end.

(** [handleSaveOutfit] (lines 393-416).  [now] and [localeString] are
    [Date.now()] and [new Date().toLocaleString()]; the timer that clears
    the error four seconds later is left out. *)
Definition handleSaveOutfit (r : Render) (now localeString : string) (w : World) : World :=
  let s := state r in
  if negb (Js.truthy (AppState.modelImageUrl s))
     || negb (Js.truthy (displayImageUrl r))
     || ((AppState.currentGarmentIndex s =? 0)
         && (Js.length (AppState.activeAccessories s) =? 0))
  then w |> setError (Some "Add at least one item to save an outfit."%string)
  else
    let historyToSave :=
      map (fun layer =>
             {| StoredLayer.item := OutfitLayer.item layer;
                StoredLayer.imageUrl :=
                  Js.values0 (deref (heap w) (OutfitLayer.poseImages layer)) |})
          (activeGarmentLayers s) in
    let newSavedOutfit :=
      {| SavedOutfit.id := ("outfit-" ++ now)%string;
         SavedOutfit.name := ("Outfit - " ++ localeString)%string;
         SavedOutfit.thumbnailUrl := displayImageUrl r;
         SavedOutfit.modelImageUrl := AppState.modelImageUrl s;
         SavedOutfit.garmentHistory := historyToSave;
         SavedOutfit.activeAccessories := AppState.activeAccessories s;
         SavedOutfit.wardrobe := wardrobe (snapshot r) |} in
    w |> (fun w => setSavedOutfits (newSavedOutfit :: savedOutfits w) w).

(** [outfitToLoad.garmentHistory.map(storedLayer => ...)] (lines 427-430):
    every layer gets a new [poseImages] object. *)
Fixpoint reconstruct (stored : list StoredLayer.t) (w : World)
  : list OutfitLayer.t * World :=
  match stored with
  | [] => ([], w)
  | storedLayer :: rest =>
      let (l, w) := alloc [(pose_key 0, StoredLayer.imageUrl storedLayer)] w in
      let (layers, w) := reconstruct rest w in
      ({| OutfitLayer.item := StoredLayer.item storedLayer;
          OutfitLayer.poseImages := l |} :: layers, w)
  end.

(** [handleLoadOutfit] (lines 418-454), the body of its timer included.
    [updateAccessoryLayer] is not awaited there; its continuation and the
    two statements after the call write the same values to [isLoading]
    and [loadingMessage], so the order between them does not show. *)
Definition handleLoadOutfit (r : Render) (outfitId : string) (w : World) : World :=
  if isLoading (snapshot r) then w
  else
    match find (fun o => String.eqb (SavedOutfit.id o) outfitId)
               (savedOutfits (snapshot r)) with
    | None => w
    | Some outfitToLoad =>
        let w := w |> setError None
                   |> setIsLoading true
                   |> setLoadingMessage "Loading outfit..." in
        let (reconstructedHistory, w) :=
          reconstruct (SavedOutfit.garmentHistory outfitToLoad) w in
        let w := w |> reset
                  {| AppState.modelImageUrl := SavedOutfit.modelImageUrl outfitToLoad;
                     AppState.garmentHistory := reconstructedHistory;
                     AppState.currentGarmentIndex := Js.length reconstructedHistory - 1;
                     AppState.activeAccessories := SavedOutfit.activeAccessories outfitToLoad;
                     AppState.generatedAccessoryImageUrl := None;
                     AppState.currentPoseIndex := 0 |}
                   |> setWardrobe (SavedOutfit.wardrobe outfitToLoad) in
        match SavedOutfit.activeAccessories outfitToLoad with
        | _ :: _ =>
            match Js.index reconstructedHistory (Js.length reconstructedHistory - 1) with
            | None => w (* a [TypeError] ends the callback here *)
            | Some lastLayer =>
                let baseImageUrl :=
                  Js.values0 (deref (heap w) (OutfitLayer.poseImages lastLayer)) in
                w |> updateAccessoryLayer r (SavedOutfit.activeAccessories outfitToLoad)
                                          baseImageUrl
                  |> setIsLoading false |> setLoadingMessage ""
            end
        | [] =>
            w |> setState r (fun prev =>
                   {| AppState.modelImageUrl := AppState.modelImageUrl prev;
                      AppState.garmentHistory := AppState.garmentHistory prev;
                      AppState.currentGarmentIndex := AppState.currentGarmentIndex prev;
                      AppState.activeAccessories := AppState.activeAccessories prev;
                      AppState.generatedAccessoryImageUrl := None;
                      AppState.currentPoseIndex := AppState.currentPoseIndex prev |})
              |> setIsLoading false |> setLoadingMessage ""
        end
    end.

(** [l.item?.id]. *)
Definition layer_id (l : OutfitLayer.t) : option string :=
  option_map WardrobeItem.id (OutfitLayer.item l).

Definition ids_eq_dec (a b : list (option string)) : {a = b} + {a <> b}.
Proof. repeat decide equality. Defined.

(** [JSON.stringify(a.map(l => l.item?.id)) === JSON.stringify(b.map(...))]:
    [undefined] is printed as [null], a string in quotes. *)
Definition same_ids (a b : list OutfitLayer.t) : bool :=
  if ids_eq_dec (map layer_id a) (map layer_id b) then true else false.

(** The loop of [handleReorderGarments] (lines 486-499) over the layers
    that are still to apply. *)
Fixpoint regenerate (layers : list OutfitLayer.t) (currentImage : option string)
         (regeneratedLayers : list OutfitLayer.t) (w : World)
  : Js.outcome (option string * list OutfitLayer.t) * World :=
  match layers with
  | [] => (Returns (currentImage, regeneratedLayers), w)
  | layerToApply :: rest =>
      match OutfitLayer.item layerToApply with
      | None => (Throws Js.TypeError, w)
      | Some itemInfo =>
          match urlToFile (WardrobeItem.url itemInfo) (WardrobeItem.name itemInfo) with
          | Throws err => (Throws err, w)
          | Returns itemFile =>
              match call (GarmentTryOn currentImage itemFile) w with
              | (Throws err, w) => (Throws err, w)
              | (Returns newImageUrl, w) =>
                  let (l, w) := alloc [(pose_key 0, Some newImageUrl)] w in
                  let newLayer :=
                    {| OutfitLayer.item := Some itemInfo; OutfitLayer.poseImages := l |} in
                  regenerate rest (Some newImageUrl) (regeneratedLayers ++ [newLayer]) w
              end
          end
      end
  end.

(** [handleReorderGarments] (lines 471-520). *)
Definition handleReorderGarments (r : Render) (reorderedItems : list OutfitLayer.t)
           (w : World) : World :=
  let s := state r in
  match AppState.garmentHistory s with
  | [] => w (* [l.item] on [undefined] throws before the [try] *)
  | base :: _ =>
      let newOrderedHistory := base :: reorderedItems in
      if same_ids newOrderedHistory (AppState.garmentHistory s) then w
      else
        let w := w |> setError None
                   |> setIsLoading true
                   |> setLoadingMessage "Re-styling your outfit..." in
        let w :=
          match regenerate reorderedItems (AppState.modelImageUrl s) [base] w with
          | (Throws err, w) =>
              w |> setError (Some (getFriendlyErrorMessage err
                     "Failed to reorder outfit. Reverting to previous order."))
          | (Returns (finalGarmentImage, regeneratedLayers), w) =>
              let w := w |> setState r (fun prev =>
                {| AppState.modelImageUrl := AppState.modelImageUrl prev;
                   AppState.garmentHistory := regeneratedLayers;
                   AppState.currentGarmentIndex := Js.length regeneratedLayers - 1;
                   AppState.activeAccessories := AppState.activeAccessories prev;
                   AppState.generatedAccessoryImageUrl :=
                     AppState.generatedAccessoryImageUrl prev;
                   AppState.currentPoseIndex := 0 |}) in
              match AppState.activeAccessories s with
              | [] => w
              | _ :: _ =>
                  updateAccessoryLayer r (AppState.activeAccessories s) finalGarmentImage w
              end
          end in
        w |> setIsLoading false |> setLoadingMessage ""
  end.

(** [handleItemClick] of [WardrobePanel] (WardrobeModal.tsx, lines 23-37),
    with the props [App] passes at the render [r]. *)
Definition handleItemClick (r : Render) (item : WardrobeItem.t) (w : World) : World :=
  if isLoading (snapshot r) then w
  else if is_garment item && existsb (String.eqb (WardrobeItem.id item)) (activeItemIds r)
  then w
  else
    let w := w |> setPanelError None in
    match urlToFile (WardrobeItem.url item) (WardrobeItem.name item) with
    | Returns file => handleItemSelect r file item w
    | Throws _ =>
        w |> setPanelError (Some
          "Failed to load wardrobe item. This is often a CORS issue. Check the developer console for details."%string)
    end.

(* --------------------------------------------------------------------- *)
(** *** Notions used to state the properties of the handlers *)

(** What every handler leaves behind when its generation call fails: the
    history cells and the heap as they were, the error set to the
    friendly message, and the loading flag and message cleared. *)
Definition displays_error (w w' : World) (err : Js.Thrown) (context : string) : Prop :=
  hist w' = hist w
  /\ heap w' = heap w
  /\ error w' = Some (getFriendlyErrorMessage err context)
  /\ isLoading w' = false
  /\ loadingMessage w' = ""%string.

(** [regenerated h log image layers made new final]: applying [layers] in
    order on top of [image], with [log] the calls made before, makes the
    calls [made] and the layers [new] and ends with the image [final].
    Each call takes the image the call before it returned (the first one
    takes [image]), and each new layer holds the item of the layer it
    replaces and the image its call returned, under the first pose
    instruction. *)
Inductive regenerated (h : list Js.object) :
  list Request -> option string -> list OutfitLayer.t ->
  list Request -> list OutfitLayer.t -> option string -> Prop :=
| regenerated_nil log image : regenerated h log image [] [] [] image
| regenerated_cons log image layerToApply rest itemInfo itemFile newImageUrl
                   newLayer made new final :
    OutfitLayer.item layerToApply = Some itemInfo ->
    urlToFile (WardrobeItem.url itemInfo) (WardrobeItem.name itemInfo) = Returns itemFile ->
    gemini log (GarmentTryOn image itemFile) = Returns newImageUrl ->
    OutfitLayer.item newLayer = Some itemInfo ->
    deref h (OutfitLayer.poseImages newLayer) = [(pose_key 0, Some newImageUrl)] ->
    regenerated h (log ++ [GarmentTryOn image itemFile]) (Some newImageUrl) rest
                made new final ->
    regenerated h log image (layerToApply :: rest)
                (GarmentTryOn image itemFile :: made) (newLayer :: new) final.

End Handlers.

(** The state with the accessories and their image replaced. *)
Definition with_accessories (accessories : list WardrobeItem.t) (image : option string)
           (s : AppState.t) : AppState.t :=
  {| AppState.modelImageUrl := AppState.modelImageUrl s;
     AppState.garmentHistory := AppState.garmentHistory s;
     AppState.currentGarmentIndex := AppState.currentGarmentIndex s;
     AppState.activeAccessories := accessories;
     AppState.generatedAccessoryImageUrl := image;
     AppState.currentPoseIndex := AppState.currentPoseIndex s |}.

(** The state with another pose index. *)
Definition with_pose (newIndex : Z) (s : AppState.t) : AppState.t :=
  {| AppState.modelImageUrl := AppState.modelImageUrl s;
     AppState.garmentHistory := AppState.garmentHistory s;
     AppState.currentGarmentIndex := AppState.currentGarmentIndex s;
     AppState.activeAccessories := AppState.activeAccessories s;
     AppState.generatedAccessoryImageUrl := AppState.generatedAccessoryImageUrl s;
     AppState.currentPoseIndex := newIndex |}.

(** An accessory is active when its id is among the active ones. *)
Definition active (accessories : list WardrobeItem.t) (itemInfo : WardrobeItem.t) : Prop :=
  In (WardrobeItem.id itemInfo) (map WardrobeItem.id accessories).

(** The active accessories without those of the id of [itemInfo]. *)
Definition without (accessories : list WardrobeItem.t) (itemInfo : WardrobeItem.t)
  : list WardrobeItem.t :=
  filter (fun acc => negb (String.eqb (WardrobeItem.id acc) (WardrobeItem.id itemInfo)))
         accessories.

(** A stored layer is restored by a layer with the same item whose
    [poseImages] object holds the stored image alone, under the first
    pose instruction. *)
Definition restores (h : list Js.object) (stored : StoredLayer.t) (l : OutfitLayer.t) : Prop :=
  OutfitLayer.item l = StoredLayer.item stored
  /\ deref h (OutfitLayer.poseImages l) = [(pose_key 0, StoredLayer.imageUrl stored)].

(* ===================================================================== *)
(** ** [services/geminiService.ts] *)
(* ===================================================================== *)

Module GeminiService.

(** The parts of a [GenerateContentResponse] that [handleApiResponse]
    reads.  [text] is the response's text accessor. *)
Record InlineData := { mimeType : option string; data : option string }.
Record Part := { inlineData : option InlineData; partText : option string }.
Record Content := { parts : option (list Part) }.
Record Candidate := { content : option Content; finishReason : option string }.
Record PromptFeedback := {
  blockReason : option string;
  blockReasonMessage : option string
}.
Record GenerateContentResponse := {
  promptFeedback : option PromptFeedback;
  candidates : option (list Candidate);
  text : option string
}.

(** The double quote of the messages. *)
Definition dquote : string := String (Ascii.ascii_of_nat 34) EmptyString.

(** The line feed of the prompts. *)
Definition newline : string := String (Ascii.ascii_of_nat 10) EmptyString.

(** [candidate.content?.parts ?? []]. *)
Definition parts_of (c : Candidate) : list Part :=
  match content c with
  | Some ct =>
      match parts ct with
      | Some ps => ps
      | None => []
      end
  | None => []
  end.

(** [parts?.find(part => part.inlineData)?.inlineData]. *)
Fixpoint find_inline (ps : list Part) : option InlineData :=
  match ps with
  | [] => None
  | p :: rest =>
      match inlineData p with
      | Some d => Some d
      | None => find_inline rest
      end
  end.

(** The loop over the candidates (lines 41-47). *)
Fixpoint first_image (cs : list Candidate) : option InlineData :=
  match cs with
  | [] => None
  | candidate :: rest =>
      match find_inline (parts_of candidate) with
      | Some d => Some d
      | None => first_image rest
      end
  end.

(** [`data:${mimeType};base64,${data}`]. *)
Definition data_url (d : InlineData) : string :=
  ("data:" ++ Js.template (mimeType d) ++ ";base64," ++ Js.template (data d))%string.

Definition blocked_message (pf : PromptFeedback) : string :=
  ("Request was blocked. Reason: " ++ Js.template (blockReason pf) ++ ". "
   ++ (if Js.truthy (blockReasonMessage pf) then Js.template (blockReasonMessage pf) else ""))%string.

Definition stopped_message (finishReason : string) : string :=
  ("Image generation stopped unexpectedly. Reason: " ++ finishReason
   ++ ". This often relates to safety settings.")%string.

Definition no_image_message (textFeedback : option string) : string :=
  ("The AI model did not return an image. "
   ++ (if Js.truthy textFeedback
       then "The model responded with text: " ++ dquote ++ Js.template textFeedback ++ dquote
       else "This can happen due to safety filters or if the request is too complex. Please try a different image."))%string.

(** [response.promptFeedback?.blockReason] is truthy. *)
Definition blocked (response : GenerateContentResponse) : option PromptFeedback :=
  match promptFeedback response with
  | Some pf => if Js.truthy (blockReason pf) then Some pf else None
  | None => None
  end.

(** [response.candidates?.[0]?.finishReason]. *)
Definition first_finishReason (response : GenerateContentResponse) : option string :=
  match candidates response with
  | Some (c :: _) => finishReason c
  | _ => None
  end.

(** The parts of a response in the order [handleApiResponse] scans them:
    candidate by candidate. *)
Definition all_parts (response : GenerateContentResponse) : list Part :=
  flat_map parts_of (match candidates response with Some cs => cs | None => [] end).

(** What [handleApiResponse] is specified on: the response as data.
    [carries c ps]: the candidate [c] has the parts [ps]. *)
Definition carries (c : Candidate) (ps : list Part) : Prop :=
  exists ct, content c = Some ct /\ parts ct = Some ps.

(** No part of the candidates [cs] holds inline data. *)
Definition imageless (cs : list Candidate) : Prop :=
  forall c ps p, In c cs -> carries c ps -> In p ps -> inlineData p = None.

(** [d] is the inline data of the first part that holds some, the
    candidates [cs] read in order and the parts of each in order. *)
Definition first_inline_image (cs : list Candidate) (d : InlineData) : Prop :=
  exists before c after ps1 p ps2,
    cs = before ++ c :: after
    /\ imageless before
    /\ carries c (ps1 ++ p :: ps2)
    /\ (forall q, In q ps1 -> inlineData q = None)
    /\ inlineData p = Some d.

(** The response has no [promptFeedback] with a block reason. *)
Definition unblocked (response : GenerateContentResponse) : Prop :=
  forall pf, promptFeedback response = Some pf -> Js.truthy (blockReason pf) = false.

Section Service.

(** [String.prototype.trim] and [JSON.parse] are the engine's. *)
Variable trim : string -> string.

(** [handleApiResponse] (lines 33-57). *)
Definition handleApiResponse (response : GenerateContentResponse) : Js.outcome string :=
  match blocked response with
  | Some pf => Throws (Js.Error (blocked_message pf))
  | None =>
      match first_image (match candidates response with Some cs => cs | None => [] end) with
      | Some d => Returns (data_url d)
      | None =>
          let finishReason := first_finishReason response in
          if Js.truthy finishReason && negb (String.eqb (Js.template finishReason) "STOP")
          then Throws (Js.Error (stopped_message (Js.template finishReason)))
          else
            let textFeedback := option_map trim (text response) in
            Throws (Js.Error (no_image_message textFeedback))
      end
  end.

(** A JS number that [JSON.parse] can produce: a finite value (every
    double is a rational) or an infinity, when the literal overflows. *)
Inductive Number := NegInfinity | Finite (q : Q) | Infinity.

(** A value [JSON.parse] returns. *)
#[local] Set Warnings "-register-all".
Inductive json :=
| JNull
| JBool (b : bool)
| JNumber (n : Number)
| JString (s : string)
| JArray (elements : list json)
| JObject (properties : list (string * json)).
#[local] Set Warnings "+register-all".

Variable JSON_parse : string -> option json.

(** [ai.models.generateContent] for the style score: the model and the
    prompt in, [response.text] out, or a rejection. *)
Variable generateContent : string -> string -> Js.outcome (option string).

(** [Math.min(10, x)] and [Math.max(1, x)]. *)
Definition min10 (x : Number) : Number :=
  match x with
  | NegInfinity => NegInfinity
  | Finite q => if Qle_bool q 10 then Finite q else Finite 10
  | Infinity => Finite 10
  end.

Definition max1 (x : Number) : Number :=
  match x with
  | NegInfinity => Finite 1
  | Finite q => if Qle_bool 1 q then Finite q else Finite 1
  | Infinity => Infinity
  end.

Definition clamp (x : Number) : Number := max1 (min10 x).

(** The order of the numbers. *)
Definition le (x y : Number) : Prop :=
  match x, y with
  | NegInfinity, _ => True
  | _, Infinity => True
  | Finite a, Finite b => (a <= b)%Q
  | _, _ => False
  end.

(** An own property of a parsed object. *)
Fixpoint property (ps : list (string * json)) (k : string) : option json :=
  match ps with
  | [] => None
  | (k', v) :: rest => if String.eqb k' k then Some v else property rest k
  end.

Record StyleScore := { score : Number; critique : string }.

(** The body of the [try] (lines 179-189): [None] when it throws. *)
Definition parse_score (responseText : option string) : option StyleScore :=
  match responseText with
  | None => None (* [response.text.trim()] on [undefined] *)
  | Some t =>
      match JSON_parse (trim t) with
      | Some (JObject ps) =>
          match property ps "score", property ps "critique" with
          | Some (JNumber n), Some (JString c) =>
              Some {| score := clamp n; critique := c |}
          | _, _ => None
          end
      | _ => None
      end
  end.

Definition type_name (t : ItemType) : string :=
  match t with
  | garment => "garment"
  | accessory => "accessory"
  end.

(** [items.map(item => `- ${item.name} (${item.type})`).join('\n')]. *)
Fixpoint outfitDescription (items : list WardrobeItem.t) : string :=
  match items with
  | [] => ""
  | item :: rest =>
      let line := ("- " ++ WardrobeItem.name item ++ " ("
                   ++ type_name (WardrobeItem.type item) ++ ")")%string in
      match rest with
      | [] => line
      | _ :: _ => (line ++ newline ++ outfitDescription rest)%string
      end
  end.

Definition style_prompt (items : list WardrobeItem.t) : string :=
  ("You are a world-class fashion stylist AI. Analyze the following outfit combination and provide a style score."
   ++ newline ++ newline
   ++ "Outfit Items:" ++ newline
   ++ outfitDescription items ++ newline ++ newline
   ++ "Based on the combination, provide:" ++ newline
   ++ "1.  A score from 1 to 10, where 1 is a fashion disaster and 10 is runway-ready." ++ newline
   ++ "2.  A brief, constructive critique or compliment (1-2 sentences max) explaining your score. Consider color harmony, item complementarity, and overall style."
   ++ newline ++ newline
   ++ "Return ONLY a JSON object with your analysis.")%string.

(** [generateStyleScore] (lines 138-194): the prompts sent to the API, and
    the result. *)
Definition generateStyleScore (items : list WardrobeItem.t)
  : list string * Js.outcome StyleScore :=
  match items with
  | [] =>
      ([], Returns {| score := Finite 0;
                      critique := "Add some items to get a style score!" |})
  | _ :: _ =>
      let prompt := style_prompt items in
      match generateContent "gemini-2.5-flash" prompt with
      | Throws err => ([prompt], Throws err)
      | Returns responseText =>
          ([prompt],
           match parse_score responseText with
           | Some result => Returns result
           | None =>
               Throws (Js.Error
                 "The AI returned an unexpected format for the style score. Please try again.")
           end)
      end
  end.

(** The API answered with text that parses as an object with a numeric
    [score] and a string [critique]. *)
Definition scored (answer : Js.outcome (option string)) (n : Number) (c : string) : Prop :=
  exists t ps,
    answer = Returns (Some t)
    /\ JSON_parse (trim t) = Some (JObject ps)
    /\ property ps "score" = Some (JNumber n)
    /\ property ps "critique" = Some (JString c).

End Service.
End GeminiService.

(* ===================================================================== *)
(** ** Events and example sessions *)
(* ===================================================================== *)

#[local] Open Scope string_scope.

(** An event of the user interface: the handler of the current render
    runs on the current cells; nothing happens when [App] cannot render. *)
Definition dispatch (handler : Render -> World -> World) (w : World) : World :=
  match render w with
  | Some r => handler r w
  | None => w
  end.

Module Scenario.

(** An environment in which every file loads and every call succeeds; the
    image returned names the number of calls made before it. *)
Definition studio : Env :=
  {| urlToFile := fun url name => Returns {| file_name := name; file_data := url |};
     gemini := fun log _ =>
       Returns ("data:image/png;base64,"
                ++ NilEmpty.string_of_uint (Nat.to_uint (List.length log)));
     getFriendlyErrorMessage := fun _ context => context |}.

(** An environment in which every call fails. *)
Definition offline : Env :=
  {| urlToFile := fun url name => Returns {| file_name := name; file_data := url |};
     gemini := fun _ _ => Throws (Js.Error "offline");
     getFriendlyErrorMessage := fun _ context => context |}.

Definition tee : WardrobeItem.t :=
  {| WardrobeItem.id := "gemini-tee"; WardrobeItem.name := "Gemini Tee";
     WardrobeItem.url := "https://cdn.example/Gemini-tee.png";
     WardrobeItem.type := garment |}.

Definition blazer : WardrobeItem.t :=
  {| WardrobeItem.id := "blazer-jacket"; WardrobeItem.name := "Blazer Jacket";
     WardrobeItem.url := "https://cdn.example/blazer.png";
     WardrobeItem.type := garment |}.

Definition hat : WardrobeItem.t :=
  {| WardrobeItem.id := "beanie-hat"; WardrobeItem.name := "Beanie Hat";
     WardrobeItem.url := "https://cdn.example/beanie.png";
     WardrobeItem.type := accessory |}.

(** The file [urlToFile] makes of an item in these environments. *)
Definition file_of (item : WardrobeItem.t) : File :=
  {| file_name := WardrobeItem.name item; file_data := WardrobeItem.url item |}.

(** The render of a world that renders. *)
Definition render_of (w : World) : Render :=
  match render w with
  | Some r => r
  | None => {| snapshot := w; state := initialState; activeGarmentIds := [] |}
  end.

(** The application as it starts. *)
Definition start : World :=
  {| hist := HistoryState.init initialState;
     isLoading := false; loadingMessage := ""; error := None;
     wardrobe := [tee; blazer; hat]; savedOutfits := []; panelError := None;
     heap := []; calls := [] |}.

(** The model is finalized. *)
Definition modelled : World := handleModelFinalized "data:image/png;base64,MODEL" start.

(** ... then the tee is put on. *)
Definition dressed : World := dispatch (fun r => @handleItemClick studio r tee) modelled.

(** ... then the hat. *)
Definition accessorized : World := dispatch (fun r => @handleItemClick studio r hat) dressed.

(** The tee and the blazer, then the hat. *)
Definition layered : World :=
  dressed |> dispatch (fun r => @handleItemClick studio r blazer)
          |> dispatch (fun r => @handleItemClick studio r hat).

(** The second pose is generated before anything is put on, the first
    pose is selected again, and then the hat is put on. *)
Definition posed : World :=
  modelled |> dispatch (fun r => @handlePoseSelect studio r 1)
           |> dispatch (fun r => @handlePoseSelect studio r 0)
           |> dispatch (fun r => @handleItemClick studio r hat).

(** The tee, the blazer, and one step back to the tee. *)
Definition stepped_back : World :=
  dressed |> dispatch (fun r => @handleItemClick studio r blazer)
          |> dispatch handleRemoveLastGarment.

(** The tee and the blazer, no accessory. *)
Definition two_garments : World :=
  dressed |> dispatch (fun r => @handleItemClick studio r blazer).

(** The second pose is generated before anything is put on. *)
Definition second_pose : World :=
  modelled |> dispatch (fun r => @handlePoseSelect studio r 1).

(** The second pose, then the tee, then the hat. *)
Definition turned : World :=
  modelled |> dispatch (fun r => @handlePoseSelect studio r 1)
           |> dispatch (fun r => @handleItemClick studio r tee)
           |> dispatch (fun r => @handleItemClick studio r hat).

(* The service on its own. *)
Import GeminiService.

(** A response that is blocked although it carries an image. *)
Definition blocked_with_image : GenerateContentResponse :=
  {| promptFeedback := Some {| blockReason := Some "SAFETY"; blockReasonMessage := None |};
     candidates := Some [ {| content := Some {| parts := Some [
         {| inlineData := Some {| mimeType := Some "image/png"; data := Some "AAAA" |};
            partText := None |} ] |};
                             finishReason := Some "STOP" |} ];
     text := None |}.

(** An engine whose [JSON.parse] reads the text [SCORE 12] as an object
    with the score 12 and a critique, and an API that answers with it. *)
Definition parse_twelve (t : string) : option json :=
  if String.eqb t "SCORE 12"
  then Some (JObject [("score", JNumber (Finite 12)); ("critique", JString "Bold.")])
  else None.

Definition answer_twelve (model prompt : string) : Js.outcome (option string) :=
  Returns (Some "SCORE 12").

Definition one_tee : list WardrobeItem.t := [tee].

End Scenario.
#[local] Close Scope string_scope.

(* ===================================================================== *)
(** ** The image calls of [services/geminiService.ts] (lines 9-31, 59-136) *)
(* ===================================================================== *)

Module ImageService.
Import GeminiService.

#[local] Open Scope string_scope.

(** [s.split(',')]: the first piece and the pieces after it.  A character
    of a string is a code unit below 256 in this module, which covers the
    data URLs the service handles. *)
Fixpoint split (s : string) : string * list string :=
  match s with
  | EmptyString => (EmptyString, [])
  | String c rest =>
      let (piece, pieces) := split rest in
      if Ascii.eqb c "," then (EmptyString, piece :: pieces)
      else (String c piece, pieces)
  end.

(** The characters that [.] refuses: the line feed and the carriage
    return (the two other line terminators are above 255). *)
Definition line_terminator (c : ascii) : bool :=
  Ascii.eqb c (ascii_of_nat 10) || Ascii.eqb c (ascii_of_nat 13).

(** [(.*?);] matched at the start of [s]: its group, the characters
    before the first semicolon when no line terminator comes before it. *)
Fixpoint lazy_group (s : string) : option string :=
  match s with
  | EmptyString => None
  | String c rest =>
      if Ascii.eqb c ";" then Some EmptyString
      else if line_terminator c then None
      else option_map (String c) (lazy_group rest)
  end.

(** [s.match(/:(.*?);/)]: group 1 of the leftmost match, [None] when
    there is no match. *)
Fixpoint match_mime (s : string) : option string :=
  match s with
  | EmptyString => None
  | String c rest =>
      if Ascii.eqb c ":" then
        match lazy_group rest with
        | Some group => Some group
        | None => match_mime rest
        end
      else match_mime rest
  end.

(** [dataUrlToParts] (lines 20-26). *)
Definition dataUrlToParts (dataUrl : string) : Js.outcome InlineData :=
  match split dataUrl with
  | (_, []) => Throws (Js.Error "Invalid data URL")
  | (arr0, arr1 :: _) =>
      match match_mime arr0 with
      | Some mime =>
          if String.eqb mime ""
          then Throws (Js.Error "Could not parse MIME type from data URL")
          else Returns {| mimeType := Some mime; data := Some arr1 |}
      | None => Throws (Js.Error "Could not parse MIME type from data URL")
      end
  end.

(** [dataUrlToPart] (lines 28-31). *)
Definition dataUrlToPart (dataUrl : string) : Js.outcome Part :=
  match dataUrlToParts dataUrl with
  | Returns d => Returns {| inlineData := Some d; partText := None |}
  | Throws e => Throws e
  end.

(** [{ text: prompt }]. *)
Definition text_part (prompt : string) : Part :=
  {| inlineData := None; partText := Some prompt |}.

(** [Modality] of the SDK, and the argument of [ai.models.generateContent]
    for an image. *)
Inductive Modality := IMAGE | TEXT.

Record ImageRequest := {
  model : string;
  contents : list Part;
  responseModalities : list Modality
}.

Definition imageModel : string := "gemini-2.5-flash-image-preview".

(** Why a promise of the service is rejected: a thrown value, or the
    error event of the [FileReader] of a file. *)
Inductive Reason :=
| Exception (e : Js.Thrown)
| ReaderEvent (file : File).

Inductive Settled (A : Type) :=
| Fulfilled (a : A)
| Rejected (reason : Reason).
Arguments Fulfilled {A} a.
Arguments Rejected {A} reason.

(** [a.join(sep)]. *)
Fixpoint join (sep : string) (a : list string) : string :=
  match a with
  | [] => ""
  | x :: rest =>
      match rest with
      | [] => x
      | _ :: _ => x ++ sep ++ join sep rest
      end
  end.

(** The prompt of [generateModelImage] (line 64). *)
Definition model_prompt : string :=
  "You are an expert fashion photographer AI. Transform the person in this image into a full-body fashion model photo suitable for an e-commerce website. The background must be a clean, neutral studio backdrop (light gray, #f0f0f0). The person should have a neutral, professional model expression. Preserve the person's identity, unique features, and body type, but place them in a standard, relaxed standing model pose. The final image must be photorealistic. Return ONLY the final image.".

(** [garmentPrompt] (lines 79-86). *)
Definition garmentPrompt : string :=
  ("You are an expert virtual try-on AI. You will be given a 'model image' and a 'garment image'. Your task is to create a new photorealistic image where the person from the 'model image' is wearing the clothing from the 'garment image'."
   ++ newline
   ++ newline
   ++ "**Crucial Rules:**"
   ++ newline
   ++ "1.  **Complete Garment Replacement:** You MUST completely REMOVE and REPLACE the clothing item worn by the person in the 'model image' with the new garment. No part of the original clothing (e.g., collars, sleeves, patterns) should be visible in the final image."
   ++ newline
   ++ "2.  **Preserve the Model:** The person's face, hair, body shape, and pose from the 'model image' MUST remain unchanged."
   ++ newline
   ++ "3.  **Preserve the Background:** The entire background from the 'model image' MUST be preserved perfectly."
   ++ newline
   ++ "4.  **Apply the Garment:** Realistically fit the new garment onto the person. It should adapt to their pose with natural folds, shadows, and lighting consistent with the original scene."
   ++ newline
   ++ "5.  **Output:** Return ONLY the final, edited image. Do not include any text.")%string.

(** The prompt of [generateAccessoryTryOnImage] (lines 105-113). *)
Definition accessory_prompt (accessoryNames : string) : string :=
  ("You are an expert virtual try-on AI. You will be given a 'model image' and one or more 'accessory images'. Your task is to create a new photorealistic image by ADDING the following accessories: "
   ++ accessoryNames
   ++ "."
   ++ newline
   ++ newline
   ++ "**Crucial Rules:**"
   ++ newline
   ++ "1.  **Additive Change:** You MUST NOT replace or remove the existing clothing on the model. The accessories should be realistically placed on top of or with the existing outfit."
   ++ newline
   ++ "2.  **Layering:** Apply the accessories in a logical order. For example, sunglasses go on the face, a hat goes on the head. If multiple accessories are provided, layer them naturally."
   ++ newline
   ++ "3.  **Preserve the Model & Outfit:** The person's face, hair, body shape, pose, and existing clothing from the 'model image' MUST remain unchanged, except for where the accessories naturally cover them."
   ++ newline
   ++ "4.  **Preserve the Background:** The entire background from the 'model image' MUST be preserved perfectly."
   ++ newline
   ++ "5.  **Apply the Accessories:** Realistically fit the accessories onto the person. They should adapt to their pose and interact with their clothing with natural folds, shadows, and lighting consistent with the original scene."
   ++ newline
   ++ "6.  **Output:** Return ONLY the final, edited image. Do not include any text.")%string.

(** The prompt of [generatePoseVariation] (line 127). *)
Definition pose_prompt (poseInstruction : string) : string :=
  ("You are an expert fashion photographer AI. Take this image and regenerate it from a different perspective. The person, clothing, and background style must remain identical. The new perspective should be: "
   ++ dquote
   ++ poseInstruction
   ++ dquote
   ++ ". Return ONLY the final image.")%string.

Section Calls.

Variable trim : string -> string.

(** [reader.readAsDataURL(file)]: [reader.result] when the reader loads,
    [None] when it fails. *)
Variable readAsDataURL : File -> option string.

(** [ai.models.generateContent] for an image. *)
Variable generateContent : ImageRequest -> Js.outcome GenerateContentResponse.

(** [fileToPart] (lines 9-18). *)
Definition fileToPart (file : File) : Settled Part :=
  match readAsDataURL file with
  | None => Rejected (ReaderEvent file)
  | Some dataUrl =>
      match dataUrlToParts dataUrl with
      | Returns d => Fulfilled {| inlineData := Some d; partText := None |}
      | Throws e => Rejected (Exception e)
      end
  end.

(** [Promise.all(accessoryFiles.map(file => fileToPart(file)))]; of
    several rejections the first in the list is the one reported. *)
Fixpoint fileToParts (files : list File) : Settled (list Part) :=
  match files with
  | [] => Fulfilled []
  | file :: rest =>
      match fileToPart file with
      | Rejected reason => Rejected reason
      | Fulfilled part =>
          match fileToParts rest with
          | Rejected reason => Rejected reason
          | Fulfilled parts => Fulfilled (part :: parts)
          end
      end
  end.

(** The call each function ends with (lines 65-72, 88-95, 115-122 and
    128-135): the request sent, and what [handleApiResponse] makes of the
    answer. *)
Definition send (parts : list Part) : list ImageRequest * Settled string :=
  let request := {| model := imageModel; contents := parts;
                    responseModalities := [IMAGE; TEXT] |} in
  ([request],
   match generateContent request with
   | Throws e => Rejected (Exception e)
   | Returns response =>
       match handleApiResponse trim response with
       | Returns url => Fulfilled url
       | Throws e => Rejected (Exception e)
       end
   end).

(** [generateModelImage] (lines 62-73): the requests sent and the result. *)
Definition generateModelImage (userImage : File) : list ImageRequest * Settled string :=
  match fileToPart userImage with
  | Rejected reason => ([], Rejected reason)
  | Fulfilled userImagePart => send [userImagePart; text_part model_prompt]
  end.

(** [generateGarmentTryOnImage] (lines 75-96). *)
Definition generateGarmentTryOnImage (modelImageUrl : string) (itemImage : File)
  : list ImageRequest * Settled string :=
  match dataUrlToPart modelImageUrl with
  | Throws e => ([], Rejected (Exception e))
  | Returns modelImagePart =>
      match fileToPart itemImage with
      | Rejected reason => ([], Rejected reason)
      | Fulfilled itemImagePart =>
          send [modelImagePart; itemImagePart; text_part garmentPrompt]
      end
  end.

(** [generateAccessoryTryOnImage] (lines 99-123). *)
Definition generateAccessoryTryOnImage (modelImageUrl : string)
           (accessoryFiles : list File) (accessories : list WardrobeItem.t)
  : list ImageRequest * Settled string :=
  match dataUrlToPart modelImageUrl with
  | Throws e => ([], Rejected (Exception e))
  | Returns modelImagePart =>
      match fileToParts accessoryFiles with
      | Rejected reason => ([], Rejected reason)
      | Fulfilled accessoryImageParts =>
          let accessoryNames := join ", and " (map WardrobeItem.name accessories) in
          send ((modelImagePart :: accessoryImageParts)
                ++ [text_part (accessory_prompt accessoryNames)])%list
      end
  end.

(** [generatePoseVariation] (lines 125-136). *)
Definition generatePoseVariation (tryOnImageUrl : string) (poseInstruction : string)
  : list ImageRequest * Settled string :=
  match dataUrlToPart tryOnImageUrl with
  | Throws e => ([], Rejected (Exception e))
  | Returns tryOnImagePart =>
      send [tryOnImagePart; text_part (pose_prompt poseInstruction)]
  end.

End Calls.

(** A string without the character [c]. *)
Definition free_of (c : ascii) (s : string) : Prop :=
  ~ In c (list_ascii_of_string s).

(** A MIME type and a payload that a data URL can carry: the type is not
    empty and has no comma, semicolon or line terminator, the payload has
    no comma. *)
Definition carried (d : InlineData) : Prop :=
  exists mime payload,
    mimeType d = Some mime /\ data d = Some payload
    /\ mime <> ""
    /\ free_of "," mime /\ free_of ";" mime
    /\ (forall c, In c (list_ascii_of_string mime) -> line_terminator c = false)
    /\ free_of "," payload.

End ImageService.

(* ===================================================================== *)
(** ** [components/OutfitStack.tsx] (src/unnamed/part_002, lines 104-110,
       135, 155 and 168) *)
(* ===================================================================== *)

Module OutfitStack.
Import GeminiService.

(** [reorderableGarments]: the stack gets [activeGarmentLayers] as its
    [garmentHistory]. *)
Definition reorderableGarments (garmentHistory : list OutfitLayer.t) : list OutfitLayer.t :=
  Js.slice1 garmentHistory.

(** [score >= q]. *)
Definition geq (score : Number) (q : Q) : bool :=
  match score with
  | NegInfinity => false
  | Finite x => Qle_bool q x
  | Infinity => true
  end.

(** [getScoreColor] (lines 106-110). *)
Definition getScoreColor (score : Number) : string :=
  if geq score 8 then "bg-green-500 text-white"
  else if geq score 5 then "bg-yellow-500 text-white"
  else "bg-red-500 text-white".

(** The number shown beside the item at [index] (line 119). *)
Definition position (index : Z) (isAccessory : bool) : Z :=
  index + (if isAccessory then 1 else 2).

(** The garment at [index] of the reorderable ones shows the remove
    button (line 135). *)
Definition removable (garmentHistory : list OutfitLayer.t) (index : Z) : bool :=
  index =? Js.length (reorderableGarments garmentHistory) - 1.

(** [disabled] of the Suggest and of the Score button (lines 155, 168);
    [busy] is [isSuggesting] or [isScoringStyle]. *)
Definition advice_disabled (isLoading busy : bool) (garmentHistory : list OutfitLayer.t)
           (activeAccessories : list WardrobeItem.t) : bool :=
  isLoading || busy
  || ((Js.length garmentHistory <=? 1) && (Js.length activeAccessories =? 0)).

End OutfitStack.

(* ===================================================================== *)
(** ** The other handlers of [App] and of its panels *)
(* ===================================================================== *)

#[local] Open Scope string_scope.
#[local] Open Scope Z_scope.

(** [defaultWardrobe] (wardrobe.ts, src/unnamed/part_001). *)
Definition defaultWardrobe : list WardrobeItem.t :=
  [ {| WardrobeItem.id := "gemini-sweat"; WardrobeItem.name := "Gemini Sweat";
       WardrobeItem.url := "https://cdn.jsdelivr.net/gh/ammaarreshi/app-images@main/gemini-sweat-2.png";
       WardrobeItem.type := garment |};
    {| WardrobeItem.id := "gemini-tee"; WardrobeItem.name := "Gemini Tee";
       WardrobeItem.url := "https://cdn.jsdelivr.net/gh/ammaarreshi/app-images@main/Gemini-tee.png";
       WardrobeItem.type := garment |};
    {| WardrobeItem.id := "blazer-jacket"; WardrobeItem.name := "Blazer Jacket";
       WardrobeItem.url := "https://cdn.jsdelivr.net/gh/ammaarreshi/app-images@main/blazer.png";
       WardrobeItem.type := garment |};
    {| WardrobeItem.id := "formal-suit"; WardrobeItem.name := "Formal Suit";
       WardrobeItem.url := "https://i.ibb.co/51p1tRh/formal-suit.png";
       WardrobeItem.type := garment |};
    {| WardrobeItem.id := "beanie-hat"; WardrobeItem.name := "Beanie Hat";
       WardrobeItem.url := "https://cdn.jsdelivr.net/gh/ammaarreshi/app-images@main/beanie.png";
       WardrobeItem.type := accessory |};
    {| WardrobeItem.id := "tote-bag"; WardrobeItem.name := "Tote Bag";
       WardrobeItem.url := "https://cdn.jsdelivr.net/gh/ammaarreshi/app-images@main/tote.png";
       WardrobeItem.type := accessory |};
    {| WardrobeItem.id := "sunglasses"; WardrobeItem.name := "Sunglasses";
       WardrobeItem.url := "https://cdn.jsdelivr.net/gh/ammaarreshi/app-images@main/sunnies.png";
       WardrobeItem.type := accessory |} ].

(** [availablePoseKeys] (App.tsx, lines 196-200). *)
Definition availablePoseKeys (r : Render) : list string :=
  let s := state r in
  if Js.length (AppState.garmentHistory s) =? 0 then []
  else
    match Js.index (AppState.garmentHistory s) (AppState.currentGarmentIndex s) with
    | Some currentLayer =>
        Js.keys (deref (heap (snapshot r)) (OutfitLayer.poseImages currentLayer))
    | None => []
    end.

(** [canSave], as [App] passes it to the outfit stack (line 666). *)
Definition canSave (r : Render) : bool :=
  negb (isLoading (snapshot r))
  && ((0 <? AppState.currentGarmentIndex (state r))
      || (0 <? Js.length (AppState.activeAccessories (state r)))).

(** [isDisabled] of a wardrobe button (WardrobeModal.tsx, lines 70-71). *)
Definition isDisabled (r : Render) (item : WardrobeItem.t) : bool :=
  let isActive := existsb (String.eqb (WardrobeItem.id item)) (activeItemIds r) in
  isLoading (snapshot r) || (isActive && is_garment item).

(** The file input of the wardrobe panel: a chosen file with its [type],
    and what the [FileReader] makes of it ([event.target?.result], or an
    error). *)
Record Upload := { upload_file : File; upload_type : string }.

Inductive ReadResult :=
| Loaded (result : option string)
| ReadFailed.

Section MoreHandlers.

Context {E : Env}.

(** [handleDeleteOutfit] (App.tsx, lines 456-459). *)
Definition handleDeleteOutfit (r : Render) (outfitId : string) (w : World) : World :=
  if isLoading (snapshot r) then w
  else
    w |> (fun w =>
      setSavedOutfits
        (filter (fun o => negb (String.eqb (SavedOutfit.id o) outfitId)) (savedOutfits w)) w).

(** [handleRemoveAccessory] (lines 522-526). *)
Definition handleRemoveAccessory (r : Render) (accessoryId : string) (w : World) : World :=
  if isLoading (snapshot r) then w
  else
    let newAccessories :=
      filter (fun acc => negb (String.eqb (WardrobeItem.id acc) accessoryId))
             (AppState.activeAccessories (state r)) in
    updateAccessoryLayer r newAccessories None w.

(** [handleReorderAccessories] (lines 528-531). *)
Definition handleReorderAccessories (r : Render) (reorderedItems : list WardrobeItem.t)
           (w : World) : World :=
  if isLoading (snapshot r) then w
  else updateAccessoryLayer r reorderedItems None w.

(** [handleSuggestionClick] of [StyleSuggestionsPanel] (lines 109-117),
    with the props [App] passes at the render [r]; a failure is only
    logged to the console. *)
Definition handleSuggestionClick (r : Render) (item : WardrobeItem.t) (w : World) : World :=
  if isLoading (snapshot r) then w
  else
    match urlToFile (WardrobeItem.url item) (WardrobeItem.name item) with
    | Returns file => handleItemSelect r file item w
    | Throws _ => w
    end.

(** [handleFileChange] of [WardrobePanel] (WardrobeModal.tsx, lines 39-65),
    the callbacks of its reader included; [now] is [Date.now()]. *)
Definition handleFileChange (r : Render) (files : list Upload) (read : ReadResult)
           (now : string) (w : World) : World :=
  match files with
  | [] => w
  | chosen :: _ =>
      let file := upload_file chosen in
      if negb (String.prefix "image/" (upload_type chosen))
      then w |> setPanelError (Some "Please select an image file.")
      else
        match read with
        | Loaded dataUrl =>
            if Js.truthy dataUrl then
              let customItemInfo :=
                {| WardrobeItem.id := "custom-" ++ now;
                   WardrobeItem.name := file_name file;
                   WardrobeItem.url := Js.template dataUrl;
                   WardrobeItem.type := garment |} in
              handleItemSelect r file customItemInfo w
            else w |> setPanelError (Some "Could not read the uploaded file.")
        | ReadFailed => w |> setPanelError (Some "Error reading the uploaded file.")
        end
  end.

End MoreHandlers.

(** The cells of [App] that [World] leaves out (App.tsx, lines 83 and
    86-89), and the logs of the advice asked of the service: the prompts
    of [generateStyleScore] and the arguments of
    [generateStyleSuggestions]. *)
Record Advice := {
  isSheetCollapsed : bool;
  styleScore : option GeminiService.StyleScore;
  isScoringStyle : bool;
  styleSuggestions : list WardrobeItem.t;
  isSuggesting : bool;
  prompts : list string;
  suggestionCalls : list (list (option WardrobeItem.t) * list WardrobeItem.t)
}.

Definition setIsSheetCollapsed (v : bool) (a : Advice) : Advice :=
  {| isSheetCollapsed := v; styleScore := styleScore a;
     isScoringStyle := isScoringStyle a; styleSuggestions := styleSuggestions a;
     isSuggesting := isSuggesting a; prompts := prompts a;
     suggestionCalls := suggestionCalls a |}.

Definition setStyleScore (v : option GeminiService.StyleScore) (a : Advice) : Advice :=
  {| isSheetCollapsed := isSheetCollapsed a; styleScore := v;
     isScoringStyle := isScoringStyle a; styleSuggestions := styleSuggestions a;
     isSuggesting := isSuggesting a; prompts := prompts a;
     suggestionCalls := suggestionCalls a |}.

Definition setIsScoringStyle (v : bool) (a : Advice) : Advice :=
  {| isSheetCollapsed := isSheetCollapsed a; styleScore := styleScore a;
     isScoringStyle := v; styleSuggestions := styleSuggestions a;
     isSuggesting := isSuggesting a; prompts := prompts a;
     suggestionCalls := suggestionCalls a |}.

Definition setStyleSuggestions (v : list WardrobeItem.t) (a : Advice) : Advice :=
  {| isSheetCollapsed := isSheetCollapsed a; styleScore := styleScore a;
     isScoringStyle := isScoringStyle a; styleSuggestions := v;
     isSuggesting := isSuggesting a; prompts := prompts a;
     suggestionCalls := suggestionCalls a |}.

Definition setIsSuggesting (v : bool) (a : Advice) : Advice :=
  {| isSheetCollapsed := isSheetCollapsed a; styleScore := styleScore a;
     isScoringStyle := isScoringStyle a; styleSuggestions := styleSuggestions a;
     isSuggesting := v; prompts := prompts a;
     suggestionCalls := suggestionCalls a |}.

Definition setPrompts (v : list string) (a : Advice) : Advice :=
  {| isSheetCollapsed := isSheetCollapsed a; styleScore := styleScore a;
     isScoringStyle := isScoringStyle a; styleSuggestions := styleSuggestions a;
     isSuggesting := isSuggesting a; prompts := v;
     suggestionCalls := suggestionCalls a |}.

Definition setSuggestionCalls
           (v : list (list (option WardrobeItem.t) * list WardrobeItem.t))
           (a : Advice) : Advice :=
  {| isSheetCollapsed := isSheetCollapsed a; styleScore := styleScore a;
     isScoringStyle := isScoringStyle a; styleSuggestions := styleSuggestions a;
     isSuggesting := isSuggesting a; prompts := prompts a;
     suggestionCalls := v |}.

(** [clearStyleScore] (lines 202-204). *)
Definition clearStyleScore (a : Advice) : Advice := setStyleScore None a.

(** All the cells of [App]. *)
Record AppCells := { world : World; advice : Advice }.

Definition in_world (f : World -> World) (app : AppCells) : AppCells :=
  {| world := f (world app); advice := advice app |}.

Definition in_advice (f : Advice -> Advice) (app : AppCells) : AppCells :=
  {| world := world app; advice := f (advice app) |}.

(** [handleStartOver] (lines 271-279). *)
Definition handleStartOver (app : AppCells) : AppCells :=
  app |> in_world (reset initialState)
      |> in_world (setIsLoading false)
      |> in_world (setLoadingMessage "")
      |> in_world (setError None)
      |> in_advice (setIsSheetCollapsed false)
      |> in_world (setWardrobe defaultWardrobe)
      |> in_advice clearStyleScore.

(** [[...activeGarmentLayers.slice(1).map(layer => layer.item!),
    ...activeAccessories]] (lines 541-544 and 560-563): an entry is [null]
    where a layer has no item. *)
Definition wornItems (r : Render) : list (option WardrobeItem.t) :=
  (map OutfitLayer.item (Js.slice1 (activeGarmentLayers (state r)))
   ++ map Some (AppState.activeAccessories (state r)))%list.

(** The items of an array that holds no [null]. *)
Fixpoint defined {A} (a : list (option A)) : option (list A) :=
  match a with
  | [] => Some []
  | Some x :: rest => option_map (cons x) (defined rest)
  | None :: _ => None
  end.

Section AdviceHandlers.

Context {E : Env}.

(** The engine and the API of [generateStyleScore]. *)
Variable trim : string -> string.
Variable JSON_parse : string -> option GeminiService.json.
Variable generateContent : string -> string -> Js.outcome (option string).

(** [generateStyleSuggestions] of [geminiService], which [App] imports:
    the ids it suggests, or a rejection. *)
Variable generateStyleSuggestions :
  list (option WardrobeItem.t) -> list WardrobeItem.t -> Js.outcome (list string).

(** Whether the arrays [activeGarmentLayers] and [activeAccessories] that
    [App] holds after an event are the objects it held before, when
    their contents are equal: React compares the dependencies of an
    effect with [Object.is], and a handler can leave new arrays with the
    old contents, in one commit or in several.  The renders are the one
    before the event and the one after it. *)
Variable sameArrays : Render -> Render -> bool.

(** [handleGetStyleScore] (lines 533-555), as the render [r] that saw the
    advice cells [seen] holds it.  On an array with a [null] entry
    [generateStyleScore] throws a [TypeError] at [item.name], before any
    request. *)
Definition handleGetStyleScore (r : Render) (seen : Advice) (app : AppCells) : AppCells :=
  let s := state r in
  if isScoringStyle seen
     || ((Js.length (activeGarmentLayers s) <=? 1)
         && (Js.length (AppState.activeAccessories s) =? 0))
  then app
  else
    let app := app |> in_advice (setIsScoringStyle true)
                   |> in_world (setError None)
                   |> in_advice clearStyleScore in
    let allItems := wornItems r in
    let app :=
      match allItems with
      | [] => app
      | _ :: _ =>
          match defined allItems with
          | None =>
              app |> in_world (setError (Some
                (getFriendlyErrorMessage Js.TypeError "Failed to get style score")))
          | Some items =>
              let (sent, result) :=
                GeminiService.generateStyleScore trim JSON_parse generateContent items in
              let app := app |> in_advice (fun a => setPrompts (prompts a ++ sent)%list a) in
              match result with
              | Returns result => app |> in_advice (setStyleScore (Some result))
              | Throws err =>
                  app |> in_world (setError (Some
                    (getFriendlyErrorMessage err "Failed to get style score")))
              end
          end
      end in
    app |> in_advice (setIsScoringStyle false).

(** [handleGetStyleSuggestions] (lines 557-590); the timer that clears
    the error four seconds later is left out. *)
Definition handleGetStyleSuggestions (r : Render) (seen : Advice) (app : AppCells) : AppCells :=
  if isSuggesting seen || isLoading (snapshot r) then app
  else
    let currentItems := wornItems r in
    match currentItems with
    | [] => app |> in_world (setError (Some "Add at least one item to get suggestions."))
    | _ :: _ =>
        let app := app |> in_advice (setIsSuggesting true)
                       |> in_world (setError None)
                       |> in_advice (setStyleSuggestions []) in
        let availableItems :=
          filter (fun item =>
                    negb (existsb (String.eqb (WardrobeItem.id item)) (activeItemIds r)))
                 (wardrobe (snapshot r)) in
        let app :=
          match availableItems with
          | [] => app
          | _ :: _ =>
              let app := app |> in_advice (fun a =>
                setSuggestionCalls
                  (suggestionCalls a ++ [(currentItems, availableItems)])%list a) in
              match generateStyleSuggestions currentItems availableItems with
              | Returns suggestedIds =>
                  let suggestions :=
                    filter (fun item => existsb (String.eqb (WardrobeItem.id item)) suggestedIds)
                           (wardrobe (snapshot r)) in
                  app |> in_advice (setStyleSuggestions suggestions)
              | Throws err =>
                  app |> in_world (setError (Some
                    (getFriendlyErrorMessage err "Failed to get style suggestions")))
              end
          end in
        app |> in_advice (setIsSuggesting false)
    end.

(** The events of the user interface and the handler each one runs: the
    one of the current render, on the current cells.  Nothing happens
    when [App] cannot render. *)
Inductive Event :=
| ModelFinalized (url : string)
| StartOver
| ItemClick (item : WardrobeItem.t)
| FileChange (files : list Upload) (read : ReadResult) (now : string)
| SuggestionClick (item : WardrobeItem.t)
| RemoveLastGarment
| PoseSelect (newIndex : Z)
| SaveOutfit (now localeString : string)
| LoadOutfit (outfitId : string)
| DeleteOutfit (outfitId : string)
| ReorderGarments (reorderedItems : list OutfitLayer.t)
| RemoveAccessory (accessoryId : string)
| ReorderAccessories (reorderedItems : list WardrobeItem.t)
| Undo
| Redo
| GetStyleScore
| GetStyleSuggestions
| ClearStyleScore
| ToggleSheet.

Definition handler (ev : Event) (r : Render) (seen : Advice) (app : AppCells) : AppCells :=
  match ev with
  | ModelFinalized url => in_world (handleModelFinalized url) app
  | StartOver => handleStartOver app
  | ItemClick item => in_world (handleItemClick r item) app
  | FileChange files read now => in_world (handleFileChange r files read now) app
  | SuggestionClick item => in_world (handleSuggestionClick r item) app
  | RemoveLastGarment => in_world (handleRemoveLastGarment r) app
  | PoseSelect newIndex => in_world (handlePoseSelect r newIndex) app
  | SaveOutfit now localeString => in_world (handleSaveOutfit r now localeString) app
  | LoadOutfit outfitId => in_world (handleLoadOutfit r outfitId) app
  | DeleteOutfit outfitId => in_world (handleDeleteOutfit r outfitId) app
  | ReorderGarments reorderedItems => in_world (handleReorderGarments r reorderedItems) app
  | RemoveAccessory accessoryId => in_world (handleRemoveAccessory r accessoryId) app
  | ReorderAccessories reorderedItems =>
      in_world (handleReorderAccessories r reorderedItems) app
  | Undo => in_world (undo r) app
  | Redo => in_world (redo r) app
  | GetStyleScore => handleGetStyleScore r seen app
  | GetStyleSuggestions => handleGetStyleSuggestions r seen app
  | ClearStyleScore => in_advice clearStyleScore app
  | ToggleSheet => in_advice (setIsSheetCollapsed (negb (isSheetCollapsed seen))) app
  end.

Definition layers_eq_dec (a b : list OutfitLayer.t) : {a = b} + {a <> b}.
Proof. repeat decide equality. Defined.

Definition items_eq_dec (a b : list WardrobeItem.t) : {a = b} + {a <> b}.
Proof. repeat decide equality. Defined.

(** The dependencies [activeGarmentLayers] and [activeAccessories] of the
    effect of lines 225-229 have changed over an event: arrays of other
    contents are other objects; for equal contents see [sameArrays]. *)
Definition outfitChanged (before after : Render) : bool :=
  negb (if layers_eq_dec (activeGarmentLayers (state before))
                         (activeGarmentLayers (state after)) then true else false)
  || negb (if items_eq_dec (AppState.activeAccessories (state before))
                           (AppState.activeAccessories (state after)) then true else false)
  || negb (sameArrays before after).

(** The body of that effect: [clearStyleScore(); setStyleSuggestions([])]. *)
Definition clearAdvice (a : Advice) : Advice :=
  a |> clearStyleScore |> setStyleSuggestions [].

(** An event: its handler runs, [App] renders again, and the effect runs
    when its dependencies have changed. *)
Definition handle (ev : Event) (app : AppCells) : AppCells :=
  match render (world app) with
  | Some r =>
      let app := handler ev r (advice app) app in
      match render (world app) with
      | Some r' => if outfitChanged r r' then in_advice clearAdvice app else app
      | None => app
      end
  | None => app
  end.

(** A session: the events in order. *)
Definition run (events : list Event) (app : AppCells) : AppCells :=
  fold_left (fun app ev => handle ev app) events app.

End AdviceHandlers.

(* --------------------------------------------------------------------- *)
(** *** The saved outfits in [localStorage] (App.tsx, lines 206-223) *)

Section Persistence.

(** [JSON.stringify] and [JSON.parse] on the saved outfits ([None] when
    [JSON.parse] throws), and whether [localStorage.setItem] accepts a
    value: it throws when the quota is exceeded. *)
Variable JSON_stringify : list SavedOutfit.t -> string.
Variable JSON_parse : string -> option (list SavedOutfit.t).
Variable fits : string -> bool.

(** The page: the item of [localStorage] under [STORAGE_KEY], and the
    cells of [App]. *)
Record Page := { stored : option string; cells : World }.

(** What the first effect (lines 206-215) passes to [setSavedOutfits], if
    anything: a failure of [JSON.parse] is only logged. *)
Definition loaded (p : Page) : option (list SavedOutfit.t) :=
  match stored p with
  | Some storedOutfits =>
      if String.eqb storedOutfits "" then None else JSON_parse storedOutfits
  | None => None
  end.

(** The second effect (lines 217-223), of a render that saw
    [savedOutfits]; a failure of [setItem] is only logged. *)
Definition store (savedOutfits : list SavedOutfit.t) (p : Page) : Page :=
  let text := JSON_stringify savedOutfits in
  if fits text then {| stored := Some text; cells := cells p |} else p.

(** The effects when [App] mounts.  Both run after the first render, in
    the order they are declared, the second one with the [savedOutfits] of
    that render; when the first one has set the cell, [App] renders again
    and the second effect runs for the new value. *)
Definition mount (p : Page) : Page :=
  let first := savedOutfits (cells p) in
  match loaded p with
  | Some outfits =>
      {| stored := stored p; cells := setSavedOutfits outfits (cells p) |}
        |> store first |> store outfits
  | None => p |> store first
  end.

End Persistence.

(* --------------------------------------------------------------------- *)
(** *** The states the handlers keep to *)

(** A layer above the base model carries its item. *)
Definition has_item (l : OutfitLayer.t) : Prop := OutfitLayer.item l <> None.

(** A state is the one before a model is chosen, with no layer, or its
    [currentGarmentIndex] is an index of [garmentHistory]; every layer
    after the first has an item. *)
Definition well_formed (s : AppState.t) : Prop :=
  ((AppState.modelImageUrl s = None /\ AppState.garmentHistory s = []
    /\ AppState.currentGarmentIndex s = 0)
   \/ 0 <= AppState.currentGarmentIndex s < Js.length (AppState.garmentHistory s))
  /\ Forall has_item (Js.slice1 (AppState.garmentHistory s)).

(** A saved outfit has a base layer, and an item in every layer after it. *)
Definition restorable (o : SavedOutfit.t) : Prop :=
  SavedOutfit.garmentHistory o <> []
  /\ Forall (fun l => StoredLayer.item l <> None) (Js.slice1 (SavedOutfit.garmentHistory o)).

Definition invariant (w : World) : Prop :=
  HistoryState.valid (hist w)
  /\ Forall well_formed (HistoryState.history (hist w))
  /\ Forall restorable (savedOutfits w).

(** The style score shown is on the scale from 1 to 10. *)
Definition on_scale (styleScore : option GeminiService.StyleScore) : Prop :=
  match styleScore with
  | Some result =>
      GeminiService.le (GeminiService.Finite 1) (GeminiService.score result)
      /\ GeminiService.le (GeminiService.score result) (GeminiService.Finite 10)
  | None => True
  end.

#[local] Close Scope string_scope.

(* ===================================================================== *)
(** ** More example values *)
(* ===================================================================== *)

Module Examples.
Import GeminiService ImageService Scenario.

#[local] Open Scope string_scope.

(** An answer of the API with one image. *)
Definition one_image : GenerateContentResponse :=
  {| promptFeedback := None;
     candidates := Some [ {| content := Some {| parts := Some [
         {| inlineData := Some {| mimeType := Some "image/png"; data := Some "AAAA" |};
            partText := None |} ] |};
                             finishReason := Some "STOP" |} ];
     text := None |}.

(** An answer whose first candidate holds text alone and whose second
    candidate holds text and then an image. *)
Definition late_image : GenerateContentResponse :=
  {| promptFeedback := Some {| blockReason := None; blockReasonMessage := None |};
     candidates := Some [
       {| content := Some {| parts := Some [
            {| inlineData := None; partText := Some "Here it is." |} ] |};
          finishReason := Some "STOP" |};
       {| content := Some {| parts := Some [
            {| inlineData := None; partText := Some "The image:" |};
            {| inlineData := Some {| mimeType := Some "image/png"; data := Some "BBBB" |};
               partText := None |};
            {| inlineData := Some {| mimeType := Some "image/jpeg"; data := Some "CCCC" |};
               partText := None |} ] |};
          finishReason := Some "STOP" |} ];
     text := Some "Here it is." |}.

(** An answer cut short, and an answer of text alone. *)
Definition cut_short : GenerateContentResponse :=
  {| promptFeedback := None;
     candidates := Some [ {| content := None; finishReason := Some "SAFETY" |} ];
     text := None |}.

Definition only_text : GenerateContentResponse :=
  {| promptFeedback := None;
     candidates := Some [
       {| content := Some {| parts := Some [
            {| inlineData := None; partText := Some "No." |} ] |};
          finishReason := Some "STOP" |} ];
     text := Some "No." |}.

(** An API that answers every request with that image, and a reader that
    loads every file as its data. *)
Definition answers (request : ImageRequest) : Js.outcome GenerateContentResponse :=
  Returns one_image.

Definition reads (file : File) : option string := Some (file_data file).

Definition photo : File :=
  {| file_name := "me.png"; file_data := "data:image/png;base64,PHOTO" |}.

(** A shirt chosen in the file input. *)
Definition shirt : Upload :=
  {| upload_file := {| file_name := "shirt.png";
                       file_data := "data:image/png;base64,SHIRT" |};
     upload_type := "image/png" |}.

(** The advice cells as the application starts, and the application as it
    starts. *)
Definition calm : Advice :=
  {| isSheetCollapsed := false; styleScore := None; isScoringStyle := false;
     styleSuggestions := []; isSuggesting := false; prompts := [];
     suggestionCalls := [] |}.

Definition fresh : AppCells := {| world := start; advice := calm |}.

(** A service that suggests nothing. *)
Definition no_idea (currentItems : list (option WardrobeItem.t))
           (availableItems : list WardrobeItem.t) : Js.outcome (list string) :=
  Returns [].

(** A session: a model, the tee, the hat, a style score, the second pose,
    the outfit saved, one step back, the outfit loaded, the last garment
    removed, and a new start. *)
Definition evening : list Event :=
  [ ModelFinalized "data:image/png;base64,MODEL";
    ItemClick tee;
    ItemClick hat;
    GetStyleScore;
    PoseSelect 1;
    SaveOutfit "1700000000000" "11/14/2023";
    Undo;
    LoadOutfit "outfit-1700000000000";
    RemoveLastGarment;
    StartOver ].

(** An engine that prints the empty list of outfits as [[]] and any other
    as [SAVED], and reads [SAVED] as the list with the outfit that
    [dressed] is saved as. *)
Definition keepsake : list SavedOutfit.t :=
  savedOutfits (handleSaveOutfit (render_of dressed) "1700000000000" "11/14/2023" dressed).

Definition print_outfits (outfits : list SavedOutfit.t) : string :=
  match outfits with
  | [] => "[]"
  | _ :: _ => "SAVED"
  end.

Definition read_outfits (text : string) : option (list SavedOutfit.t) :=
  if String.eqb text "[]" then Some []
  else if String.eqb text "SAVED" then Some keepsake
  else None.

End Examples.

(* ===================================================================== *)
(** ** Properties of [useHistoryState] *)
(* ===================================================================== *)

#[local] Arguments Js.slice0 : simpl never.
#[local] Arguments Js.index : simpl never.
#[local] Arguments Js.length : simpl never.
#[local] Arguments same_json : simpl never.
#[local] Arguments pose_key : simpl never.
#[local] Arguments String.eqb : simpl never.
#[local] Arguments String.append : simpl never.
#[local] Arguments deref : simpl never.
#[local] Arguments update : simpl never.

(** The last element of an array that was just pushed to. *)
Lemma index_app_last {A} (l : list A) (x : A) :
  Js.index (l ++ [x]) (Js.length (l ++ [x]) - 1) = Some x.
Proof.
  unfold Js.index, Js.length. rewrite length_app. cbn [List.length].
  replace (Z.of_nat (List.length l + 1) - 1) with (Z.of_nat (List.length l)) by lia.
  destruct (Z.ltb_spec (Z.of_nat (List.length l)) 0); [lia|].
  rewrite Nat2Z.id, nth_error_app2 by lia. now rewrite Nat.sub_diag.
Qed.

(** [a.slice(0, i + 1)] for an index [i] of [a]. *)
Lemma slice0_valid {A} (l : list A) (i : Z) :
  0 <= i < Js.length l ->
  Js.slice0 l (i + 1) = firstn (S (Z.to_nat i)) l.
Proof.
  intros H. unfold Js.slice0, Js.length in *.
  destruct (Z.ltb_spec (i + 1) 0); [lia|].
  rewrite Z.min_l by lia. now replace (Z.to_nat (i + 1)) with (S (Z.to_nat i)) by lia.
Qed.

Lemma index_Some_valid {A} (l : list A) (i : Z) (x : A) :
  Js.index l i = Some x -> 0 <= i < Js.length l.
Proof.
  unfold Js.index, Js.length. destruct (Z.ltb_spec i 0); [discriminate|].
  intros Hn. assert (Z.to_nat i < List.length l)%nat by (apply nth_error_Some; congruence).
  lia.
Qed.

Section HistoryFacts.

Context {T : Type}.
Implicit Type c : HistoryState.Cells T.

(** X1.  [undo], where it is enabled, moves one entry back, keeps the
    history and stays inside it. *)
Lemma undo_decrements c :
  HistoryState.valid c ->
  0 < HistoryState.currentIndex c ->
  HistoryState.currentIndex (HistoryState.click_undo c) = HistoryState.currentIndex c - 1
  /\ HistoryState.history (HistoryState.click_undo c) = HistoryState.history c
  /\ HistoryState.valid (HistoryState.click_undo c).
Proof.
  unfold HistoryState.valid, HistoryState.click_undo, HistoryState.undo.
  intros Hv Hpos. destruct (Z.ltb_spec 0 (HistoryState.currentIndex c)); [|lia].
  cbn. repeat split; lia.
Qed.

(** [redo], where it is enabled, moves one entry back as well. *)
Lemma redo_decrements c :
  HistoryState.currentIndex c < Js.length (HistoryState.history c) - 1 ->
  HistoryState.currentIndex (HistoryState.click_redo c) = HistoryState.currentIndex c - 1
  /\ HistoryState.history (HistoryState.click_redo c) = HistoryState.history c.
Proof.
  unfold HistoryState.click_redo, HistoryState.redo. intros H.
  destruct (Z.ltb_spec (HistoryState.currentIndex c)
                       (Js.length (HistoryState.history c) - 1)); [|lia].
  cbn. split; reflexivity.
Qed.

End HistoryFacts.

(** C1, evaluated on a history of three states with the last one current:
    after [undo] the index is 1 and [redo] is enabled; [redo] then moves to
    index 0 instead of back to index 2, so the state observed before the
    undo is not restored. *)
Example C1_redo_after_undo_moves_back :
  let c := {| HistoryState.history := [10; 20; 30]%nat;
              HistoryState.currentIndex := 2 |} in
  let c1 := HistoryState.click_undo c in
  let c2 := HistoryState.click_redo c1 in
  HistoryState.state c = Some 30%nat
  /\ HistoryState.currentIndex c1 = 1
  /\ HistoryState.canRedo c1 = true
  /\ HistoryState.currentIndex c2 = 0
  /\ HistoryState.state c2 = Some 10%nat.
Proof. repeat split. Qed.

(** From the first entry of a longer history, [redo] leaves the array:
    the index becomes -1 and [state] is [undefined]. *)
Example redo_leaves_history :
  let c := {| HistoryState.history := [10; 20]%nat;
              HistoryState.currentIndex := 0 |} in
  HistoryState.canRedo c = true
  /\ HistoryState.currentIndex (HistoryState.click_redo c) = -1
  /\ HistoryState.state (HistoryState.click_redo c) = None.
Proof. repeat split. Qed.

(* ===================================================================== *)
(** ** Properties of the handlers of [App] *)
(* ===================================================================== *)

(** A render holds the cells it was made from. *)
Lemma render_sound w r :
  render w = Some r ->
  snapshot r = w /\ HistoryState.state (hist w) = Some (state r).
Proof.
  unfold render. destruct (HistoryState.state (hist w)) as [s|]; [|discriminate].
  destruct (item_ids _); [|discriminate]. intros [= <-]. auto.
Qed.

(** [setState] with a value that prints differently pushes it onto the
    history the render saw. *)
Lemma setState_changed (r : Render) value w :
  same_json (heap w) (value (state r)) (state r) = false ->
  setState r value w =
  setHist {| HistoryState.history :=
               Js.slice0 (HistoryState.history (hist (snapshot r)))
                         (HistoryState.currentIndex (hist (snapshot r)) + 1)
               ++ [value (state r)];
             HistoryState.currentIndex :=
               Js.length (Js.slice0 (HistoryState.history (hist (snapshot r)))
                         (HistoryState.currentIndex (hist (snapshot r)) + 1)
               ++ [value (state r)]) - 1 |} w.
Proof. intros H. unfold setState, HistoryState.setState. now rewrite H. Qed.

(** [setState] with a value that prints the same does nothing. *)
Lemma setState_same (r : Render) value w :
  same_json (heap w) (value (state r)) (state r) = true ->
  setState r value w = w.
Proof.
  intros H. unfold setState, HistoryState.setState. rewrite H. now destruct w.
Qed.

Lemma same_json_false h a b :
  json_state h a <> json_state h b -> same_json h a b = false.
Proof.
  intros H. unfold same_json.
  now destruct (JsonState_eq_dec (json_state h a) (json_state h b)).
Qed.

Lemma same_json_garment_index h a b :
  AppState.currentGarmentIndex a <> AppState.currentGarmentIndex b ->
  same_json h a b = false.
Proof. intros H. apply same_json_false. unfold json_state. congruence. Qed.

Lemma same_json_pose_index h a b :
  AppState.currentPoseIndex a <> AppState.currentPoseIndex b ->
  same_json h a b = false.
Proof. intros H. apply same_json_false. unfold json_state. congruence. Qed.

Lemma same_json_accessories h a b :
  AppState.activeAccessories a <> AppState.activeAccessories b ->
  same_json h a b = false.
Proof. intros H. apply same_json_false. unfold json_state. congruence. Qed.

Lemma same_json_overlay h a b :
  AppState.generatedAccessoryImageUrl a <> AppState.generatedAccessoryImageUrl b ->
  same_json h a b = false.
Proof. intros H. apply same_json_false. unfold json_state. congruence. Qed.

(** The state a world shows after a push. *)
Lemma state_setHist_push (l : list AppState.t) (x : AppState.t) w :
  HistoryState.state
    (hist (setHist {| HistoryState.history := l ++ [x];
                      HistoryState.currentIndex := Js.length (l ++ [x]) - 1 |} w))
  = Some x.
Proof. apply index_app_last. Qed.

Lemma deref_alloc (h : list Js.object) (o : Js.object) :
  deref (h ++ [o]) (List.length h) = o.
Proof. unfold deref. rewrite app_nth2 by lia. now rewrite Nat.sub_diag. Qed.

Lemma deref_old (h ext : list Js.object) (l : loc) :
  (l < List.length h)%nat -> deref (h ++ ext) l = deref h l.
Proof. intros H. unfold deref. now rewrite app_nth1. Qed.

Section AppFacts.

Context {E : Env}.


(** C3.  Selecting the garment of the layer at [currentGarmentIndex + 1]
    makes no call: the only change is a new state with the index moved to
    that layer, the pose index 0 and the accessories cleared. *)
Theorem C3_replay_next_layer (w : World) (r : Render) (itemFile : File)
    (itemInfo : WardrobeItem.t) (base : string) (nextLayer : OutfitLayer.t)
    (nextItem : WardrobeItem.t) :
  render w = Some r ->
  isLoading w = false ->
  baseGarmentImageUrl r = Some base -> base <> ""%string ->
  WardrobeItem.type itemInfo = garment ->
  Js.index (AppState.garmentHistory (state r))
           (AppState.currentGarmentIndex (state r) + 1) = Some nextLayer ->
  OutfitLayer.item nextLayer = Some nextItem ->
  WardrobeItem.id nextItem = WardrobeItem.id itemInfo ->
  let s := state r in
  let w' := handleItemSelect r itemFile itemInfo w in
  let s' := {| AppState.modelImageUrl := AppState.modelImageUrl s;
               AppState.garmentHistory := AppState.garmentHistory s;
               AppState.currentGarmentIndex := AppState.currentGarmentIndex s + 1;
               AppState.activeAccessories := [];
               AppState.generatedAccessoryImageUrl := None;
               AppState.currentPoseIndex := 0 |} in
  calls w' = calls w
  /\ HistoryState.state (hist w') = Some s'
  /\ Js.index (AppState.garmentHistory s') (AppState.currentGarmentIndex s') = Some nextLayer
  /\ w' = setHist (hist w') w.
Proof.
  intros Hr Hload Hbase Hne Hty Hnext Hitem Hid s w' s'.
  destruct (render_sound _ _ Hr) as [Hsnap Hst].
  assert (Hreplay : is_next_layer (state r) itemInfo = true).
  { unfold is_next_layer. rewrite Hnext, Hitem, Hid. apply String.eqb_refl. }
  subst w'. unfold handleItemSelect. rewrite Hbase, Hsnap, Hload, Hty, Hreplay.
  destruct (String.eqb_spec base ""); [contradiction|]. simpl orb. cbv iota.
  rewrite setState_changed by (apply same_json_garment_index; simpl; lia).
  fold s s'. simpl.
  repeat split; [apply index_app_last | exact Hnext].
Qed.

(** [updateAccessoryLayer] with no accessory left: no call, one
    [setState]. *)
Lemma updateAccessoryLayer_empty (r : Render) (override : option string) (w : World)
    (base : string) :
  accessoryBaseImageUrl r override w = Some base -> base <> ""%string ->
  updateAccessoryLayer r [] override w = setState r (with_accessories [] None) w.
Proof.
  intros Hb Hne. unfold updateAccessoryLayer. rewrite Hb.
  destruct (String.eqb_spec base ""); [contradiction|]. reflexivity.
Qed.

(** [updateAccessoryLayer] when the files load and the call succeeds. *)
Lemma updateAccessoryLayer_success (r : Render) (accessories : list WardrobeItem.t)
    (override : option string) (w : World) (base : string) (files : list File)
    (newImageUrl : string) :
  accessoryBaseImageUrl r override w = Some base -> base <> ""%string ->
  accessories <> [] ->
  accessoryFiles accessories = Returns files ->
  gemini (calls w) (AccessoryTryOn base files accessories) = Returns newImageUrl ->
  updateAccessoryLayer r accessories override w
  = w |> setIsLoading true |> setLoadingMessage "Styling accessories..."
      |> setError None
      |> setCalls (calls w ++ [AccessoryTryOn base files accessories])
      |> setState r (with_accessories accessories (Some newImageUrl))
      |> setIsLoading false |> setLoadingMessage "".
Proof.
  intros Hb Hne Hacc Hfiles Hapi. unfold updateAccessoryLayer. rewrite Hb.
  destruct (String.eqb_spec base ""); [contradiction|].
  destruct accessories as [|a rest]; [contradiction|].
  rewrite Hfiles. unfold call. simpl calls. rewrite Hapi. reflexivity.
Qed.

(** [updateAccessoryLayer] when the call fails. *)
Lemma updateAccessoryLayer_failure (r : Render) (accessories : list WardrobeItem.t)
    (override : option string) (w : World) (base : string) (files : list File)
    (err : Js.Thrown) :
  accessoryBaseImageUrl r override w = Some base -> base <> ""%string ->
  accessories <> [] ->
  accessoryFiles accessories = Returns files ->
  gemini (calls w) (AccessoryTryOn base files accessories) = Throws err ->
  let w' := updateAccessoryLayer r accessories override w in
  hist w' = hist w /\ heap w' = heap w
  /\ error w' = Some (getFriendlyErrorMessage err "Failed to apply accessories")
  /\ isLoading w' = false /\ loadingMessage w' = ""%string
  /\ calls w' = calls w ++ [AccessoryTryOn base files accessories].
Proof.
  intros Hb Hne Hacc Hfiles Hapi. unfold updateAccessoryLayer. rewrite Hb.
  destruct (String.eqb_spec base ""); [contradiction|].
  destruct accessories as [|a rest]; [contradiction|].
  rewrite Hfiles. unfold call. simpl calls. rewrite Hapi. simpl. auto 10.
Qed.

(** [handleItemSelect] on an accessory is [updateAccessoryLayer] on the
    toggled list. *)
Lemma handleItemSelect_accessory (w : World) (r : Render) (itemFile : File)
    (itemInfo : WardrobeItem.t) (base : string) :
  render w = Some r ->
  isLoading w = false ->
  baseGarmentImageUrl r = Some base -> base <> ""%string ->
  WardrobeItem.type itemInfo = accessory ->
  handleItemSelect r itemFile itemInfo w
  = updateAccessoryLayer r (toggled (AppState.activeAccessories (state r)) itemInfo) None w.
Proof.
  intros Hr Hload Hbase Hne Hty. destruct (render_sound _ _ Hr) as [Hsnap _].
  unfold handleItemSelect. rewrite Hbase, Hsnap, Hload, Hty.
  destruct (String.eqb_spec base ""); [contradiction|]. reflexivity.
Qed.

Lemma existsb_active accessories itemInfo :
  existsb (fun acc => String.eqb (WardrobeItem.id acc) (WardrobeItem.id itemInfo)) accessories
  = true <-> active accessories itemInfo.
Proof.
  unfold active. rewrite existsb_exists, in_map_iff. split.
  - intros [x [Hin Heq]]. apply String.eqb_eq in Heq. eauto.
  - intros [x [Heq Hin]]. exists x. split; [exact Hin|]. now apply String.eqb_eq.
Qed.

Lemma toggled_active accessories itemInfo :
  active accessories itemInfo -> toggled accessories itemInfo = without accessories itemInfo.
Proof.
  intros H. apply existsb_active in H. unfold toggled, without. now rewrite H.
Qed.

Lemma toggled_inactive accessories itemInfo :
  ~ active accessories itemInfo -> toggled accessories itemInfo = accessories ++ [itemInfo].
Proof.
  intros H. unfold toggled.
  destruct (existsb _ accessories) eqn:Hex; [|reflexivity].
  apply existsb_active in Hex. contradiction.
Qed.

(** The toggled list never holds the id of a removed accessory, and it is
    shorter than the list it came from. *)
Lemma without_not_active accessories itemInfo :
  ~ active (without accessories itemInfo) itemInfo.
Proof.
  unfold active, without. rewrite in_map_iff. intros [x [Heq Hin]].
  apply filter_In in Hin. destruct Hin as [_ Hneg].
  rewrite Heq, String.eqb_refl in Hneg. discriminate.
Qed.

Lemma without_changes accessories itemInfo :
  active accessories itemInfo -> without accessories itemInfo <> accessories.
Proof.
  intros Hact Heq. apply (without_not_active accessories itemInfo). now rewrite Heq.
Qed.

Lemma app_one_changes {A} (l : list A) (x : A) : l ++ [x] <> l.
Proof.
  intros H. apply (f_equal (@List.length A)) in H. rewrite length_app in H.
  cbn [List.length] in H. lia.
Qed.

(** [handleItemClick] on a garment that is already active does nothing. *)
Lemma handleItemClick_active_garment (r : Render) (item : WardrobeItem.t) (w : World) :
  WardrobeItem.type item = garment ->
  In (WardrobeItem.id item) (activeItemIds r) ->
  handleItemClick r item w = w.
Proof.
  intros Hty Hin. unfold handleItemClick.
  destruct (isLoading (snapshot r)); [reflexivity|].
  unfold is_garment. rewrite Hty.
  assert (Hex : existsb (String.eqb (WardrobeItem.id item)) (activeItemIds r) = true).
  { apply existsb_exists. exists (WardrobeItem.id item). split; [exact Hin|].
    apply String.eqb_refl. }
  now rewrite Hex.
Qed.

(** C10.  An accessory is toggled, a garment is not.  For a click on an
    accessory [itemInfo] that reaches [handleItemSelect]:
    - if it is active and no other accessory is, no call is made and the
      new state has no accessory and no accessory image;
    - if it is active and others remain, the overlay is generated for the
      remaining ones and, when that succeeds, they are the active list;
    - if it is not active, the overlay is generated for the list with it
      appended and, when that succeeds, that is the active list.
    A click in the wardrobe panel on a garment whose id is among the
    active item ids changes nothing. *)
Theorem C10_accessory_toggle_garment_not (w : World) (r : Render) (itemFile : File)
    (itemInfo : WardrobeItem.t) (base accBase : string) :
  render w = Some r ->
  isLoading w = false ->
  baseGarmentImageUrl r = Some base -> base <> ""%string ->
  accessoryBaseImageUrl r None w = Some accBase -> accBase <> ""%string ->
  WardrobeItem.type itemInfo = accessory ->
  let s := state r in
  let accessories := AppState.activeAccessories s in
  let w' := handleItemSelect r itemFile itemInfo w in
  (active accessories itemInfo -> without accessories itemInfo = [] ->
     calls w' = calls w
     /\ HistoryState.state (hist w') = Some (with_accessories [] None s))
  /\ (forall files newImageUrl,
        active accessories itemInfo -> without accessories itemInfo <> [] ->
        accessoryFiles (without accessories itemInfo) = Returns files ->
        gemini (calls w) (AccessoryTryOn accBase files (without accessories itemInfo))
          = Returns newImageUrl ->
        calls w' = calls w ++ [AccessoryTryOn accBase files (without accessories itemInfo)]
        /\ HistoryState.state (hist w')
           = Some (with_accessories (without accessories itemInfo) (Some newImageUrl) s)
        /\ ~ active (without accessories itemInfo) itemInfo)
  /\ (forall files newImageUrl,
        ~ active accessories itemInfo ->
        accessoryFiles (accessories ++ [itemInfo]) = Returns files ->
        gemini (calls w) (AccessoryTryOn accBase files (accessories ++ [itemInfo]))
          = Returns newImageUrl ->
        calls w' = calls w ++ [AccessoryTryOn accBase files (accessories ++ [itemInfo])]
        /\ HistoryState.state (hist w')
           = Some (with_accessories (accessories ++ [itemInfo]) (Some newImageUrl) s))
  /\ (forall garmentItem w0,
        WardrobeItem.type garmentItem = garment ->
        In (WardrobeItem.id garmentItem) (activeItemIds r) ->
        handleItemClick r garmentItem w0 = w0).
Proof.
  intros Hr Hload Hbase Hne Hacc Hane Hty s accessories w'.
  pose proof (handleItemSelect_accessory w r itemFile itemInfo base Hr Hload Hbase Hne Hty)
    as Hsel.
  fold s accessories w' in Hsel.
  split; [|split; [|split]].
  - intros Hact Hempty. rewrite Hsel, (toggled_active _ _ Hact), Hempty.
    rewrite (updateAccessoryLayer_empty r None w accBase Hacc Hane).
    rewrite setState_changed.
    + split; [reflexivity | apply state_setHist_push].
    + apply same_json_accessories. cbn. fold s accessories.
      intros Heq. pose proof (without_changes _ _ Hact) as Hch.
      fold accessories in Hch. congruence.
  - intros files newImageUrl Hact Hrest Hfiles Hapi.
    rewrite Hsel, (toggled_active _ _ Hact).
    rewrite (updateAccessoryLayer_success r _ None w accBase files newImageUrl
               Hacc Hane Hrest Hfiles Hapi).
    cbv beta. rewrite setState_changed.
    + split; [reflexivity | split; [apply state_setHist_push | apply without_not_active]].
    + apply same_json_accessories. cbn. apply without_changes. exact Hact.
  - intros files newImageUrl Hinact Hfiles Hapi.
    rewrite Hsel, (toggled_inactive _ _ Hinact).
    assert (Hnonempty : accessories ++ [itemInfo] <> []) by (now destruct accessories).
    rewrite (updateAccessoryLayer_success r _ None w accBase files newImageUrl
               Hacc Hane Hnonempty Hfiles Hapi).
    cbv beta. rewrite setState_changed.
    + split; [reflexivity | apply state_setHist_push].
    + apply same_json_accessories. cbn. apply app_one_changes.
  - intros garmentItem w0. apply handleItemClick_active_garment.
Qed.

Lemma handleItemSelect_failure (w : World) (r : Render) (itemFile : File)
    (itemInfo : WardrobeItem.t) (base : string) (err : Js.Thrown) :
  render w = Some r ->
  isLoading w = false ->
  baseGarmentImageUrl r = Some base -> base <> ""%string ->
  WardrobeItem.type itemInfo = garment ->
  is_next_layer (state r) itemInfo = false ->
  gemini (calls w) (GarmentTryOn (Some base) itemFile) = Throws err ->
  displays_error w (handleItemSelect r itemFile itemInfo w) err "Failed to apply item".
Proof.
  intros Hr Hload Hbase Hne Hty Hnext Hapi.
  destruct (render_sound _ _ Hr) as [Hsnap _].
  unfold handleItemSelect. rewrite Hbase, Hsnap, Hload, Hty, Hnext.
  destruct (String.eqb_spec base ""); [contradiction|]. simpl orb. cbv iota.
  unfold call. simpl calls. rewrite Hapi. repeat split.
Qed.

Lemma handlePoseSelect_failure (w : World) (r : Render) (newIndex : Z)
    (currentLayer : OutfitLayer.t) (base : string) (err : Js.Thrown) :
  render w = Some r ->
  isLoading w = false ->
  newIndex <> AppState.currentPoseIndex (state r) ->
  Js.index (AppState.garmentHistory (state r))
           (AppState.currentGarmentIndex (state r)) = Some currentLayer ->
  Js.truthy (Js.get (deref (heap w) (OutfitLayer.poseImages currentLayer))
                    (pose_key newIndex)) = false ->
  Js.values0 (deref (heap w) (OutfitLayer.poseImages currentLayer)) = Some base ->
  base <> ""%string ->
  gemini (calls w) (PoseVariation base (Js.index POSE_INSTRUCTIONS newIndex)) = Throws err ->
  displays_error w (handlePoseSelect r newIndex w) err "Failed to change pose".
Proof.
  intros Hr Hload Hnew Hlayer Hcached Hvalues Hne Hapi.
  destruct (render_sound _ _ Hr) as [Hsnap _].
  unfold handlePoseSelect. rewrite Hsnap, Hload.
  pose proof (index_Some_valid _ _ _ Hlayer) as Hlen.
  destruct (Z.eqb_spec (Js.length (AppState.garmentHistory (state r))) 0); [lia|].
  destruct (Z.eqb_spec newIndex (AppState.currentPoseIndex (state r))); [contradiction|].
  simpl orb. cbv iota. rewrite Hlayer. fold (pose_key newIndex). rewrite Hcached, Hvalues.
  destruct (String.eqb_spec base ""); [contradiction|].
  unfold call. simpl calls. rewrite Hapi. repeat split.
Qed.

(** The loop of [handleReorderGarments] only allocates and calls: the
    cells stay as they are, and the heap is extended. *)
Lemma regenerate_frame (layers : list OutfitLayer.t) :
  forall currentImage regenerated w result w',
    regenerate layers currentImage regenerated w = (result, w') ->
    hist w' = hist w /\ isLoading w' = isLoading w
    /\ loadingMessage w' = loadingMessage w /\ error w' = error w
    /\ wardrobe w' = wardrobe w /\ savedOutfits w' = savedOutfits w
    /\ exists ext, heap w' = heap w ++ ext.
Proof.
  induction layers as [|layerToApply rest IH]; intros currentImage regenerated w result w' H.
  - cbn in H. inversion H; subst. repeat split; try reflexivity.
    exists []. now rewrite app_nil_r.
  - cbn in H. destruct (OutfitLayer.item layerToApply) as [itemInfo|].
    2:{ inversion H; subst. repeat split; try reflexivity. exists []. now rewrite app_nil_r. }
    destruct (urlToFile _ _) as [itemFile|err].
    2:{ inversion H; subst. repeat split; try reflexivity. exists []. now rewrite app_nil_r. }
    destruct (gemini _ _) as [newImageUrl|err].
    2:{ inversion H; subst. repeat split; try reflexivity. exists []. now rewrite app_nil_r. }
    apply IH in H. cbn in H.
    destruct H as (Hh & Hl & Hm & He & Hw & Hs & ext & Hext).
    repeat split; try assumption.
    exists ([(pose_key 0, Some newImageUrl)] :: ext). rewrite Hext, <- app_assoc. reflexivity.
Qed.

Lemma handleReorderGarments_failure (w : World) (r : Render)
    (reorderedItems : list OutfitLayer.t) (base : OutfitLayer.t)
    (rest : list OutfitLayer.t) (err : Js.Thrown) (w1 : World) :
  AppState.garmentHistory (state r) = base :: rest ->
  same_ids (base :: reorderedItems) (AppState.garmentHistory (state r)) = false ->
  regenerate reorderedItems (AppState.modelImageUrl (state r)) [base]
    (w |> setError None |> setIsLoading true |> setLoadingMessage "Re-styling your outfit...")
    = (Throws err, w1) ->
  let w' := handleReorderGarments r reorderedItems w in
  hist w' = hist w
  /\ (exists ext, heap w' = heap w ++ ext)
  /\ error w' = Some (getFriendlyErrorMessage err
                        "Failed to reorder outfit. Reverting to previous order.")
  /\ isLoading w' = false
  /\ loadingMessage w' = ""%string.
Proof.
  intros Hgh Hids Hloop. unfold handleReorderGarments. rewrite Hgh.
  rewrite Hgh in Hids. rewrite Hids. cbv beta zeta. rewrite Hloop. cbn.
  apply regenerate_frame in Hloop. cbn in Hloop.
  destruct Hloop as (Hh & _ & _ & _ & _ & _ & Hext). auto.
Qed.

(** A failing try-on call ends the loop of [handleReorderGarments]. *)
Lemma regenerate_call_fails (layerToApply : OutfitLayer.t) (rest : list OutfitLayer.t)
    (itemInfo : WardrobeItem.t) (itemFile : File) (err : Js.Thrown)
    currentImage regenerated w :
  OutfitLayer.item layerToApply = Some itemInfo ->
  urlToFile (WardrobeItem.url itemInfo) (WardrobeItem.name itemInfo) = Returns itemFile ->
  gemini (calls w) (GarmentTryOn currentImage itemFile) = Throws err ->
  regenerate (layerToApply :: rest) currentImage regenerated w
  = (Throws err, setCalls (calls w ++ [GarmentTryOn currentImage itemFile]) w).
Proof. intros Hi Hf Hc. cbn. now rewrite Hi, Hf, Hc. Qed.

(** C5.  A failing generation call is caught and displayed, and commits
    nothing: in [handleItemSelect] (garment try-on), in [handlePoseSelect]
    (pose variation), in [updateAccessoryLayer] (accessory overlay) and in
    the loop of [handleReorderGarments] (garment try-on, any iteration),
    the history cells are left as they were, no [poseImages] object that
    existed is changed, the error is the friendly message of the thrown
    value, and the loading flag and message are cleared. *)
Theorem C5_failed_call_is_displayed_only :
  (forall w r itemFile itemInfo base err,
      render w = Some r -> isLoading w = false ->
      baseGarmentImageUrl r = Some base -> base <> ""%string ->
      WardrobeItem.type itemInfo = garment ->
      is_next_layer (state r) itemInfo = false ->
      gemini (calls w) (GarmentTryOn (Some base) itemFile) = Throws err ->
      displays_error w (handleItemSelect r itemFile itemInfo w) err "Failed to apply item")
  /\ (forall w r newIndex currentLayer base err,
      render w = Some r -> isLoading w = false ->
      newIndex <> AppState.currentPoseIndex (state r) ->
      Js.index (AppState.garmentHistory (state r))
               (AppState.currentGarmentIndex (state r)) = Some currentLayer ->
      Js.truthy (Js.get (deref (heap w) (OutfitLayer.poseImages currentLayer))
                        (pose_key newIndex)) = false ->
      Js.values0 (deref (heap w) (OutfitLayer.poseImages currentLayer)) = Some base ->
      base <> ""%string ->
      gemini (calls w) (PoseVariation base (Js.index POSE_INSTRUCTIONS newIndex))
        = Throws err ->
      displays_error w (handlePoseSelect r newIndex w) err "Failed to change pose")
  /\ (forall r accessories override w base files err,
      accessoryBaseImageUrl r override w = Some base -> base <> ""%string ->
      accessories <> [] ->
      accessoryFiles accessories = Returns files ->
      gemini (calls w) (AccessoryTryOn base files accessories) = Throws err ->
      displays_error w (updateAccessoryLayer r accessories override w) err
                     "Failed to apply accessories")
  /\ (forall w r reorderedItems base rest err w1,
      AppState.garmentHistory (state r) = base :: rest ->
      same_ids (base :: reorderedItems) (AppState.garmentHistory (state r)) = false ->
      regenerate reorderedItems (AppState.modelImageUrl (state r)) [base]
        (w |> setError None |> setIsLoading true
           |> setLoadingMessage "Re-styling your outfit...")
        = (Throws err, w1) ->
      let w' := handleReorderGarments r reorderedItems w in
      hist w' = hist w
      /\ (exists ext, heap w' = heap w ++ ext)
      /\ error w' = Some (getFriendlyErrorMessage err
                            "Failed to reorder outfit. Reverting to previous order.")
      /\ isLoading w' = false
      /\ loadingMessage w' = ""%string).
Proof.
  split; [|split; [|split]].
  - intros. now apply handleItemSelect_failure with (base := base).
  - intros. now apply handlePoseSelect_failure with (currentLayer := currentLayer) (base := base).
  - intros r accessories override w base files err Hb Hne Hacc Hfiles Hapi.
    destruct (updateAccessoryLayer_failure r accessories override w base files err
                Hb Hne Hacc Hfiles Hapi) as (H1 & H2 & H3 & H4 & H5 & _).
    repeat split; assumption.
  - intros w r reorderedItems base rest err w1.
    apply handleReorderGarments_failure.
Qed.

Lemma get_set (o : Js.object) (k v : string) : Js.get (Js.set o k v) k = Some v.
Proof.
  induction o as [|[k' v'] rest IH]; cbn.
  - now rewrite String.eqb_refl.
  - destruct (String.eqb_spec k' k) as [->|Hne]; cbn.
    + now rewrite String.eqb_refl.
    + destruct (String.eqb_spec k' k); [contradiction|exact IH].
Qed.

Lemma deref_update (h : list Js.object) (l : loc) (f : Js.object -> Js.object) :
  (l < List.length h)%nat -> deref (update l f h) l = f (deref h l).
Proof.
  unfold deref. revert l. induction h as [|o rest IH]; intros l Hl; cbn in Hl; [lia|].
  destruct l as [|l']; cbn; [reflexivity|]. apply IH. lia.
Qed.

Lemma deref_update_other (h : list Js.object) (l l' : loc) (f : Js.object -> Js.object) :
  l' <> l -> deref (update l f h) l' = deref h l'.
Proof.
  unfold deref. revert l l'. induction h as [|o rest IH]; intros l l' Hne.
  - now destruct l.
  - destruct l as [|l0], l' as [|l0']; cbn; try reflexivity; try congruence.
    apply IH. congruence.
Qed.

Lemma values0_allocated (h : list Js.object) (l : loc) (v : string) :
  Js.values0 (deref h l) = Some v -> (l < List.length h)%nat.
Proof.
  intros H. destruct (Nat.lt_ge_cases l (List.length h)) as [|Hge]; [assumption|].
  unfold deref in H. rewrite nth_overflow in H by exact Hge. discriminate.
Qed.

(** X2.  [handlePoseSelect] does nothing while loading or on the current
    pose. *)
Lemma handlePoseSelect_noop (r : Render) (newIndex : Z) (w : World) :
  isLoading (snapshot r) = true \/ newIndex = AppState.currentPoseIndex (state r) ->
  handlePoseSelect r newIndex w = w.
Proof.
  intros [H|H]; unfold handlePoseSelect.
  - now rewrite H.
  - rewrite <- H, Z.eqb_refl. now rewrite !orb_true_r.
Qed.

(** X3.  A cached pose, no accessory active: no call is made and only the
    pose index changes. *)
Lemma handlePoseSelect_cached (w : World) (r : Render) (newIndex : Z)
    (currentLayer : OutfitLayer.t) :
  render w = Some r ->
  isLoading w = false ->
  newIndex <> AppState.currentPoseIndex (state r) ->
  Js.index (AppState.garmentHistory (state r))
           (AppState.currentGarmentIndex (state r)) = Some currentLayer ->
  Js.truthy (Js.get (deref (heap w) (OutfitLayer.poseImages currentLayer))
                    (pose_key newIndex)) = true ->
  AppState.activeAccessories (state r) = [] ->
  let w' := handlePoseSelect r newIndex w in
  calls w' = calls w
  /\ HistoryState.state (hist w') = Some (with_pose newIndex (state r))
  /\ w' = setHist (hist w') w.
Proof.
  intros Hr Hload Hnew Hlayer Hcached Hacc.
  destruct (render_sound _ _ Hr) as [Hsnap _].
  unfold handlePoseSelect. rewrite Hsnap, Hload.
  pose proof (index_Some_valid _ _ _ Hlayer) as Hlen.
  destruct (Z.eqb_spec (Js.length (AppState.garmentHistory (state r))) 0); [lia|].
  destruct (Z.eqb_spec newIndex (AppState.currentPoseIndex (state r))); [contradiction|].
  simpl orb. cbv iota. rewrite Hlayer. fold (pose_key newIndex). rewrite Hcached, Hacc.
  cbv zeta. rewrite setState_changed by (apply same_json_pose_index; cbn; congruence).
  cbn. repeat split. apply index_app_last.
Qed.

(** X4.  A pose that is not cached, no accessory active: one call on the first
    image of the layer; its result is stored in the layer's [poseImages]
    under the pose instruction and the pose index changes. *)
Lemma handlePoseSelect_generated (w : World) (r : Render) (newIndex : Z)
    (currentLayer : OutfitLayer.t) (base newImageUrl : string) :
  render w = Some r ->
  isLoading w = false ->
  newIndex <> AppState.currentPoseIndex (state r) ->
  Js.index (AppState.garmentHistory (state r))
           (AppState.currentGarmentIndex (state r)) = Some currentLayer ->
  Js.truthy (Js.get (deref (heap w) (OutfitLayer.poseImages currentLayer))
                    (pose_key newIndex)) = false ->
  Js.values0 (deref (heap w) (OutfitLayer.poseImages currentLayer)) = Some base ->
  base <> ""%string ->
  gemini (calls w) (PoseVariation base (Js.index POSE_INSTRUCTIONS newIndex))
    = Returns newImageUrl ->
  AppState.activeAccessories (state r) = [] ->
  let w' := handlePoseSelect r newIndex w in
  let l := OutfitLayer.poseImages currentLayer in
  calls w' = calls w ++ [PoseVariation base (Js.index POSE_INSTRUCTIONS newIndex)]
  /\ deref (heap w') l = Js.set (deref (heap w) l) (pose_key newIndex) newImageUrl
  /\ Js.get (deref (heap w') l) (pose_key newIndex) = Some newImageUrl
  /\ (forall l', l' <> l -> deref (heap w') l' = deref (heap w) l')
  /\ HistoryState.state (hist w') = Some (with_pose newIndex (state r))
  /\ isLoading w' = false /\ error w' = None.
Proof.
  intros Hr Hload Hnew Hlayer Hcached Hvalues Hne Hapi Hacc.
  destruct (render_sound _ _ Hr) as [Hsnap _].
  pose proof (values0_allocated _ _ _ Hvalues) as Hl.
  unfold handlePoseSelect. rewrite Hsnap, Hload.
  pose proof (index_Some_valid _ _ _ Hlayer) as Hlen.
  destruct (Z.eqb_spec (Js.length (AppState.garmentHistory (state r))) 0); [lia|].
  destruct (Z.eqb_spec newIndex (AppState.currentPoseIndex (state r))); [contradiction|].
  simpl orb. cbv iota. rewrite Hlayer. fold (pose_key newIndex). rewrite Hcached, Hvalues.
  destruct (String.eqb_spec base ""); [contradiction|].
  unfold call. simpl calls. rewrite Hapi, Hacc. cbv zeta beta.
  rewrite setState_changed by (apply same_json_pose_index; cbn; congruence).
  cbn. unfold with_pose.
  split; [reflexivity|].
  split; [now apply deref_update|].
  split; [rewrite deref_update by exact Hl; apply get_set|].
  split; [intros l' Hl'; now apply deref_update_other|].
  split; [apply index_app_last|]. split; reflexivity.
Qed.

(** Two [setState] of one render: the second is computed from the state
    and the history the render saw, like the first, and its writes
    replace those of the first. *)
Lemma setState_overwrites (r : Render) (first second : AppState.t -> AppState.t) (w : World) :
  same_json (heap w) (second (state r)) (state r) = false ->
  setState r second (setState r first w) = setState r second w.
Proof.
  intros H.
  rewrite (setState_changed r second (setState r first w)) by exact H.
  rewrite (setState_changed r second w) by exact H.
  reflexivity.
Qed.

(** A cached pose with accessories active, when the overlay is
    regenerated with a new image: the state that ends up current is the
    one the render saw with the new overlay, and its pose index is the
    old one. *)
Lemma handlePoseSelect_cached_with_accessories (w : World) (r : Render) (newIndex : Z)
    (currentLayer : OutfitLayer.t) (cached : string) (files : list File)
    (newImageUrl : string) :
  render w = Some r ->
  isLoading w = false ->
  newIndex <> AppState.currentPoseIndex (state r) ->
  Js.index (AppState.garmentHistory (state r))
           (AppState.currentGarmentIndex (state r)) = Some currentLayer ->
  Js.get (deref (heap w) (OutfitLayer.poseImages currentLayer)) (pose_key newIndex)
    = Some cached ->
  cached <> ""%string ->
  AppState.activeAccessories (state r) <> [] ->
  accessoryFiles (AppState.activeAccessories (state r)) = Returns files ->
  gemini (calls w) (AccessoryTryOn cached files (AppState.activeAccessories (state r)))
    = Returns newImageUrl ->
  AppState.generatedAccessoryImageUrl (state r) <> Some newImageUrl ->
  let w' := handlePoseSelect r newIndex w in
  HistoryState.state (hist w')
  = Some (with_accessories (AppState.activeAccessories (state r)) (Some newImageUrl) (state r))
  /\ option_map AppState.currentPoseIndex (HistoryState.state (hist w'))
     = Some (AppState.currentPoseIndex (state r)).
Proof.
  intros Hr Hload Hnew Hlayer Hcached Hne Hacc Hfiles Hapi Hfresh.
  destruct (render_sound _ _ Hr) as [Hsnap _].
  unfold handlePoseSelect. rewrite Hsnap, Hload.
  pose proof (index_Some_valid _ _ _ Hlayer) as Hlen.
  destruct (Z.eqb_spec (Js.length (AppState.garmentHistory (state r))) 0); [lia|].
  destruct (Z.eqb_spec newIndex (AppState.currentPoseIndex (state r))); [contradiction|].
  simpl orb. cbv iota. rewrite Hlayer. fold (pose_key newIndex). rewrite Hcached.
  assert (Htruthy : Js.truthy (Some cached) = true).
  { cbn. now destruct (String.eqb_spec cached ""). }
  rewrite Htruthy. cbv zeta.
  destruct (AppState.activeAccessories (state r)) as [|acc rest] eqn:Haccs; [contradiction|].
  rewrite <- Haccs in *.
  rewrite (updateAccessoryLayer_success r _ (Some cached) _ cached files newImageUrl);
    try assumption; try reflexivity.
  cbv beta.
  rewrite setState_changed by (apply same_json_overlay; cbn; congruence).
  cbn [hist setHist setIsLoading setLoadingMessage].
  unfold HistoryState.state. cbn [HistoryState.history HistoryState.currentIndex].
  rewrite index_app_last. split; reflexivity.
Qed.

Lemma reconstruct_spec (stored : list StoredLayer.t) :
  forall w layers w',
    reconstruct stored w = (layers, w') ->
    w' = setHeap (heap w') w
    /\ (exists ext, heap w' = heap w ++ ext)
    /\ Forall (fun l => (List.length (heap w) <= OutfitLayer.poseImages l
                         < List.length (heap w'))%nat) layers
    /\ Forall2 (restores (heap w')) stored layers.
Proof.
  induction stored as [|sl rest IH]; intros w layers w' H; cbn in H.
  - inversion H; subst. repeat split; [now destruct w' | | constructor | constructor].
    exists []. now rewrite app_nil_r.
  - destruct (reconstruct rest _) as [layers0 w0] eqn:Hrest.
    inversion H; subst. apply IH in Hrest. cbn in Hrest.
    destruct Hrest as (Hw & [ext Hext] & Hlocs & Hres).
    split; [rewrite Hw at 1; reflexivity|].
    split; [exists ([(pose_key 0, StoredLayer.imageUrl sl)] :: ext);
            rewrite Hext, <- app_assoc; reflexivity|].
    assert (Hlen : (List.length (heap w) < List.length (heap w'))%nat).
    { rewrite Hext, !length_app. cbn. lia. }
    split.
    + constructor; [cbn; lia|].
      rewrite length_app in Hlocs. cbn in Hlocs.
      eapply Forall_impl; [|exact Hlocs]. cbn. intros l Hl. lia.
    + constructor; [|exact Hres]. split; [reflexivity|]. cbn.
      rewrite Hext, deref_old by (rewrite length_app; cbn; lia). apply deref_alloc.
Qed.

(** X8.  [handleSaveOutfit] refuses an outfit of the base model alone. *)
Lemma handleSaveOutfit_refused (r : Render) (now localeString : string) (w : World) :
  AppState.currentGarmentIndex (state r) = 0 ->
  AppState.activeAccessories (state r) = [] ->
  handleSaveOutfit r now localeString w
  = setError (Some "Add at least one item to save an outfit."%string) w.
Proof.
  intros Hc Ha. unfold handleSaveOutfit. rewrite Hc, Ha. cbn.
  now rewrite !orb_true_r.
Qed.

(** What [handleSaveOutfit] records when it accepts. *)
Lemma handleSaveOutfit_accepted (r : Render) (now localeString : string) (w : World) :
  Js.truthy (AppState.modelImageUrl (state r)) = true ->
  Js.truthy (displayImageUrl r) = true ->
  AppState.currentGarmentIndex (state r) <> 0
    \/ AppState.activeAccessories (state r) <> [] ->
  exists outfit,
    handleSaveOutfit r now localeString w = setSavedOutfits (outfit :: savedOutfits w) w
    /\ SavedOutfit.id outfit = ("outfit-" ++ now)%string
    /\ SavedOutfit.modelImageUrl outfit = AppState.modelImageUrl (state r)
    /\ SavedOutfit.garmentHistory outfit
       = map (fun layer =>
                {| StoredLayer.item := OutfitLayer.item layer;
                   StoredLayer.imageUrl :=
                     Js.values0 (deref (heap w) (OutfitLayer.poseImages layer)) |})
             (activeGarmentLayers (state r))
    /\ SavedOutfit.activeAccessories outfit = AppState.activeAccessories (state r).
Proof.
  intros Hm Hd Hsome. unfold handleSaveOutfit. rewrite Hm, Hd. cbn [negb orb].
  assert (Hg : (AppState.currentGarmentIndex (state r) =? 0)
               && (Js.length (AppState.activeAccessories (state r)) =? 0) = false).
  { destruct Hsome as [Hc|Ha].
    - destruct (Z.eqb_spec (AppState.currentGarmentIndex (state r)) 0); [contradiction|].
      reflexivity.
    - destruct (AppState.activeAccessories (state r)); [contradiction|].
      now rewrite andb_false_r. }
  rewrite Hg. eexists. split; [reflexivity|]. cbn. auto.
Qed.

(** X5.  Saving and loading an outfit without accessories: the history is
    reset to one state whose model image, garment items and accessories
    are the saved ones, with the last loaded layer current, the pose index
    0 and one pose image per layer; no call is made. *)
Theorem save_then_load_without_accessories (w : World) (r r1 : Render)
    (now localeString : string) :
  render w = Some r ->
  isLoading w = false ->
  Js.truthy (AppState.modelImageUrl (state r)) = true ->
  Js.truthy (displayImageUrl r) = true ->
  AppState.currentGarmentIndex (state r) <> 0 ->
  AppState.activeAccessories (state r) = [] ->
  AppState.generatedAccessoryImageUrl (state r) = None ->
  let s := state r in
  let w1 := handleSaveOutfit r now localeString w in
  render w1 = Some r1 ->
  let w2 := handleLoadOutfit r1 ("outfit-" ++ now)%string w1 in
  exists loaded,
    hist w2 = {| HistoryState.history := [loaded]; HistoryState.currentIndex := 0 |}
    /\ AppState.modelImageUrl loaded = AppState.modelImageUrl s
    /\ map OutfitLayer.item (AppState.garmentHistory loaded)
       = map OutfitLayer.item (activeGarmentLayers s)
    /\ AppState.activeAccessories loaded = AppState.activeAccessories s
    /\ AppState.generatedAccessoryImageUrl loaded = None
    /\ AppState.currentGarmentIndex loaded
       = Js.length (AppState.garmentHistory loaded) - 1
    /\ AppState.currentPoseIndex loaded = 0
    /\ Forall2 (fun old new =>
                  deref (heap w2) (OutfitLayer.poseImages new)
                  = [(pose_key 0, Js.values0 (deref (heap w) (OutfitLayer.poseImages old)))])
               (activeGarmentLayers s) (AppState.garmentHistory loaded)
    /\ calls w2 = calls w
    /\ isLoading w2 = false.
Proof.
  intros Hr Hload Hm Hd Hc Ha Hg s w1 Hr1 w2. subst s.
  destruct (render_sound _ _ Hr) as [Hsnap Hst].
  destruct (render_sound _ _ Hr1) as [Hsnap1 Hst1].
  destruct (handleSaveOutfit_accepted r now localeString w Hm Hd (or_introl Hc))
    as (outfit & Hsave & Hid & Hmodel & Hlayers & Haccs).
  fold w1 in Hsave.
  assert (Hs1 : state r1 = state r).
  { rewrite Hsave in Hst1. cbn [hist setSavedOutfits] in Hst1. congruence. }
  subst w2. unfold handleLoadOutfit. rewrite Hsnap1, Hsave. cbn [isLoading setSavedOutfits savedOutfits].
  rewrite Hload. cbn [find]. rewrite Hid, String.eqb_refl.
  destruct (reconstruct (SavedOutfit.garmentHistory outfit) _) as [layers w3] eqn:Hrec.
  pose proof (reconstruct_spec _ _ _ _ Hrec) as (Hw3 & [ext Hext] & _ & Hres).
  cbn in Hw3, Hext.
  rewrite Haccs, Ha.
  rewrite setState_same.
  2:{ unfold same_json. rewrite Hs1.
      destruct (JsonState_eq_dec _ _) as [|Hne]; [reflexivity|].
      exfalso. apply Hne. unfold json_state. cbn. now rewrite Hg. }
  exists {| AppState.modelImageUrl := SavedOutfit.modelImageUrl outfit;
            AppState.garmentHistory := layers;
            AppState.currentGarmentIndex := Js.length layers - 1;
            AppState.activeAccessories := [];
            AppState.generatedAccessoryImageUrl := None;
            AppState.currentPoseIndex := 0 |}.
  cbn. rewrite Hw3. cbn.
  split; [reflexivity|]. split; [exact Hmodel|].
  assert (Hitems : map OutfitLayer.item layers
                   = map OutfitLayer.item (activeGarmentLayers (state r))
          /\ Forall2 (fun old new =>
                  deref (heap w3) (OutfitLayer.poseImages new)
                  = [(pose_key 0, Js.values0 (deref (heap w) (OutfitLayer.poseImages old)))])
               (activeGarmentLayers (state r)) layers).
  { rewrite Hlayers in Hres. clear - Hres.
    remember (activeGarmentLayers (state r)) as active eqn:Heq. clear Heq.
    revert layers Hres. induction active as [|old rest IH]; intros layers Hres; cbn in Hres.
    - inversion Hres; subst. split; constructor.
    - inversion Hres as [|sl l sls ls [Hitem Hderef] Hrest]; subst.
      destruct (IH _ Hrest) as [IH1 IH2]. cbn in Hitem, Hderef. split.
      + cbn. now rewrite Hitem, IH1.
      + constructor; assumption. }
  destruct Hitems as [Hitems Himages].
  repeat split; try assumption; try reflexivity.
Qed.

(** The loop of [handleReorderGarments], when it completes. *)
Lemma regenerate_success (layers : list OutfitLayer.t) :
  forall currentImage regeneratedLayers w final out w',
    regenerate layers currentImage regeneratedLayers w = (Returns (final, out), w') ->
    exists made new,
      out = regeneratedLayers ++ new
      /\ calls w' = calls w ++ made
      /\ Forall (fun l => (OutfitLayer.poseImages l < List.length (heap w'))%nat) new
      /\ regenerated (heap w') (calls w) currentImage layers made new final.
Proof.
  induction layers as [|layerToApply rest IH];
    intros currentImage regeneratedLayers w final out w' H; cbn in H.
  - inversion H; subst. exists [], []. rewrite !app_nil_r.
    repeat split; constructor.
  - destruct (OutfitLayer.item layerToApply) as [itemInfo|] eqn:Hitem; [|discriminate].
    destruct (urlToFile _ _) as [itemFile|err] eqn:Hfile; [|discriminate].
    destruct (gemini _ _) as [newImageUrl|err] eqn:Hcall; [|discriminate].
    pose proof (regenerate_frame _ _ _ _ _ _ H) as (_ & _ & _ & _ & _ & _ & ext & Hext).
    apply IH in H. cbn in H, Hext. destruct H as (made & new & Hout & Hcalls & Hlocs & Hreg).
    exists (GarmentTryOn currentImage itemFile :: made),
           ({| OutfitLayer.item := Some itemInfo;
               OutfitLayer.poseImages := List.length (heap w) |} :: new).
    split; [rewrite Hout, <- app_assoc; reflexivity|].
    split; [rewrite Hcalls, <- app_assoc; reflexivity|].
    assert (Hlen : (List.length (heap w) < List.length (heap w'))%nat).
    { rewrite Hext, !length_app. cbn. lia. }
    split; [constructor; [exact Hlen | exact Hlocs]|].
    econstructor; eauto. cbn.
    rewrite Hext, deref_old by (rewrite length_app; cbn; lia). apply deref_alloc.
Qed.

Lemma regenerated_items h log image layers made new final :
  regenerated h log image layers made new final ->
  map OutfitLayer.item new = map OutfitLayer.item layers.
Proof. induction 1; cbn; congruence. Qed.

Lemma json_layers_ids h (a b : list OutfitLayer.t) :
  map (json_layer h) a = map (json_layer h) b -> map layer_id a = map layer_id b.
Proof.
  revert b. induction a as [|x a IH]; intros [|y b] H; cbn in H; try discriminate.
  - reflexivity.
  - inversion H as [[Hitem Himages Hrest]]. cbn. unfold layer_id at 1 3.
    now rewrite Hitem, (IH _ Hrest).
Qed.

Lemma layer_ids_items (a b : list OutfitLayer.t) :
  map OutfitLayer.item a = map OutfitLayer.item b -> map layer_id a = map layer_id b.
Proof.
  intros H. change layer_id with (fun l => option_map WardrobeItem.id (OutfitLayer.item l)).
  rewrite <- !(map_map OutfitLayer.item (option_map WardrobeItem.id)). now rewrite H.
Qed.

Lemma same_ids_spec (a b : list OutfitLayer.t) :
  same_ids a b = true <-> map layer_id a = map layer_id b.
Proof.
  unfold same_ids. destruct (ids_eq_dec (map layer_id a) (map layer_id b)); split;
    intros; congruence.
Qed.

(** X6.  A reordering with the id sequence of [garmentHistory] changes
    nothing. *)
Lemma handleReorderGarments_same_order (r : Render) (reorderedItems : list OutfitLayer.t)
    (w : World) :
  map layer_id (firstn 1 (AppState.garmentHistory (state r)) ++ reorderedItems)
  = map layer_id (AppState.garmentHistory (state r)) ->
  handleReorderGarments r reorderedItems w = w.
Proof.
  intros H. unfold handleReorderGarments.
  destruct (AppState.garmentHistory (state r)) as [|base rest]; [reflexivity|].
  cbn [firstn app] in H. apply same_ids_spec in H. now rewrite H.
Qed.

(** X7.  A reordering with another id sequence, no accessory active, every
    call succeeding: the layers are regenerated one after the other from
    the model image, and they replace the garment history. *)
Lemma handleReorderGarments_success (w : World) (r : Render)
    (reorderedItems : list OutfitLayer.t) (base : OutfitLayer.t)
    (rest : list OutfitLayer.t) final out w1 :
  render w = Some r ->
  AppState.garmentHistory (state r) = base :: rest ->
  map layer_id (base :: reorderedItems) <> map layer_id (AppState.garmentHistory (state r)) ->
  regenerate reorderedItems (AppState.modelImageUrl (state r)) [base]
    (w |> setError None |> setIsLoading true |> setLoadingMessage "Re-styling your outfit...")
    = (Returns (final, out), w1) ->
  AppState.activeAccessories (state r) = [] ->
  let s := state r in
  let w' := handleReorderGarments r reorderedItems w in
  exists made new,
    calls w' = calls w ++ made
    /\ regenerated (heap w') (calls w) (AppState.modelImageUrl s) reorderedItems made new final
    /\ HistoryState.state (hist w')
       = Some {| AppState.modelImageUrl := AppState.modelImageUrl s;
                 AppState.garmentHistory := base :: new;
                 AppState.currentGarmentIndex := Js.length (base :: new) - 1;
                 AppState.activeAccessories := AppState.activeAccessories s;
                 AppState.generatedAccessoryImageUrl := AppState.generatedAccessoryImageUrl s;
                 AppState.currentPoseIndex := 0 |}
    /\ isLoading w' = false /\ error w' = None.
Proof.
  intros Hr Hgh Hids Hloop Hacc s w'. subst s w'.
  destruct (render_sound _ _ Hr) as [Hsnap _].
  unfold handleReorderGarments. rewrite Hgh.
  assert (Hdiff : same_ids (base :: reorderedItems) (base :: rest) = false).
  { destruct (same_ids _ _) eqn:Hs; [|reflexivity].
    apply same_ids_spec in Hs. rewrite Hgh in Hids. contradiction. }
  rewrite Hdiff. cbv beta zeta. rewrite Hloop, Hacc.
  pose proof (regenerate_frame _ _ _ _ _ _ Hloop) as (Hh & Hl & Hm & He & _ & _ & _).
  destruct (regenerate_success _ _ _ _ _ _ _ Hloop) as (made & new & Hout & Hcalls & _ & Hreg).
  cbn in Hcalls, Hreg, He. subst out. cbn [app].
  exists made, new.
  rewrite setState_changed.
  - cbn. rewrite ?Hacc. repeat split; try assumption. apply index_app_last.
  - apply same_json_false. unfold json_state. cbn. intros Heq.
    inversion Heq as [[Hlayers Hcgi Hcpi]]. rewrite Hgh in Hlayers.
    assert (Hsame : map layer_id (base :: new) = map layer_id (base :: rest)).
    { apply (json_layers_ids (heap w1)). cbn. exact Hlayers. }
    apply Hids. rewrite Hgh, <- Hsame. cbn. f_equal.
    symmetry. apply layer_ids_items. exact (regenerated_items _ _ _ _ _ _ _ Hreg).
Qed.

(** Loading an outfit with accessories, when the overlay is regenerated
    with a new image: the state that ends up current is the one the render
    saw before the load, with the accessories of the outfit and the new
    overlay, pushed onto the history the render saw; the state [reset]
    installed is gone. *)
Lemma handleLoadOutfit_with_accessories (w : World) (r : Render) (outfitId : string)
    (outfitToLoad : SavedOutfit.t) (layers : list OutfitLayer.t) (w1 : World)
    (lastLayer : OutfitLayer.t) (base : string) (files : list File) (newImageUrl : string) :
  render w = Some r ->
  isLoading w = false ->
  find (fun o => String.eqb (SavedOutfit.id o) outfitId) (savedOutfits w) = Some outfitToLoad ->
  SavedOutfit.activeAccessories outfitToLoad <> [] ->
  reconstruct (SavedOutfit.garmentHistory outfitToLoad)
    (w |> setError None |> setIsLoading true |> setLoadingMessage "Loading outfit...")
    = (layers, w1) ->
  Js.index layers (Js.length layers - 1) = Some lastLayer ->
  Js.values0 (deref (heap w1) (OutfitLayer.poseImages lastLayer)) = Some base ->
  base <> ""%string ->
  accessoryFiles (SavedOutfit.activeAccessories outfitToLoad) = Returns files ->
  gemini (calls w) (AccessoryTryOn base files (SavedOutfit.activeAccessories outfitToLoad))
    = Returns newImageUrl ->
  AppState.generatedAccessoryImageUrl (state r) <> Some newImageUrl ->
  let w' := handleLoadOutfit r outfitId w in
  let s' := with_accessories (SavedOutfit.activeAccessories outfitToLoad)
                             (Some newImageUrl) (state r) in
  HistoryState.history (hist w')
  = Js.slice0 (HistoryState.history (hist w)) (HistoryState.currentIndex (hist w) + 1) ++ [s']
  /\ HistoryState.state (hist w') = Some s'.
Proof.
  intros Hr Hload Hfind Hacc Hrec Hlast Hbase Hne Hfiles Hapi Hfresh.
  destruct (render_sound _ _ Hr) as [Hsnap _].
  pose proof (reconstruct_spec _ _ _ _ Hrec) as (Hw1 & _).
  unfold handleLoadOutfit. rewrite Hsnap, Hload, Hfind. cbv zeta. rewrite Hrec.
  destruct (SavedOutfit.activeAccessories outfitToLoad) as [|acc rest] eqn:Haccs;
    [contradiction|].
  rewrite <- Haccs in *. rewrite Hlast.
  rewrite (updateAccessoryLayer_success r _ _ _ base files newImageUrl);
    try assumption.
  - cbv beta. rewrite setState_changed by (apply same_json_overlay; cbn; congruence).
    rewrite Hsnap. cbn [hist setHist setIsLoading setLoadingMessage].
    unfold HistoryState.state. cbn [HistoryState.history HistoryState.currentIndex].
    split; [reflexivity | apply index_app_last].
  - unfold accessoryBaseImageUrl. cbn [heap reset setHist setWardrobe]. now rewrite Hbase.
  - rewrite Hw1. exact Hapi.
Qed.

(** Reordering the garments with accessories active, when every call
    succeeds and the overlay is regenerated with a new image: the state
    that ends up current is the one the render saw with the new overlay,
    and its garment history is the one before the reordering. *)
Lemma handleReorderGarments_with_accessories (w : World) (r : Render)
    (reorderedItems : list OutfitLayer.t) (base : OutfitLayer.t)
    (rest : list OutfitLayer.t) (final : string) out w1 (files : list File)
    (newImageUrl : string) :
  render w = Some r ->
  AppState.garmentHistory (state r) = base :: rest ->
  map layer_id (base :: reorderedItems) <> map layer_id (AppState.garmentHistory (state r)) ->
  regenerate reorderedItems (AppState.modelImageUrl (state r)) [base]
    (w |> setError None |> setIsLoading true |> setLoadingMessage "Re-styling your outfit...")
    = (Returns (Some final, out), w1) ->
  final <> ""%string ->
  AppState.activeAccessories (state r) <> [] ->
  accessoryFiles (AppState.activeAccessories (state r)) = Returns files ->
  gemini (calls w1) (AccessoryTryOn final files (AppState.activeAccessories (state r)))
    = Returns newImageUrl ->
  AppState.generatedAccessoryImageUrl (state r) <> Some newImageUrl ->
  let w' := handleReorderGarments r reorderedItems w in
  HistoryState.state (hist w')
  = Some (with_accessories (AppState.activeAccessories (state r)) (Some newImageUrl) (state r))
  /\ option_map AppState.garmentHistory (HistoryState.state (hist w'))
     = Some (base :: rest).
Proof.
  intros Hr Hgh Hids Hloop Hne Hacc Hfiles Hapi Hfresh.
  destruct (render_sound _ _ Hr) as [Hsnap _].
  unfold handleReorderGarments. rewrite Hgh.
  assert (Hdiff : same_ids (base :: reorderedItems) (base :: rest) = false).
  { destruct (same_ids _ _) eqn:Hs; [|reflexivity].
    apply same_ids_spec in Hs. rewrite Hgh in Hids. contradiction. }
  rewrite Hdiff. cbv beta zeta. rewrite Hloop.
  destruct (AppState.activeAccessories (state r)) as [|acc others] eqn:Haccs; [contradiction|].
  rewrite <- Haccs in *.
  rewrite (updateAccessoryLayer_success r _ _ _ final files newImageUrl);
    try assumption; try reflexivity.
  cbv beta. rewrite setState_changed by (apply same_json_overlay; cbn; congruence).
  cbn [hist setHist setIsLoading setLoadingMessage].
  unfold HistoryState.state. cbn [HistoryState.history HistoryState.currentIndex].
  rewrite index_app_last. cbn. rewrite Hgh. split; reflexivity.
Qed.

End AppFacts.

(* ===================================================================== *)
(** ** Properties of [geminiService] *)
(* ===================================================================== *)

Module ServiceFacts.
Import GeminiService.
Import Scenario.

Lemma find_inline_app (a b : list Part) :
  find_inline (a ++ b)
  = match find_inline a with Some d => Some d | None => find_inline b end.
Proof.
  induction a as [|p a IH]; cbn; [reflexivity|].
  now destruct (inlineData p).
Qed.

(** The loop over the candidates finds the first image part of the
    response. *)
Lemma first_image_flat (cs : list Candidate) :
  first_image cs = find_inline (flat_map parts_of cs).
Proof.
  induction cs as [|c cs IH]; cbn; [reflexivity|].
  rewrite find_inline_app, IH. reflexivity.
Qed.

Lemma find_inline_None (ps : list Part) :
  find_inline ps = None <-> forall p, In p ps -> inlineData p = None.
Proof.
  induction ps as [|p ps IH]; cbn.
  - split; [intros _ p []|reflexivity].
  - destruct (inlineData p) as [d|] eqn:Hp; split.
    + discriminate.
    + intros H. specialize (H p (or_introl eq_refl)). congruence.
    + intros H q [<-|Hq]; [exact Hp|]. now apply IH.
    + intros H. apply IH. intros q Hq. apply H. now right.
Qed.

Lemma find_inline_first (ps1 ps2 : list Part) (p : Part) (d : InlineData) :
  (forall q, In q ps1 -> inlineData q = None) -> inlineData p = Some d ->
  find_inline (ps1 ++ p :: ps2) = Some d.
Proof.
  intros Hnone Hp. rewrite find_inline_app.
  rewrite (proj2 (find_inline_None ps1) Hnone). cbn. now rewrite Hp.
Qed.

Lemma find_inline_split (ps : list Part) (d : InlineData) :
  find_inline ps = Some d ->
  exists ps1 p ps2,
    ps = ps1 ++ p :: ps2 /\ (forall q, In q ps1 -> inlineData q = None)
    /\ inlineData p = Some d.
Proof.
  induction ps as [|p ps IH]; cbn; [discriminate|].
  destruct (inlineData p) as [d'|] eqn:Hp.
  - intros [= ->]. exists [], p, ps. repeat split; [intros q []|exact Hp].
  - intros H. destruct (IH H) as (ps1 & p' & ps2 & -> & Hnone & Hp').
    exists (p :: ps1), p', ps2. repeat split; [|exact Hp'].
    intros q [<-|Hq]; [exact Hp | now apply Hnone].
Qed.

Lemma parts_of_carries (c : Candidate) (ps : list Part) :
  carries c ps -> parts_of c = ps.
Proof.
  intros (ct & Hc & Hps). unfold parts_of. now rewrite Hc, Hps.
Qed.

Lemma imageless_first_image (cs : list Candidate) :
  imageless cs <-> first_image cs = None.
Proof.
  induction cs as [|c cs IH]; cbn [first_image].
  - split; [reflexivity | intros _ c ps p []].
  - split.
    + intros H.
      assert (Hc : find_inline (parts_of c) = None).
      { apply find_inline_None. intros p Hp. unfold parts_of in Hp.
        destruct (content c) as [ct|] eqn:Hct; [|destruct Hp].
        destruct (parts ct) as [ps|] eqn:Hps; [|destruct Hp].
        apply (H c ps p); [now left | now exists ct | exact Hp]. }
      rewrite Hc. apply IH. intros c' ps p Hin. apply H. now right.
    + destruct (find_inline (parts_of c)) eqn:Hc; [discriminate|].
      intros Hrest c' ps p [<-|Hin] Hcar Hp.
      * rewrite <- (parts_of_carries _ _ Hcar) in Hp.
        exact (proj1 (find_inline_None _) Hc p Hp).
      * exact (proj2 IH Hrest c' ps p Hin Hcar Hp).
Qed.

Lemma first_inline_image_found (cs : list Candidate) (d : InlineData) :
  first_inline_image cs d <-> first_image cs = Some d.
Proof.
  split.
  - intros (before & c & after & ps1 & p & ps2 & -> & Hbefore & Hcar & Hnone & Hp).
    rewrite first_image_flat, flat_map_app, find_inline_app, <- first_image_flat.
    rewrite (proj1 (imageless_first_image before) Hbefore).
    cbn [flat_map]. rewrite find_inline_app, (parts_of_carries _ _ Hcar).
    now rewrite (find_inline_first _ _ _ _ Hnone Hp).
  - induction cs as [|c cs IH]; cbn [first_image]; [discriminate|].
    destruct (find_inline (parts_of c)) as [d'|] eqn:Hc.
    + intros [= ->]. destruct (find_inline_split _ _ Hc) as (ps1 & p & ps2 & Hps & Hnone & Hp).
      exists [], c, cs, ps1, p, ps2.
      split; [reflexivity|]. split; [intros c' ps' q []|].
      split; [|split; assumption].
      unfold parts_of in Hps. destruct (content c) as [ct|] eqn:Hct; [|now destruct ps1].
      destruct (parts ct) as [ps|] eqn:Hparts; [|now destruct ps1].
      exists ct. split; [exact Hct|]. now rewrite Hparts, Hps.
    + intros H. destruct (IH H) as (before & c' & after & ps1 & p & ps2 & -> & Hb & Hcar & Hn & Hp).
      exists (c :: before), c', after, ps1, p, ps2.
      split; [reflexivity|]. split; [|repeat split; assumption].
      apply imageless_first_image. cbn [first_image]. rewrite Hc.
      now apply imageless_first_image.
Qed.

Lemma unblocked_blocked (response : GenerateContentResponse) :
  unblocked response <-> blocked response = None.
Proof.
  unfold unblocked, blocked. destruct (promptFeedback response) as [pf|].
  - split.
    + intros H. now rewrite (H pf eq_refl).
    + destruct (Js.truthy (blockReason pf)) eqn:Ht; [discriminate|]. now intros _ pf' [= <-].
  - split; [reflexivity | discriminate].
Qed.

Section Service.

Variable trim : string -> string.

(** C9.  [handleApiResponse], on the response as data.  With [cs] the
    candidates of the response (none when the field is missing):
    - it throws the blocked message whenever [promptFeedback.blockReason]
      is set, whatever the candidates hold;
    - otherwise, when some part of some candidate holds inline data, it
      returns the data URL of the first such part, the candidates read
      in order and the parts of each in order;
    - otherwise it throws: the finish-reason message when the first
      candidate's [finishReason] is set and not ['STOP'], the generic
      message if not (with the trimmed text of the response when there
      is some);
    and whatever it returns is the data URL of that first part, of a
    response that is not blocked. *)
Theorem C9_handleApiResponse_image_or_throw (response : GenerateContentResponse) :
  let cs := match candidates response with Some cs => cs | None => [] end in
  let quote := String (Ascii.ascii_of_nat 34) EmptyString in
  let generic :=
    "This can happen due to safety filters or if the request is too complex. Please try a different image."%string in
  (forall pf reason,
      promptFeedback response = Some pf ->
      blockReason pf = Some reason -> reason <> ""%string ->
      handleApiResponse trim response
      = Throws (Js.Error ("Request was blocked. Reason: " ++ reason ++ ". "
                          ++ match blockReasonMessage pf with
                             | Some message => message
                             | None => ""
                             end)%string))
  /\ (forall d,
      unblocked response -> first_inline_image cs d ->
      handleApiResponse trim response
      = Returns ("data:" ++ Js.template (mimeType d) ++ ";base64,"
                 ++ Js.template (data d))%string)
  /\ (forall c rest reason,
      unblocked response -> imageless cs ->
      cs = c :: rest -> finishReason c = Some reason ->
      reason <> ""%string -> reason <> "STOP"%string ->
      handleApiResponse trim response
      = Throws (Js.Error ("Image generation stopped unexpectedly. Reason: " ++ reason
                          ++ ". This often relates to safety settings.")%string))
  /\ (unblocked response -> imageless cs ->
      (cs = []
       \/ exists c rest,
            cs = c :: rest
            /\ (finishReason c = None \/ finishReason c = Some ""%string
                \/ finishReason c = Some "STOP"%string)) ->
      handleApiResponse trim response
      = Throws (Js.Error ("The AI model did not return an image. "
                          ++ match text response with
                             | Some t =>
                                 if String.eqb (trim t) ""
                                 then generic
                                 else "The model responded with text: " ++ quote
                                      ++ trim t ++ quote
                             | None => generic
                             end)%string))
  /\ (forall url,
      handleApiResponse trim response = Returns url ->
      unblocked response
      /\ exists d,
           first_inline_image cs d
           /\ url = ("data:" ++ Js.template (mimeType d) ++ ";base64,"
                     ++ Js.template (data d))%string).
Proof.
  intros cs quote generic.
  assert (Hfirst : forall c rest, cs = c :: rest ->
            first_finishReason response = finishReason c).
  { intros c rest H. unfold first_finishReason. subst cs.
    destruct (candidates response) as [[|c' rest']|]; try discriminate. now injection H as -> _. }
  assert (Hempty : cs = [] -> first_finishReason response = None).
  { intros H. unfold first_finishReason. subst cs.
    now destruct (candidates response) as [[|c' rest']|]. }
  unfold handleApiResponse. fold cs.
  split; [|split; [|split; [|split]]].
  - intros pf reason Hpf Hreason Hne. unfold blocked. rewrite Hpf, Hreason.
    cbn [Js.truthy]. destruct (String.eqb_spec reason ""); [contradiction|]. cbn [negb].
    unfold blocked_message. rewrite Hreason. cbn [Js.template].
    destruct (blockReasonMessage pf) as [message|]; cbn [Js.truthy Js.template]; [|reflexivity].
    now destruct (String.eqb_spec message "") as [->|].
  - intros d Hu Hd. rewrite (proj1 (unblocked_blocked _) Hu).
    now rewrite (proj1 (first_inline_image_found _ _) Hd).
  - intros c rest reason Hu Hnone Hcs Hreason Hne Hstop.
    rewrite (proj1 (unblocked_blocked _) Hu), (proj1 (imageless_first_image _) Hnone).
    rewrite (Hfirst _ _ Hcs), Hreason. cbn [Js.truthy Js.template].
    destruct (String.eqb_spec reason ""); [contradiction|].
    destruct (String.eqb_spec reason "STOP"); [contradiction|]. reflexivity.
  - intros Hu Hnone Hfr.
    rewrite (proj1 (unblocked_blocked _) Hu), (proj1 (imageless_first_image _) Hnone).
    assert (Hgen : (Js.truthy (first_finishReason response)
                    && negb (String.eqb (Js.template (first_finishReason response)) "STOP"))
                   = false).
    { destruct Hfr as [Hcs | (c & rest & Hcs & Hreason)].
      - now rewrite (Hempty Hcs).
      - rewrite (Hfirst _ _ Hcs). destruct Hreason as [-> | [-> | ->]]; reflexivity. }
    rewrite Hgen. unfold no_image_message. destruct (text response) as [t|]; cbn; [|reflexivity].
    now destruct (String.eqb_spec (trim t) "").
  - intros url. destruct (blocked response) eqn:Hb; [discriminate|].
    destruct (first_image cs) as [d|] eqn:Hd.
    + intros [= <-]. split; [now apply unblocked_blocked|]. exists d.
      split; [now apply first_inline_image_found | reflexivity].
    + destruct (_ && _); discriminate.
Qed.

Variable JSON_parse : string -> option json.
Variable generateContent : string -> string -> Js.outcome (option string).

Lemma clamp_range (n : Number) : le (Finite 1) (clamp n) /\ le (clamp n) (Finite 10).
Proof.
  unfold clamp, min10, max1. destruct n as [|q|]; cbn.
  - split; [apply Qle_refl | discriminate].
  - destruct (Qle_bool q 10) eqn:H10.
    + destruct (Qle_bool 1 q) eqn:H1; cbn.
      * split; now apply Qle_bool_iff.
      * split; [apply Qle_refl | discriminate].
    + cbn. split; discriminate.
  - split; discriminate.
Qed.

Lemma clamp_inside (n : Number) :
  le (Finite 1) n -> le n (Finite 10) -> clamp n = n.
Proof.
  unfold clamp, min10, max1. destruct n as [|q|]; cbn; try contradiction.
  intros H1 H10. apply Qle_bool_iff in H1, H10. now rewrite H10, H1.
Qed.

Lemma parse_score_scored (responseText : option string) (result : StyleScore) :
  parse_score trim JSON_parse responseText = Some result ->
  exists n, scored trim JSON_parse (Returns responseText) n (critique result) /\ score result = clamp n.
Proof.
  unfold parse_score. destruct responseText as [t|]; [|discriminate].
  destruct (JSON_parse (trim t)) as [[| | | | |ps]|] eqn:Hp; try discriminate.
  destruct (property ps "score") as [[| |n| | |]|] eqn:Hs; try discriminate.
  destruct (property ps "critique") as [[| | |c| |]|] eqn:Hc; try discriminate.
  intros [= <-]. exists n. split; [|reflexivity]. exists t, ps. cbn. auto.
Qed.

(** C7.  [generateStyleScore]
    - on the empty list makes no call and returns the score 0, which is
      below the scale, with the fixed message;
    - on a non-empty list, when the answer parses as an object with a
      numeric score and a string critique, returns that critique and the
      score clamped to the interval from 1 to 10 (the score itself when it
      lies inside);
    - on a non-empty list and any other answer, throws. *)
Theorem C7_generateStyleScore_clamps_or_throws (items : list WardrobeItem.t) :
  let run := generateStyleScore trim JSON_parse generateContent in
  let answer := generateContent "gemini-2.5-flash"%string (style_prompt items) in
  (run [] = ([], Returns {| score := Finite 0;
                            critique := "Add some items to get a style score!" |})
   /\ ~ le (Finite 1) (Finite 0))
  /\ (forall n c,
        items <> [] -> scored trim JSON_parse answer n c ->
        run items = ([style_prompt items], Returns {| score := clamp n; critique := c |})
        /\ le (Finite 1) (clamp n) /\ le (clamp n) (Finite 10)
        /\ (le (Finite 1) n -> le n (Finite 10) -> clamp n = n))
  /\ (items <> [] -> (forall n c, ~ scored trim JSON_parse answer n c) ->
        exists err, run items = ([style_prompt items], Throws err)).
Proof.
  intros run answer. subst run answer. split; [|split].
  - split; [reflexivity|]. cbn. intros H. now apply H.
  - intros n c Hne (t & ps & Hans & Hparse & Hscore & Hcrit).
    destruct items as [|item rest]; [contradiction|].
    unfold generateStyleScore. rewrite Hans. unfold parse_score.
    rewrite Hparse, Hscore, Hcrit.
    split; [reflexivity|]. destruct (clamp_range n). auto using clamp_inside.
  - intros Hne Hnot. destruct items as [|item rest]; [contradiction|].
    unfold generateStyleScore.
    destruct (generateContent _ _) as [responseText|err] eqn:Hans; [|eauto].
    destruct (parse_score _ _ responseText) as [result|] eqn:Hp; [|eauto].
    exfalso. apply parse_score_scored in Hp. destruct Hp as (n & Hs & _).
    exact (Hnot _ _ Hs).
Qed.

End Service.
#[local] Open Scope string_scope.

(** C9 on [blocked_with_image], [late_image], [cut_short] and
    [only_text]. *)
Lemma C9_handleApiResponse_witness :
  handleApiResponse (fun t => t) blocked_with_image
  = Throws (Js.Error "Request was blocked. Reason: SAFETY. ")
  /\ handleApiResponse (fun t => t) Examples.late_image
     = Returns "data:image/png;base64,BBBB"
  /\ handleApiResponse (fun t => t) Examples.cut_short
     = Throws (Js.Error
         "Image generation stopped unexpectedly. Reason: SAFETY. This often relates to safety settings.")
  /\ handleApiResponse (fun t => t) Examples.only_text
     = Throws (Js.Error
         ("The AI model did not return an image. The model responded with text: "
          ++ dquote ++ "No." ++ dquote)).
Proof.
  split; [|split; [|split]].
  - exact (proj1 (C9_handleApiResponse_image_or_throw (fun t => t) blocked_with_image)
                 {| blockReason := Some "SAFETY"; blockReasonMessage := None |} "SAFETY"
                 eq_refl eq_refl ltac:(discriminate)).
  - refine (proj1 (proj2 (C9_handleApiResponse_image_or_throw (fun t => t) Examples.late_image))
                  {| mimeType := Some "image/png"; data := Some "BBBB" |} _ _).
    + intros pf [= <-]. reflexivity.
    + eexists [_], _, [], [_], _, [_]. split; [reflexivity|].
      split; [|split; [eexists; split; reflexivity|split; [|reflexivity]]].
      * intros c ps p [<-|[]] (ct & [= <-] & [= <-]) [<-|[]]. reflexivity.
      * intros q [<-|[]]. reflexivity.
  - refine (proj1 (proj2 (proj2 (C9_handleApiResponse_image_or_throw (fun t => t)
                                   Examples.cut_short)))
                  _ [] "SAFETY" _ _ eq_refl eq_refl _ _); try discriminate.
    intros c ps p [<-|[]] (ct & Hct & _). discriminate.
  - refine (proj1 (proj2 (proj2 (proj2 (C9_handleApiResponse_image_or_throw (fun t => t)
                                          Examples.only_text)))) _ _ _).
    + discriminate.
    + intros c ps p [<-|[]] (ct & [= <-] & [= <-]) [<-|[]]. reflexivity.
    + right. eexists _, []. split; [reflexivity|]. right. now right.
Defined.

(** C7 on [one_tee]: the score 12 is returned as 10. *)
Lemma C7_generateStyleScore_witness :
  generateStyleScore (fun t => t) parse_twelve answer_twelve one_tee
  = ([style_prompt one_tee], Returns {| score := Finite 10; critique := "Bold." |}).
Proof.
  refine (proj1 (proj1 (proj2 (C7_generateStyleScore_clamps_or_throws
                                 (fun t => t) parse_twelve answer_twelve one_tee))
                       (Finite 12) "Bold." _ _)).
  - discriminate.
  - exists "SCORE 12", [("score", JNumber (Finite 12)); ("critique", JString "Bold.")].
    repeat split.
Defined.

End ServiceFacts.

(* ===================================================================== *)
(** ** The handlers on the example sessions *)
(* ===================================================================== *)

Module Sessions.
Import Scenario.
#[local] Open Scope string_scope.

(** C4, evaluated with an accessory active.  In [posed] the second pose is
    cached and the hat is on; selecting the second pose makes no
    pose-generation call and regenerates the overlay from the cached
    image, but the state that ends up current still has the pose index 0.
    In [accessorized] the second pose is not cached; selecting it
    generates and stores the pose image and regenerates the overlay, and
    the pose index is 0 again. *)
Example C4_pose_index_lost_with_accessories :
  let select := dispatch (fun r => @handlePoseSelect studio r 1) in
  let pose w := option_map AppState.currentPoseIndex (HistoryState.state (hist w)) in
  let worn w := option_map AppState.activeAccessories (HistoryState.state (hist w)) in
  (pose posed = Some 0
   /\ worn posed = Some [hat]
   /\ Js.get (deref (heap posed) 0%nat) (pose_key 1) = Some "data:image/png;base64,0"
   /\ calls (select posed)
      = (calls posed ++ [AccessoryTryOn "data:image/png;base64,0" [file_of hat] [hat]])%list
   /\ error (select posed) = None
   /\ pose (select posed) = Some 0)
  /\ (pose accessorized = Some 0
      /\ worn accessorized = Some [hat]
      /\ Js.get (deref (heap accessorized) 1%nat) (pose_key 1) = None
      /\ calls (select accessorized)
         = (calls accessorized
            ++ [PoseVariation "data:image/png;base64,0" (Some "Slightly turned, 3/4 view");
                AccessoryTryOn "data:image/png;base64,2" [file_of hat] [hat]])%list
      /\ Js.get (deref (heap (select accessorized)) 1%nat) (pose_key 1)
         = Some "data:image/png;base64,2"
      /\ error (select accessorized) = None
      /\ pose (select accessorized) = Some 0).
Proof. vm_compute. repeat split. Qed.

(** C6, evaluated on [turned] (second pose, tee, hat): the outfit is
    saved and loaded at once, and the overlay call of the load succeeds.
    The history is not reset (five entries, the last one current), and the
    current state is the old one with a new overlay: its pose index is 1
    and its base layer still carries two pose images. *)
Example C6_load_with_accessories_keeps_old_state :
  let saved := dispatch (fun r => handleSaveOutfit r "1700000000000" "11/14/2023") turned in
  let loaded := dispatch (fun r => @handleLoadOutfit studio r "outfit-1700000000000") saved in
  let current := HistoryState.state (hist loaded) in
  map SavedOutfit.id (savedOutfits saved) = ["outfit-1700000000000"]
  /\ map SavedOutfit.activeAccessories (savedOutfits saved) = [[hat]]
  /\ error loaded = None
  /\ Js.length (HistoryState.history (hist loaded)) = 5
  /\ HistoryState.currentIndex (hist loaded) = 4
  /\ option_map AppState.currentPoseIndex current = Some 1
  /\ option_map AppState.garmentHistory current
     = option_map AppState.garmentHistory (HistoryState.state (hist turned))
  /\ option_map (fun s => map (fun l => List.length (deref (heap loaded) (OutfitLayer.poseImages l)))
                              (AppState.garmentHistory s)) current
     = Some [2%nat; 1%nat].
Proof. vm_compute. repeat split. Qed.

(** C8, evaluated on [layered] (tee, blazer, hat): the garments are
    reordered to blazer, tee and every call succeeds.  The layers are
    regenerated in the new order, but the state that ends up current has
    the garment history it had before, in the old order. *)
Example C8_reorder_with_accessories_keeps_old_order :
  let reordered :=
    dispatch (fun r => @handleReorderGarments studio r
                         (rev (Js.slice1 (activeGarmentLayers (state r))))) layered in
  let ids w := option_map (fun s => map layer_id (AppState.garmentHistory s))
                          (HistoryState.state (hist w)) in
  ids layered = Some [None; Some "gemini-tee"; Some "blazer-jacket"]
  /\ calls reordered
     = (calls layered
        ++ [GarmentTryOn (Some "data:image/png;base64,MODEL") (file_of blazer);
            GarmentTryOn (Some "data:image/png;base64,3") (file_of tee);
            AccessoryTryOn "data:image/png;base64,4" [file_of hat] [hat]])%list
  /\ error reordered = None
  /\ ids reordered = Some [None; Some "gemini-tee"; Some "blazer-jacket"]
  /\ option_map AppState.garmentHistory (HistoryState.state (hist reordered))
     = option_map AppState.garmentHistory (HistoryState.state (hist layered)).
Proof. vm_compute. repeat split. Qed.


(** C3 on [stepped_back]: the blazer of the next layer is selected again. *)
Lemma C3_replay_next_layer_witness :
  calls (@handleItemSelect studio (render_of stepped_back) (file_of blazer) blazer stepped_back)
  = calls stepped_back.
Proof.
  exact (proj1 (@C3_replay_next_layer studio stepped_back (render_of stepped_back)
                  (file_of blazer) blazer "data:image/png;base64,0"
                  {| OutfitLayer.item := Some blazer; OutfitLayer.poseImages := 2%nat |} blazer
                  eq_refl eq_refl eq_refl ltac:(discriminate) eq_refl eq_refl eq_refl eq_refl)).
Defined.

(** C10 on [accessorized]: a click on the hat, the only accessory. *)
Lemma C10_accessory_toggle_witness :
  let w' := @handleItemSelect studio (render_of accessorized) (file_of hat) hat accessorized in
  calls w' = calls accessorized
  /\ option_map AppState.activeAccessories (HistoryState.state (hist w')) = Some []
  /\ option_map AppState.generatedAccessoryImageUrl (HistoryState.state (hist w')) = Some None.
Proof.
  destruct (@C10_accessory_toggle_garment_not studio accessorized (render_of accessorized)
              (file_of hat) hat "data:image/png;base64,1" "data:image/png;base64,0"
              eq_refl eq_refl eq_refl ltac:(discriminate) eq_refl ltac:(discriminate) eq_refl)
    as [Hempty _].
  destruct (Hempty ltac:(vm_compute; auto) eq_refl) as [Hcalls Hstate].
  cbv zeta. rewrite Hstate. split; [exact Hcalls | split; reflexivity].
Defined.

(** C5 on [modelled] and [two_garments] with every call failing: putting
    on the tee, selecting the second pose, applying the hat and reordering
    the garments. *)
Lemma C5_failed_call_witness :
  let err := Js.Error "offline" in
  @displays_error offline modelled
     (@handleItemSelect offline (render_of modelled) (file_of tee) tee modelled)
     err "Failed to apply item"
  /\ @displays_error offline modelled
       (@handlePoseSelect offline (render_of modelled) 1 modelled)
       err "Failed to change pose"
  /\ @displays_error offline modelled
       (@updateAccessoryLayer offline (render_of modelled) [hat] None modelled)
       err "Failed to apply accessories"
  /\ hist (@handleReorderGarments offline (render_of two_garments)
             (rev (Js.slice1 (activeGarmentLayers (state (render_of two_garments)))))
             two_garments)
     = hist two_garments.
Proof.
  destruct (@C5_failed_call_is_displayed_only offline) as (Hitem & Hpose & Hacc & Hreorder).
  split; [|split; [|split]].
  - apply (Hitem modelled (render_of modelled) (file_of tee) tee "data:image/png;base64,MODEL");
      try reflexivity; discriminate.
  - apply (Hpose modelled (render_of modelled) 1
                 {| OutfitLayer.item := None; OutfitLayer.poseImages := 0%nat |}
                 "data:image/png;base64,MODEL"); try reflexivity; discriminate.
  - apply (Hacc (render_of modelled) [hat] None modelled "data:image/png;base64,MODEL"
                [file_of hat]); try reflexivity; discriminate.
  - refine (proj1 (Hreorder two_garments (render_of two_garments)
                     (rev (Js.slice1 (activeGarmentLayers (state (render_of two_garments)))))
                     {| OutfitLayer.item := None; OutfitLayer.poseImages := 0%nat |}
                     [ {| OutfitLayer.item := Some tee; OutfitLayer.poseImages := 1%nat |};
                       {| OutfitLayer.item := Some blazer; OutfitLayer.poseImages := 2%nat |} ]
                     (Js.Error "offline") _ eq_refl eq_refl eq_refl)).
Defined.

(** [undo] on a history of three states with the last one current. *)
Lemma undo_decrements_witness :
  HistoryState.currentIndex
    (HistoryState.click_undo {| HistoryState.history := [10; 20; 30]%nat;
                                HistoryState.currentIndex := 2 |}) = 1.
Proof.
  refine (proj1 (undo_decrements {| HistoryState.history := [10; 20; 30]%nat;
                                    HistoryState.currentIndex := 2 |} _ _)).
  - unfold HistoryState.valid. vm_compute. split; congruence.
  - reflexivity.
Defined.

(** The current pose selected again on [modelled]. *)
Lemma handlePoseSelect_noop_witness :
  @handlePoseSelect studio (render_of modelled) 0 modelled = modelled.
Proof. exact (handlePoseSelect_noop (render_of modelled) 0 modelled (or_intror eq_refl)). Defined.

(** The first pose selected on [second_pose], where it is cached. *)
Lemma handlePoseSelect_cached_witness :
  calls (@handlePoseSelect studio (render_of second_pose) 0 second_pose) = calls second_pose.
Proof.
  refine (proj1 (@handlePoseSelect_cached studio second_pose (render_of second_pose) 0
                   {| OutfitLayer.item := None; OutfitLayer.poseImages := 0%nat |}
                   eq_refl eq_refl _ eq_refl eq_refl eq_refl)).
  discriminate.
Defined.

(** The second pose selected on [modelled], where it is not cached. *)
Lemma handlePoseSelect_generated_witness :
  Js.get (deref (heap (@handlePoseSelect studio (render_of modelled) 1 modelled)) 0%nat)
         (pose_key 1)
  = Some "data:image/png;base64,0".
Proof.
  refine (proj1 (proj2 (proj2
            (@handlePoseSelect_generated studio modelled (render_of modelled) 1
               {| OutfitLayer.item := None; OutfitLayer.poseImages := 0%nat |}
               "data:image/png;base64,MODEL" "data:image/png;base64,0"
               eq_refl eq_refl _ eq_refl eq_refl eq_refl _ eq_refl eq_refl)))); discriminate.
Defined.

(** The base model alone is not saved. *)
Lemma handleSaveOutfit_refused_witness :
  error (handleSaveOutfit (render_of modelled) "1700000000000" "11/14/2023" modelled)
  = Some "Add at least one item to save an outfit.".
Proof.
  rewrite (handleSaveOutfit_refused (render_of modelled) "1700000000000" "11/14/2023"
             modelled eq_refl eq_refl).
  reflexivity.
Defined.

(** [dressed] saved and loaded at once. *)
Lemma save_then_load_witness :
  let saved := handleSaveOutfit (render_of dressed) "1700000000000" "11/14/2023" dressed in
  let loaded := @handleLoadOutfit studio (render_of saved) ("outfit-" ++ "1700000000000")
                                  saved in
  Js.length (HistoryState.history (hist loaded)) = 1
  /\ HistoryState.currentIndex (hist loaded) = 0.
Proof.
  destruct (@save_then_load_without_accessories studio dressed (render_of dressed)
              (render_of (handleSaveOutfit (render_of dressed) "1700000000000" "11/14/2023"
                                           dressed))
              "1700000000000" "11/14/2023"
              eq_refl eq_refl eq_refl eq_refl ltac:(discriminate) eq_refl eq_refl eq_refl)
    as (loaded & Hhist & _).
  cbv zeta. rewrite Hhist. split; reflexivity.
Defined.

(** The garments of [two_garments] dropped in the order they have. *)
Lemma handleReorderGarments_same_order_witness :
  @handleReorderGarments studio (render_of two_garments)
     (Js.slice1 (activeGarmentLayers (state (render_of two_garments)))) two_garments
  = two_garments.
Proof.
  exact (@handleReorderGarments_same_order studio (render_of two_garments)
           (Js.slice1 (activeGarmentLayers (state (render_of two_garments)))) two_garments
           eq_refl).
Defined.

(** The garments of [two_garments] swapped. *)
Lemma handleReorderGarments_success_witness :
  let swapped := rev (Js.slice1 (activeGarmentLayers (state (render_of two_garments)))) in
  let w' := @handleReorderGarments studio (render_of two_garments) swapped two_garments in
  option_map (fun s => map layer_id (AppState.garmentHistory s))
             (HistoryState.state (hist w'))
  = Some [None; Some "blazer-jacket"; Some "gemini-tee"].
Proof.
  destruct (@handleReorderGarments_success studio two_garments (render_of two_garments)
              (rev (Js.slice1 (activeGarmentLayers (state (render_of two_garments)))))
              {| OutfitLayer.item := None; OutfitLayer.poseImages := 0%nat |}
              [ {| OutfitLayer.item := Some tee; OutfitLayer.poseImages := 1%nat |};
                {| OutfitLayer.item := Some blazer; OutfitLayer.poseImages := 2%nat |} ]
              _ _ _ eq_refl eq_refl ltac:(vm_compute; congruence) eq_refl eq_refl)
    as (made & new & _ & Hreg & Hstate & _).
  cbv zeta. rewrite Hstate. cbn [option_map AppState.garmentHistory map].
  rewrite (layer_ids_items _ _ (regenerated_items _ _ _ _ _ _ _ Hreg)). reflexivity.
Defined.

End Sessions.

(* ===================================================================== *)
(** ** Properties of the data URLs and of the image calls *)
(* ===================================================================== *)

Module ImageFacts.
Import GeminiService ImageService.

#[local] Open Scope string_scope.

Lemma append_assoc (a b c : string) : (a ++ b) ++ c = a ++ (b ++ c).
Proof.
  induction a as [|x a IH]; [reflexivity|].
  change (String x (((a ++ b) ++ c)) = String x (a ++ (b ++ c))). now rewrite IH.
Qed.

Lemma chars_app (a b : string) :
  list_ascii_of_string (a ++ b) = (list_ascii_of_string a ++ list_ascii_of_string b)%list.
Proof.
  induction a as [|x a IH]; [reflexivity|].
  change (x :: list_ascii_of_string (a ++ b)
          = x :: (list_ascii_of_string a ++ list_ascii_of_string b)%list).
  now rewrite IH.
Qed.

Lemma free_of_cons (c x : ascii) (s : string) :
  free_of c (String x s) <-> x <> c /\ free_of c s.
Proof.
  unfold free_of. cbn [list_ascii_of_string In]. intuition congruence.
Qed.

(** A string has no comma exactly when [split] leaves it whole. *)
Lemma split_free (s : string) : free_of "," s <-> snd (split s) = [].
Proof.
  induction s as [|x s IH].
  - split; [reflexivity|]. intros _ H. exact H.
  - rewrite free_of_cons. cbn [split]. destruct (split s) as [piece pieces].
    destruct (Ascii.eqb_spec x ","); cbn [snd] in *.
    + split; [intros [H _]; contradiction | discriminate].
    + rewrite IH. intuition.
Qed.

Lemma split_whole (s : string) : free_of "," s -> split s = (s, []).
Proof.
  induction s as [|x s IH]; [reflexivity|].
  rewrite free_of_cons. intros [Hx Hs]. cbn [split]. rewrite (IH Hs).
  destruct (Ascii.eqb_spec x ","); [contradiction | reflexivity].
Qed.

Lemma split_comma (a b : string) :
  free_of "," a ->
  split (a ++ String "," b) = (a, fst (split b) :: snd (split b)).
Proof.
  induction a as [|x a IH].
  - intros _. change (split (String "," b) = ("", fst (split b) :: snd (split b))).
    cbn [split]. now destruct (split b).
  - rewrite free_of_cons. intros [Hx Ha].
    change (split (String x (a ++ String "," b))
            = (String x a, fst (split b) :: snd (split b))).
    cbn [split]. rewrite (IH Ha).
    destruct (Ascii.eqb_spec x ","); [contradiction | reflexivity].
Qed.

(** The first piece has no comma, and neither has any other. *)
Lemma split_pieces (s : string) :
  free_of "," (fst (split s)) /\ Forall (free_of ",") (snd (split s)).
Proof.
  induction s as [|x s [IH1 IH2]].
  - split; [intros H; exact H | constructor].
  - cbn [split]. destruct (split s) as [piece pieces]. cbn [fst snd] in *.
    destruct (Ascii.eqb_spec x ","); cbn [fst snd].
    + split; [intros H; exact H | now constructor].
    + split; [now apply free_of_cons | assumption].
Qed.

Lemma lazy_group_found (m rest : string) :
  free_of ";" m ->
  (forall c, In c (list_ascii_of_string m) -> line_terminator c = false) ->
  lazy_group (m ++ String ";" rest) = Some m.
Proof.
  induction m as [|x m IH].
  - intros _ _. reflexivity.
  - rewrite free_of_cons. intros [Hx Hm] Hl.
    change (lazy_group (String x (m ++ String ";" rest)) = Some (String x m)).
    cbn [lazy_group]. destruct (Ascii.eqb_spec x ";"); [contradiction|].
    rewrite (Hl x) by (cbn; now left).
    rewrite IH; [reflexivity | assumption |].
    intros c Hc. apply Hl. cbn. now right.
Qed.

(** What the group of a match is made of. *)
Lemma lazy_group_sound (s group : string) :
  lazy_group s = Some group ->
  free_of ";" group
  /\ (forall c, In c (list_ascii_of_string group) -> line_terminator c = false)
  /\ exists rest, s = group ++ String ";" rest.
Proof.
  revert group. induction s as [|x s IH]; [discriminate|].
  intros group. cbn [lazy_group]. destruct (Ascii.eqb_spec x ";") as [->|Hx].
  - intros [= <-]. split; [intros H; exact H|]. split; [intros c []|]. now exists s.
  - destruct (line_terminator x) eqn:Hl; [discriminate|].
    destruct (lazy_group s) as [g|]; [|discriminate].
    intros [= <-]. destruct (IH g eq_refl) as (Hf & Hg & rest & ->).
    split; [now apply free_of_cons|]. split.
    + intros c [<-|Hc]; [assumption | now apply Hg].
    + now exists rest.
Qed.

Lemma match_mime_sound (s group : string) :
  match_mime s = Some group ->
  free_of ";" group
  /\ (forall c, In c (list_ascii_of_string group) -> line_terminator c = false)
  /\ exists before rest, s = before ++ String ":" (group ++ String ";" rest).
Proof.
  induction s as [|x s IH]; [discriminate|].
  cbn [match_mime].
  assert (Hnext : match_mime s = Some group ->
            free_of ";" group
            /\ (forall c, In c (list_ascii_of_string group) -> line_terminator c = false)
            /\ exists before rest, String x s = before ++ String ":" (group ++ String ";" rest)).
  { intros H. destruct (IH H) as (Hf & Hl & before & rest & ->).
    split; [assumption|]. split; [assumption|]. now exists (String x before), rest. }
  destruct (Ascii.eqb_spec x ":") as [->|Hx]; [|exact Hnext].
  destruct (lazy_group s) as [g|] eqn:Hg; [|exact Hnext].
  intros [= <-]. destruct (lazy_group_sound _ _ Hg) as (Hf & Hl & rest & ->).
  split; [assumption|]. split; [assumption|]. now exists "", rest.
Qed.

Lemma free_of_app (c : ascii) (a b : string) :
  free_of c (a ++ b) <-> free_of c a /\ free_of c b.
Proof.
  unfold free_of. rewrite chars_app, in_app_iff. tauto.
Qed.

(** What [dataUrlToParts] returns can be carried by a data URL. *)
Lemma dataUrlToParts_carried (dataUrl : string) (d : InlineData) :
  dataUrlToParts dataUrl = Returns d -> carried d.
Proof.
  unfold dataUrlToParts. pose proof (split_pieces dataUrl) as [H0 Hrest].
  destruct (split dataUrl) as [arr0 [|arr1 pieces]]; [discriminate|]. cbn [fst snd] in *.
  destruct (match_mime arr0) as [mime|] eqn:Hm; [|discriminate].
  destruct (String.eqb_spec mime ""); [discriminate|].
  intros [= <-]. destruct (match_mime_sound _ _ Hm) as (Hsemi & Hterm & before & rest & ->).
  exists mime, arr1. cbn [mimeType data].
  repeat split; try assumption.
  - apply free_of_app in H0 as [_ H0]. apply free_of_cons in H0 as [_ H0].
    now apply free_of_app in H0 as [H0 _].
  - now inversion Hrest.
Qed.

(** An image that can be carried is read back from its data URL. *)
Lemma data_url_read_back (d : InlineData) :
  carried d -> dataUrlToParts (data_url d) = Returns d.
Proof.
  intros (mime & payload & Hmime & Hdata & Hne & Hcomma & Hsemi & Hterm & Hpay).
  destruct d as [m p]. cbn [mimeType data] in *. subst m p.
  unfold data_url, dataUrlToParts. cbn [mimeType data Js.template].
  replace ("data:" ++ mime ++ ";base64," ++ payload)
    with (("data:" ++ mime ++ ";base64") ++ String "," payload).
  2:{ rewrite !append_assoc. reflexivity. }
  rewrite split_comma.
  2:{ apply free_of_app. split; [cbv; intuition discriminate|].
      apply free_of_app. split; [assumption | cbv; intuition discriminate]. }
  rewrite (split_whole _ Hpay). cbn [fst snd].
  change ("data:" ++ mime ++ ";base64") with (String "d" (String "a" (String "t" (String "a"
    (String ":" (mime ++ String ";" "base64")))))).
  cbn [match_mime Ascii.eqb Bool.eqb]. rewrite lazy_group_found by assumption.
  destruct (String.eqb_spec mime ""); [contradiction | reflexivity].
Qed.

(** X9.  The data URL that [handleApiResponse] builds from an inline image
    is read back by [dataUrlToParts] as that image exactly when its MIME
    type and payload can be carried: the type not empty and free of
    commas, semicolons and line terminators, the payload free of commas. *)
Theorem dataUrlToParts_data_url (d : InlineData) :
  dataUrlToParts (data_url d) = Returns d <-> carried d.
Proof.
  split; [apply dataUrlToParts_carried | apply data_url_read_back].
Qed.

(** X10.  [dataUrlToParts] on any string: it throws the invalid-URL error
    exactly when the string has no comma; otherwise it throws the MIME
    error or returns a type and a payload that can be carried, the
    payload being the piece between the first comma and the next. *)
Theorem dataUrlToParts_outcome (dataUrl : string) :
  (dataUrlToParts dataUrl = Throws (Js.Error "Invalid data URL") <-> free_of "," dataUrl)
  /\ match dataUrlToParts dataUrl with
     | Returns d =>
         carried d /\ data d = Some (hd "" (snd (split dataUrl)))
     | Throws e =>
         e = Js.Error "Invalid data URL"
         \/ e = Js.Error "Could not parse MIME type from data URL"
     end.
Proof.
  split.
  - rewrite split_free. unfold dataUrlToParts.
    destruct (split dataUrl) as [arr0 [|arr1 pieces]]; cbn [snd].
    + tauto.
    + split; [|discriminate].
      destruct (match_mime arr0) as [mime|]; [|discriminate].
      destruct (String.eqb mime ""); discriminate.
  - destruct (dataUrlToParts dataUrl) as [d|e] eqn:H.
    + split; [exact (dataUrlToParts_carried _ _ H)|].
      unfold dataUrlToParts in H.
      destruct (split dataUrl) as [arr0 [|arr1 pieces]]; [discriminate|].
      destruct (match_mime arr0) as [mime|]; [|discriminate].
      destruct (String.eqb mime ""); [discriminate|]. now injection H as <-.
    + unfold dataUrlToParts in H.
      destruct (split dataUrl) as [arr0 [|arr1 pieces]]; [left; congruence|].
      destruct (match_mime arr0) as [mime|]; [|right; congruence].
      destruct (String.eqb mime ""); [right; congruence | discriminate].
Qed.

Section Calls.

Variable trim : string -> string.
Variable readAsDataURL : File -> option string.
Variable generateContent : ImageRequest -> Js.outcome GenerateContentResponse.

Lemma dataUrlToPart_invalid (dataUrl : string) :
  free_of "," dataUrl ->
  dataUrlToPart dataUrl = Throws (Js.Error "Invalid data URL").
Proof.
  intros H. unfold dataUrlToPart, dataUrlToParts. now rewrite (split_whole _ H).
Qed.

(** X11.  The three calls that take the image to edit as a data URL
    reject with the invalid-URL error, and send no request to the API,
    when that URL has no comma. *)
Theorem invalid_url_sends_nothing (url : string) (itemImage : File)
    (accessoryFiles : list File) (accessories : list WardrobeItem.t)
    (poseInstruction : string) :
  free_of "," url ->
  let rejected := ([], Rejected (Exception (Js.Error "Invalid data URL"))) in
  generateGarmentTryOnImage trim readAsDataURL generateContent url itemImage = rejected
  /\ generateAccessoryTryOnImage trim readAsDataURL generateContent url
       accessoryFiles accessories = rejected
  /\ generatePoseVariation trim generateContent url poseInstruction = rejected.
Proof.
  intros H. unfold generateGarmentTryOnImage, generateAccessoryTryOnImage,
    generatePoseVariation. now rewrite (dataUrlToPart_invalid _ H).
Qed.

Lemma handleApiResponse_returns (response : GenerateContentResponse) (url : string) :
  handleApiResponse trim response = Returns url ->
  exists d,
    first_image (match candidates response with Some cs => cs | None => [] end) = Some d
    /\ url = data_url d.
Proof.
  unfold handleApiResponse. destruct (blocked response); [discriminate|].
  destruct (first_image _) as [d|].
  - intros [= <-]. now exists d.
  - destruct (_ && _); discriminate.
Qed.

Lemma send_fulfilled (parts : list Part) (url : string) :
  snd (send trim generateContent parts) = Fulfilled url ->
  exists request response d,
    fst (send trim generateContent parts) = [request]
    /\ contents request = parts
    /\ generateContent request = Returns response
    /\ first_image (match candidates response with Some cs => cs | None => [] end) = Some d
    /\ url = data_url d.
Proof.
  unfold send. cbn [fst snd].
  destruct (generateContent _) as [response|e] eqn:Hg; [|discriminate].
  destruct (handleApiResponse trim response) as [u|e] eqn:Hr; [|discriminate].
  intros [= ->]. destruct (handleApiResponse_returns _ _ Hr) as (d & Hd & ->).
  eexists _, response, d. repeat split; eauto.
Qed.

(** X12.  An image that any of the four calls returns is the data URL of
    the first inline image of the answer to the one request the call
    sent.  When that image can be carried, asking for a pose variation of
    the returned URL sends a request whose image part is that very
    image. *)
Theorem returned_image_chains (userImage itemImage : File) (modelImageUrl : string)
    (accessoryFiles : list File) (accessories : list WardrobeItem.t)
    (tryOnImageUrl poseInstruction : string)
    (call : list ImageRequest * Settled string) (url : string) :
  In call
     [ generateModelImage trim readAsDataURL generateContent userImage;
       generateGarmentTryOnImage trim readAsDataURL generateContent modelImageUrl itemImage;
       generateAccessoryTryOnImage trim readAsDataURL generateContent modelImageUrl
         accessoryFiles accessories;
       generatePoseVariation trim generateContent tryOnImageUrl poseInstruction ] ->
  snd call = Fulfilled url ->
  exists request response d,
    fst call = [request]
    /\ generateContent request = Returns response
    /\ first_image (match candidates response with Some cs => cs | None => [] end) = Some d
    /\ url = data_url d
    /\ (carried d ->
        forall nextPose,
          fst (generatePoseVariation trim generateContent url nextPose)
          = [ {| model := imageModel;
                 contents := [ {| inlineData := Some d; partText := None |};
                               text_part (pose_prompt nextPose) ];
                 responseModalities := [IMAGE; TEXT] |} ]).
Proof.
  intros Hcall Hurl.
  assert (Hsent : exists parts, call = send trim generateContent parts).
  { cbn [In] in Hcall. destruct Hcall as [<-|[<-|[<-|[<-|[]]]]];
      unfold generateModelImage, generateGarmentTryOnImage, generateAccessoryTryOnImage,
        generatePoseVariation in *.
    - destruct (fileToPart _ userImage); [eauto | discriminate].
    - destruct (dataUrlToPart modelImageUrl); [|discriminate].
      destruct (fileToPart _ itemImage); [eauto | discriminate].
    - destruct (dataUrlToPart modelImageUrl); [|discriminate].
      destruct (fileToParts _ accessoryFiles); [eauto | discriminate].
    - destruct (dataUrlToPart tryOnImageUrl); [eauto | discriminate]. }
  destruct Hsent as [parts ->].
  destruct (send_fulfilled _ _ Hurl) as (request & response & d & Hfst & _ & Hg & Hd & ->).
  exists request, response, d. repeat split; try assumption.
  intros Hc nextPose. unfold generatePoseVariation, dataUrlToPart.
  now rewrite (data_url_read_back _ Hc).
Qed.

End Calls.

End ImageFacts.

(* ===================================================================== *)
(** ** More of [useHistoryState]: pushing a state *)
(* ===================================================================== *)

Section PushFacts.

Context {T : Type}.
Variable same : T -> T -> bool.
Implicit Type c : HistoryState.Cells T.

Lemma index_firstn {A} (l : list A) (i : Z) (k : nat) :
  (Z.to_nat i < k)%nat -> Js.index (firstn k l) i = Js.index l i.
Proof.
  intros H. unfold Js.index. destruct (i <? 0); [reflexivity|].
  now rewrite nth_error_firstn, (proj2 (Nat.ltb_lt _ _) H).
Qed.

Lemma index_app_old {A} (l ext : list A) (i : Z) (x : A) :
  Js.index l i = Some x -> Js.index (l ++ ext) i = Some x.
Proof.
  intros H. pose proof (index_Some_valid _ _ _ H) as Hv. unfold Js.index, Js.length in *.
  destruct (i <? 0); [discriminate|]. rewrite nth_error_app1 by lia. exact H.
Qed.

(** X13.  [setState] of the hook, called at the render of the cells it
    writes: a value whose JSON equals the state's leaves the cells as they
    are; any other value replaces the entries after the current one (the
    redo branch) by the new state, which becomes current with nothing to
    redo, and one undo brings back the state before. *)
Theorem setState_pushes c (s : T) (value : T -> T) :
  HistoryState.valid c ->
  HistoryState.state c = Some s ->
  let c' := HistoryState.setState same (HistoryState.history c)
              (HistoryState.currentIndex c) s value c in
  if same (value s) s then c' = c
  else
    HistoryState.history c'
      = firstn (S (Z.to_nat (HistoryState.currentIndex c))) (HistoryState.history c)
        ++ [value s]
    /\ HistoryState.currentIndex c' = HistoryState.currentIndex c + 1
    /\ HistoryState.state c' = Some (value s)
    /\ HistoryState.canRedo c' = false
    /\ HistoryState.canUndo c' = true
    /\ HistoryState.valid c'
    /\ HistoryState.state (HistoryState.click_undo c') = Some s.
Proof.
  intros Hv Hs c'. subst c'. unfold HistoryState.setState.
  destruct (same (value s) s); [reflexivity|].
  unfold HistoryState.valid in Hv. rewrite (slice0_valid _ _ Hv).
  set (i := HistoryState.currentIndex c) in *.
  set (kept := firstn (S (Z.to_nat i)) (HistoryState.history c)).
  assert (Hlen : Js.length (kept ++ [value s]) - 1 = i + 1).
  { unfold Js.length in *. subst kept. rewrite length_app, length_firstn. cbn [List.length]. lia. }
  unfold HistoryState.state, HistoryState.canRedo, HistoryState.canUndo,
    HistoryState.click_undo, HistoryState.undo, HistoryState.valid.
  cbn [HistoryState.history HistoryState.currentIndex].
  split; [reflexivity|]. split; [exact Hlen|].
  split; [apply index_app_last|].
  split; [apply Z.ltb_irrefl|].
  rewrite Hlen.
  split; [apply Z.ltb_lt; lia|].
  split; [unfold Js.length in *; lia|].
  destruct (Z.ltb_spec 0 (i + 1)); [|lia].
  cbn [HistoryState.history HistoryState.currentIndex].
  replace (i + 1 - 1) with i by lia.
  apply index_app_old. subst kept. rewrite index_firstn by lia. exact Hs.
Qed.

End PushFacts.

(* ===================================================================== *)
(** ** The colour of the style score *)
(* ===================================================================== *)

Module StackFacts.
Import GeminiService OutfitStack.

Lemma geq_trans (q a b : Q) :
  (a <= b)%Q -> Qle_bool b q = true -> Qle_bool a q = true.
Proof.
  intros Hab H. apply Qle_bool_iff in H. apply Qle_bool_iff. now apply Qle_trans with b.
Qed.

Lemma geq_below (q a b : Q) :
  (a <= b)%Q -> Qle_bool a q = false -> Qle_bool b q = false.
Proof.
  intros Hab H. destruct (Qle_bool b q) eqn:Hb; [|reflexivity].
  now rewrite (geq_trans _ _ _ Hab Hb) in H.
Qed.

(** X14.  Clamping a score to the scale never changes the colour of its
    badge: [getScoreColor] gives the clamped score the class it gives the
    score the model answered, green from 8, yellow from 5, red below. *)
Theorem getScoreColor_clamp (n : Number) :
  getScoreColor (clamp n) = getScoreColor n.
Proof.
  destruct n as [|q|]; [reflexivity | | reflexivity].
  unfold clamp, min10. destruct (Qle_bool q 10) eqn:H10.
  - unfold max1. destruct (Qle_bool 1 q) eqn:H1; [reflexivity|].
    unfold getScoreColor, geq.
    rewrite (geq_below q 1 8), (geq_below q 1 5) by (assumption || discriminate).
    reflexivity.
  - assert (H : Qle_bool 8 q = true).
    { destruct (Qle_bool 8 q) eqn:H8; [reflexivity|].
      assert (Hq : (q <= 10)%Q).
      { apply Qlt_le_weak, Qlt_le_trans with 8%Q.
        - apply Qnot_le_lt. intros Hle. apply Qle_bool_iff in Hle. congruence.
        - discriminate. }
      apply Qle_bool_iff in Hq. congruence. }
    unfold getScoreColor, geq. now rewrite H.
Qed.

End StackFacts.

(* ===================================================================== *)
(** ** More of the handlers of [App] *)
(* ===================================================================== *)

Section MoreAppFacts.

Context {E : Env}.

(** The state after a [setState] at the history its render saw, for an
    updater that changes the state whenever it changes its JSON. *)
Lemma setState_state (r : Render) (value : AppState.t -> AppState.t) (w : World) :
  HistoryState.state (hist w) = Some (state r) ->
  (same_json (heap w) (value (state r)) (state r) = true -> value (state r) = state r) ->
  HistoryState.state (hist (setState r value w)) = Some (value (state r)).
Proof.
  intros Hst Hsame. unfold setState, HistoryState.setState.
  destruct (same_json _ _ _).
  - cbn. now rewrite Hsame.
  - apply state_setHist_push.
Qed.

Lemma same_json_true (h : list Js.object) (a b : AppState.t) :
  same_json h a b = true -> json_state h a = json_state h b.
Proof.
  unfold same_json. now destruct (JsonState_eq_dec _ _).
Qed.

Lemma with_accessories_same (h : list Js.object) accessories image (s : AppState.t) :
  same_json h (with_accessories accessories image s) s = true ->
  with_accessories accessories image s = s.
Proof.
  intros H. apply same_json_true in H. unfold json_state in H. cbn in H.
  destruct s. cbn in *. unfold with_accessories. cbn. congruence.
Qed.

(** X15.  [handleDeleteOutfit]: nothing happens while loading; otherwise
    every saved outfit with the given id is removed and the others stay,
    no other cell changes, and loading that id afterwards does nothing. *)
Theorem handleDeleteOutfit_removes (r : Render) (outfitId : string) (w : World) :
  let w' := handleDeleteOutfit r outfitId w in
  (isLoading (snapshot r) = true -> w' = w)
  /\ (isLoading (snapshot r) = false ->
      w' = setSavedOutfits (savedOutfits w') w
      /\ (forall o, In o (savedOutfits w')
                    <-> In o (savedOutfits w) /\ SavedOutfit.id o <> outfitId)
      /\ (forall r' w0, snapshot r' = w' -> handleLoadOutfit r' outfitId w0 = w0)).
Proof.
  intros w'. subst w'. unfold handleDeleteOutfit.
  split; intros ->; [reflexivity|]. cbn.
  split; [reflexivity|]. split.
  - intros o. rewrite filter_In. split; intros [Hin Hid]; split; try assumption.
    + intros <-. now rewrite String.eqb_refl in Hid.
    + now destruct (String.eqb_spec (SavedOutfit.id o) outfitId).
  - intros r' w0 Hs. unfold handleLoadOutfit. rewrite Hs. cbn.
    destruct (isLoading w); [reflexivity|].
    destruct (find _ _) as [o|] eqn:Hf; [|reflexivity].
    apply find_some in Hf as [Hin Heq]. apply filter_In in Hin as [_ Hne].
    now rewrite Heq in Hne.
Qed.

(** X16.  [handleRemoveAccessory], enabled and with a base image: the id
    is not among the accessories it keeps.  When none is left no call is
    made and the overlay is cleared; otherwise the overlay is generated
    again for those left, and when that call fails the state, with the
    accessory still in it, stays and the error is displayed. *)
Theorem handleRemoveAccessory_removes (w : World) (r : Render) (accessoryId base : string) :
  render w = Some r ->
  isLoading w = false ->
  accessoryBaseImageUrl r None w = Some base -> base <> ""%string ->
  let s := state r in
  let remaining :=
    filter (fun acc => negb (String.eqb (WardrobeItem.id acc) accessoryId))
           (AppState.activeAccessories s) in
  let w' := handleRemoveAccessory r accessoryId w in
  ~ In accessoryId (map WardrobeItem.id remaining)
  /\ (remaining = [] ->
      calls w' = calls w
      /\ HistoryState.state (hist w') = Some (with_accessories [] None s))
  /\ (forall files newImageUrl,
        remaining <> [] ->
        accessoryFiles remaining = Returns files ->
        gemini (calls w) (AccessoryTryOn base files remaining) = Returns newImageUrl ->
        calls w' = calls w ++ [AccessoryTryOn base files remaining]
        /\ HistoryState.state (hist w')
           = Some (with_accessories remaining (Some newImageUrl) s)
        /\ isLoading w' = false)
  /\ (forall files err,
        remaining <> [] ->
        accessoryFiles remaining = Returns files ->
        gemini (calls w) (AccessoryTryOn base files remaining) = Throws err ->
        displays_error w w' err "Failed to apply accessories").
Proof.
  intros Hr Hload Hbase Hne s remaining w'.
  destruct (render_sound _ _ Hr) as [Hsnap Hst].
  assert (Hw' : w' = updateAccessoryLayer r remaining None w).
  { subst w'. unfold handleRemoveAccessory. now rewrite Hsnap, Hload. }
  rewrite Hw'. clear Hw' w'.
  split; [|split; [|split]].
  - rewrite in_map_iff. intros (acc & Hid & Hin). apply filter_In in Hin as [_ Hin].
    now rewrite Hid, String.eqb_refl in Hin.
  - intros ->. rewrite (updateAccessoryLayer_empty _ _ _ _ Hbase Hne).
    split; [reflexivity|]. apply setState_state; [assumption|].
    apply with_accessories_same.
  - intros files newImageUrl Hrem Hfiles Hapi.
    rewrite (updateAccessoryLayer_success _ _ _ _ _ _ _ Hbase Hne Hrem Hfiles Hapi).
    split; [reflexivity|]. split; [|reflexivity].
    cbn [hist setIsLoading setLoadingMessage]. apply setState_state; [assumption|].
    apply with_accessories_same.
  - intros files err Hrem Hfiles Hapi.
    destruct (updateAccessoryLayer_failure _ _ _ _ _ _ _ Hbase Hne Hrem Hfiles Hapi)
      as (H1 & H2 & H3 & H4 & H5 & _).
    repeat split; assumption.
Qed.

(** X17.  A wardrobe button and its handler agree: on a disabled button
    (loading, or an active garment) [handleItemClick] does nothing; on an
    enabled one whose file cannot be loaded it only sets the panel's own
    error, with no call and no change of the history; and when the file
    loads it hands the file and the item to [handleItemSelect]. *)
Theorem handleItemClick_edges (r : Render) (item : WardrobeItem.t) (w : World) :
  let w' := handleItemClick r item w in
  (isDisabled r item = true -> w' = w)
  /\ (forall err,
        isDisabled r item = false ->
        urlToFile (WardrobeItem.url item) (WardrobeItem.name item) = Throws err ->
        w' = setPanelError (Some
               "Failed to load wardrobe item. This is often a CORS issue. Check the developer console for details."%string) w
        /\ calls w' = calls w /\ hist w' = hist w /\ error w' = error w)
  /\ (forall file,
        isDisabled r item = false ->
        urlToFile (WardrobeItem.url item) (WardrobeItem.name item) = Returns file ->
        w' = handleItemSelect r file item (setPanelError None w)).
Proof.
  intros w'. subst w'. unfold handleItemClick, isDisabled.
  destruct (isLoading (snapshot r)); cbn [orb].
  - split; [reflexivity|]. split; intros; discriminate.
  - rewrite andb_comm. destruct (_ && _).
    + split; [reflexivity|]. split; intros; discriminate.
    + split; [discriminate|]. split.
      * intros err _ ->. repeat split.
      * now intros file _ ->.
Qed.

End MoreAppFacts.

Section SelectFacts.

Context {E : Env}.

Lemma render_ids (w : World) (r : Render) :
  render w = Some r ->
  item_ids (Js.slice1 (activeGarmentLayers (state r))) = Some (activeGarmentIds r).
Proof.
  unfold render. destruct (HistoryState.state (hist w)) as [s|]; [|discriminate].
  destruct (item_ids _) as [ids|] eqn:Hids; [|discriminate].
  intros [= <-]. exact Hids.
Qed.

Lemma item_ids_app (layers : list OutfitLayer.t) (ids : list string)
    (l : OutfitLayer.t) (it : WardrobeItem.t) :
  item_ids layers = Some ids -> OutfitLayer.item l = Some it ->
  item_ids (layers ++ [l]) = Some (ids ++ [WardrobeItem.id it]).
Proof.
  revert ids. induction layers as [|x layers IH]; cbn [item_ids app].
  - intros ids [= <-] ->. reflexivity.
  - intros ids H Hl. destruct (OutfitLayer.item x); [|discriminate].
    destruct (item_ids layers) as [rest|]; [|discriminate].
    injection H as <-. now rewrite (IH rest eq_refl Hl).
Qed.

Lemma slice0_all {A} (l : list A) : Js.slice0 l (Js.length l) = l.
Proof.
  unfold Js.slice0, Js.length. destruct (Z.ltb_spec (Z.of_nat (List.length l)) 0); [lia|].
  rewrite Z.min_id, Nat2Z.id. apply firstn_all.
Qed.

(** What a successful try-on of a new garment leaves in the cells. *)
Lemma handleItemSelect_success (w : World) (r : Render) (itemFile : File)
    (itemInfo : WardrobeItem.t) (base newImageUrl : string) :
  render w = Some r ->
  isLoading w = false ->
  baseGarmentImageUrl r = Some base -> base <> ""%string ->
  WardrobeItem.type itemInfo = garment ->
  is_next_layer (state r) itemInfo = false ->
  gemini (calls w) (GarmentTryOn (Some base) itemFile) = Returns newImageUrl ->
  0 <= AppState.currentGarmentIndex (state r)
    < Js.length (AppState.garmentHistory (state r)) ->
  let s := state r in
  let w' := handleItemSelect r itemFile itemInfo w in
  let newLayer := {| OutfitLayer.item := Some itemInfo;
                     OutfitLayer.poseImages := List.length (heap w) |} in
  let s' := {| AppState.modelImageUrl := AppState.modelImageUrl s;
               AppState.garmentHistory :=
                 firstn (S (Z.to_nat (AppState.currentGarmentIndex s)))
                        (AppState.garmentHistory s) ++ [newLayer];
               AppState.currentGarmentIndex := AppState.currentGarmentIndex s + 1;
               AppState.activeAccessories := [];
               AppState.generatedAccessoryImageUrl := None;
               AppState.currentPoseIndex := AppState.currentPoseIndex s |} in
  HistoryState.state (hist w') = Some s'
  /\ heap w' = heap w ++ [[(pose_key (AppState.currentPoseIndex s), Some newImageUrl)]]
  /\ calls w' = calls w ++ [GarmentTryOn (Some base) itemFile]
  /\ wardrobe w'
     = (if existsb (fun item => String.eqb (WardrobeItem.id item) (WardrobeItem.id itemInfo))
                   (wardrobe w)
        then wardrobe w else wardrobe w ++ [itemInfo])
  /\ isLoading w' = false /\ error w' = None
  /\ panelError w' = panelError w /\ savedOutfits w' = savedOutfits w
  /\ hist w'
     = {| HistoryState.history :=
            Js.slice0 (HistoryState.history (hist w))
                      (HistoryState.currentIndex (hist w) + 1) ++ [s'];
          HistoryState.currentIndex :=
            Js.length (Js.slice0 (HistoryState.history (hist w))
                                 (HistoryState.currentIndex (hist w) + 1) ++ [s']) - 1 |}.
Proof.
  intros Hr Hload Hbase Hne Hty Hnext Hapi Hidx s w' newLayer s'.
  destruct (render_sound _ _ Hr) as [Hsnap Hst].
  pose proof (slice0_valid _ _ Hidx) as Hslice.
  subst w'. unfold handleItemSelect. rewrite Hbase, Hsnap, Hload, Hty, Hnext.
  destruct (String.eqb_spec base ""); [contradiction|]. simpl orb. cbv iota.
  unfold call. simpl calls. rewrite Hapi. unfold alloc. cbv iota beta.
  rewrite setState_changed by (apply same_json_garment_index; simpl; lia).
  rewrite Hslice, Hsnap. simpl. fold s newLayer s'.
  destruct (existsb _ (wardrobe w)); simpl;
    (split; [apply index_app_last | repeat split]).
Qed.

(** The render after a successful try-on of a new garment. *)
Lemma new_garment_rendered (w : World) (r : Render) (itemFile : File)
    (itemInfo : WardrobeItem.t) (base newImageUrl : string) :
  render w = Some r ->
  isLoading w = false ->
  baseGarmentImageUrl r = Some base -> base <> ""%string ->
  WardrobeItem.type itemInfo = garment ->
  is_next_layer (state r) itemInfo = false ->
  gemini (calls w) (GarmentTryOn (Some base) itemFile) = Returns newImageUrl ->
  0 <= AppState.currentGarmentIndex (state r)
    < Js.length (AppState.garmentHistory (state r)) ->
  exists r',
    render (handleItemSelect r itemFile itemInfo w) = Some r'
    /\ activeGarmentIds r' = activeGarmentIds r ++ [WardrobeItem.id itemInfo]
    /\ displayImageUrl r' = Some newImageUrl
    /\ activeItemIds r' = activeGarmentIds r ++ [WardrobeItem.id itemInfo]
    /\ isDisabled r' itemInfo = true
    /\ availablePoseKeys r' = [pose_key (AppState.currentPoseIndex (state r))].
Proof.
  intros Hr Hload Hbase Hne Hty Hnext Hapi Hidx.
  destruct (handleItemSelect_success _ _ _ _ _ _ Hr Hload Hbase Hne Hty Hnext Hapi Hidx)
    as (Hst & Hheap & _ & _ & Hl & _).
  set (w' := handleItemSelect r itemFile itemInfo w) in *.
  set (s := state r) in *.
  set (newLayer := {| OutfitLayer.item := Some itemInfo;
                      OutfitLayer.poseImages := List.length (heap w) |}) in *.
  set (kept := firstn (S (Z.to_nat (AppState.currentGarmentIndex s)))
                      (AppState.garmentHistory s)) in *.
  set (s' := {| AppState.modelImageUrl := AppState.modelImageUrl s;
                AppState.garmentHistory := kept ++ [newLayer];
                AppState.currentGarmentIndex := AppState.currentGarmentIndex s + 1;
                AppState.activeAccessories := [];
                AppState.generatedAccessoryImageUrl := None;
                AppState.currentPoseIndex := AppState.currentPoseIndex s |}) in *.
  assert (Hlen : Js.length (kept ++ [newLayer]) = AppState.currentGarmentIndex s + 2).
  { unfold Js.length in *. subst kept. rewrite length_app, length_firstn.
    cbn [List.length]. lia. }
  assert (Hactive : activeGarmentLayers s' = kept ++ [newLayer]).
  { unfold activeGarmentLayers. cbn [AppState.garmentHistory AppState.currentGarmentIndex s'].
    replace (AppState.currentGarmentIndex s + 1 + 1) with (Js.length (kept ++ [newLayer]))
      by lia.
    apply slice0_all. }
  assert (Hkept : kept = activeGarmentLayers s).
  { unfold activeGarmentLayers. now rewrite (slice0_valid _ _ Hidx). }
  assert (Hids : item_ids (Js.slice1 (activeGarmentLayers s'))
                 = Some (activeGarmentIds r ++ [WardrobeItem.id itemInfo])).
  { rewrite Hactive. pose proof (render_ids _ _ Hr) as Hold. fold s in Hold.
    rewrite <- Hkept in Hold. unfold Js.slice1 in *.
    destruct kept as [|b kept'] eqn:Hk.
    - exfalso. assert (List.length (@nil OutfitLayer.t) = S (Z.to_nat (AppState.currentGarmentIndex s))).
      { rewrite <- Hk at 1. subst kept. unfold Js.length in Hidx. rewrite length_firstn. lia. }
      discriminate.
    - cbn [skipn app] in *. now apply item_ids_app. }
  assert (Hi : Js.index (AppState.garmentHistory s') (AppState.currentGarmentIndex s')
               = Some newLayer).
  { cbn [AppState.garmentHistory AppState.currentGarmentIndex s'].
    replace (AppState.currentGarmentIndex s + 1) with (Js.length (kept ++ [newLayer]) - 1)
      by lia.
    apply index_app_last. }
  assert (Hobj : deref (heap w') (OutfitLayer.poseImages newLayer)
                 = [(pose_key (AppState.currentPoseIndex s), Some newImageUrl)]).
  { rewrite Hheap. apply deref_alloc. }
  exists {| snapshot := w'; state := s';
            activeGarmentIds := activeGarmentIds r ++ [WardrobeItem.id itemInfo] |}.
  split; [|split; [reflexivity|split; [|split; [|split]]]].
  - unfold render. now rewrite Hst, Hids.
  - unfold displayImageUrl. cbn [state snapshot]. rewrite Hi, Hobj.
    cbn [AppState.currentPoseIndex AppState.generatedAccessoryImageUrl s' Js.get Js.nullish].
    now rewrite String.eqb_refl.
  - unfold activeItemIds, activeAccessoryIds. cbn. apply app_nil_r.
  - unfold isDisabled, activeItemIds, is_garment. cbn [snapshot activeGarmentIds].
    rewrite Hl, Hty, andb_true_r. cbn [orb].
    rewrite existsb_app, existsb_app. cbn [existsb].
    rewrite String.eqb_refl. cbn [orb]. now rewrite orb_true_r.
  - unfold availablePoseKeys. cbn [state snapshot]. rewrite Hi, Hobj.
    cbn [AppState.garmentHistory s']. rewrite Hlen.
    destruct (Z.eqb_spec (AppState.currentGarmentIndex s + 2) 0); [lia|]. reflexivity.
Qed.


(** X19.  An upload through the file input of the wardrobe panel: a file
    whose type is not an image only sets the panel's error.  An image the
    reader loads is tried on as a garment named after the file, with the
    id [custom-] followed by the time; when the try-on succeeds that
    item is the item of the new current layer, and it is appended to the
    wardrobe unless an item of its id is there already. *)
Theorem handleFileChange_upload (w : World) (r : Render) (chosen : Upload)
    (others : list Upload) (dataUrl now base newImageUrl : string) :
  let customItemInfo :=
    {| WardrobeItem.id := ("custom-" ++ now)%string;
       WardrobeItem.name := file_name (upload_file chosen);
       WardrobeItem.url := dataUrl;
       WardrobeItem.type := garment |} in
  render w = Some r ->
  isLoading w = false ->
  baseGarmentImageUrl r = Some base -> base <> ""%string ->
  String.prefix "image/" (upload_type chosen) = true ->
  dataUrl <> ""%string ->
  is_next_layer (state r) customItemInfo = false ->
  gemini (calls w) (GarmentTryOn (Some base) (upload_file chosen)) = Returns newImageUrl ->
  0 <= AppState.currentGarmentIndex (state r)
    < Js.length (AppState.garmentHistory (state r)) ->
  let w' := handleFileChange r (chosen :: others) (Loaded (Some dataUrl)) now w in
  (exists s' layer,
      HistoryState.state (hist w') = Some s'
      /\ Js.index (AppState.garmentHistory s') (AppState.currentGarmentIndex s') = Some layer
      /\ OutfitLayer.item layer = Some customItemInfo
      /\ AppState.currentGarmentIndex s' = AppState.currentGarmentIndex (state r) + 1)
  /\ calls w' = calls w ++ [GarmentTryOn (Some base) (upload_file chosen)]
  /\ wardrobe w'
     = (if existsb (fun item => String.eqb (WardrobeItem.id item) ("custom-" ++ now))
                   (wardrobe w)
        then wardrobe w else wardrobe w ++ [customItemInfo])
  /\ In ("custom-" ++ now)%string (map WardrobeItem.id (wardrobe w'))
  /\ panelError w' = panelError w
  /\ (forall other read,
        String.prefix "image/" (upload_type other) = false ->
        handleFileChange r (other :: others) read now w
        = setPanelError (Some "Please select an image file."%string) w).
Proof.
  intros custom Hr Hload Hbase Hne Himg Hurl Hnext Hapi Hidx w'.
  assert (Hw' : w' = handleItemSelect r (upload_file chosen) custom w).
  { subst w'. unfold handleFileChange. rewrite Himg. cbn [negb Js.truthy].
    destruct (String.eqb_spec dataUrl ""); [contradiction|]. reflexivity. }
  destruct (handleItemSelect_success w r (upload_file chosen) custom base newImageUrl
              Hr Hload Hbase Hne eq_refl Hnext Hapi Hidx)
    as (Hst & _ & Hcalls & Hward & _ & _ & Hpanel & _).
  rewrite <- Hw' in *.
  split; [|split; [|split; [|split; [|split]]]]; try assumption.
  - eexists _, {| OutfitLayer.item := Some custom;
                  OutfitLayer.poseImages := List.length (heap w) |}.
    split; [exact Hst|]. cbn [AppState.garmentHistory AppState.currentGarmentIndex].
    split; [|split; reflexivity].
    match goal with |- Js.index (?k ++ [?x]) _ = _ =>
      replace (AppState.currentGarmentIndex (state r) + 1) with (Js.length (k ++ [x]) - 1);
      [apply index_app_last|]
    end.
    unfold Js.length in *. rewrite length_app, length_firstn. cbn [List.length]. lia.
  - rewrite Hward.
    destruct (existsb _ (wardrobe w)) eqn:Hex.
    + apply existsb_exists in Hex as (item & Hin & Heq). apply String.eqb_eq in Heq.
      apply in_map_iff. exists item. split; [exact Heq | exact Hin].
    + rewrite map_app, in_app_iff. right. now left.
  - intros other read Hno. unfold handleFileChange. now rewrite Hno.
Qed.

(** X20.  Removing the last garment and selecting it again: provided the
    application shows an image after the removal, the selection replays
    the layer that was left in the history.  No call is made, no
    [poseImages] object changes, and the state is the one before the
    removal with the accessories cleared and the first pose; it is that
    state itself when it had no accessory and showed the first pose. *)
Theorem remove_then_reselect_replays (w : World) (r r1 : Render) (itemFile : File)
    (itemInfo removed : WardrobeItem.t) (lastLayer : OutfitLayer.t) (base : string) :
  render w = Some r ->
  isLoading w = false ->
  0 < AppState.currentGarmentIndex (state r) ->
  Js.index (AppState.garmentHistory (state r)) (AppState.currentGarmentIndex (state r))
    = Some lastLayer ->
  OutfitLayer.item lastLayer = Some removed ->
  WardrobeItem.id removed = WardrobeItem.id itemInfo ->
  WardrobeItem.type itemInfo = garment ->
  render (handleRemoveLastGarment r w) = Some r1 ->
  baseGarmentImageUrl r1 = Some base -> base <> ""%string ->
  let s := state r in
  let w2 := handleItemSelect r1 itemFile itemInfo (handleRemoveLastGarment r w) in
  calls w2 = calls w
  /\ heap w2 = heap w
  /\ HistoryState.state (hist w2)
     = Some {| AppState.modelImageUrl := AppState.modelImageUrl s;
               AppState.garmentHistory := AppState.garmentHistory s;
               AppState.currentGarmentIndex := AppState.currentGarmentIndex s;
               AppState.activeAccessories := [];
               AppState.generatedAccessoryImageUrl := None;
               AppState.currentPoseIndex := 0 |}
  /\ (AppState.activeAccessories s = [] ->
      AppState.generatedAccessoryImageUrl s = None ->
      AppState.currentPoseIndex s = 0 ->
      HistoryState.state (hist w2) = Some s).
Proof.
  intros Hr Hload Hpos Hlast Hitem Hid Hty Hr1 Hbase Hne s w2.
  destruct (render_sound _ _ Hr) as [Hsnap Hst].
  assert (Hw1 : handleRemoveLastGarment r w
                = setHist (hist (handleRemoveLastGarment r w)) w
                  /\ HistoryState.state (hist (handleRemoveLastGarment r w))
                     = Some {| AppState.modelImageUrl := AppState.modelImageUrl s;
                               AppState.garmentHistory := AppState.garmentHistory s;
                               AppState.currentGarmentIndex := AppState.currentGarmentIndex s - 1;
                               AppState.activeAccessories := [];
                               AppState.generatedAccessoryImageUrl := None;
                               AppState.currentPoseIndex := 0 |}).
  { unfold handleRemoveLastGarment. destruct (Z.ltb_spec 0 (AppState.currentGarmentIndex (state r))); [|lia].
    rewrite setState_changed by (apply same_json_garment_index; simpl; lia).
    split; [reflexivity|]. apply state_setHist_push. }
  destruct Hw1 as [Hw1 Hs1].
  set (w1 := handleRemoveLastGarment r w) in *.
  destruct (render_sound _ _ Hr1) as [Hsnap1 Hst1].
  rewrite Hs1 in Hst1. injection Hst1 as Hst1.
  assert (Hreplay : is_next_layer (state r1) itemInfo = true).
  { unfold is_next_layer. rewrite <- Hst1. cbn [AppState.garmentHistory AppState.currentGarmentIndex].
    replace (AppState.currentGarmentIndex s - 1 + 1) with (AppState.currentGarmentIndex s) by lia.
    subst s. rewrite Hlast, Hitem, Hid. apply String.eqb_refl. }
  assert (Hload1 : isLoading w1 = false) by (rewrite Hw1; exact Hload).
  subst w2. unfold handleItemSelect. rewrite Hbase, Hsnap1, Hload1, Hty, Hreplay.
  destruct (String.eqb_spec base ""); [contradiction|]. simpl orb. cbv iota.
  rewrite setState_changed by (apply same_json_garment_index; simpl; lia).
  assert (Hfinal : HistoryState.state
            (hist (setHist
               {| HistoryState.history :=
                    Js.slice0 (HistoryState.history (hist (snapshot r1)))
                              (HistoryState.currentIndex (hist (snapshot r1)) + 1)
                    ++ [ {| AppState.modelImageUrl := AppState.modelImageUrl (state r1);
                            AppState.garmentHistory := AppState.garmentHistory (state r1);
                            AppState.currentGarmentIndex := AppState.currentGarmentIndex (state r1) + 1;
                            AppState.activeAccessories := [];
                            AppState.generatedAccessoryImageUrl := None;
                            AppState.currentPoseIndex := 0 |} ];
                  HistoryState.currentIndex :=
                    Js.length (Js.slice0 (HistoryState.history (hist (snapshot r1)))
                                         (HistoryState.currentIndex (hist (snapshot r1)) + 1)
                    ++ [ {| AppState.modelImageUrl := AppState.modelImageUrl (state r1);
                            AppState.garmentHistory := AppState.garmentHistory (state r1);
                            AppState.currentGarmentIndex := AppState.currentGarmentIndex (state r1) + 1;
                            AppState.activeAccessories := [];
                            AppState.generatedAccessoryImageUrl := None;
                            AppState.currentPoseIndex := 0 |} ]) - 1 |} w1))
          = Some {| AppState.modelImageUrl := AppState.modelImageUrl s;
                    AppState.garmentHistory := AppState.garmentHistory s;
                    AppState.currentGarmentIndex := AppState.currentGarmentIndex s;
                    AppState.activeAccessories := [];
                    AppState.generatedAccessoryImageUrl := None;
                    AppState.currentPoseIndex := 0 |}).
  { rewrite state_setHist_push. rewrite <- Hst1.
    cbn [AppState.modelImageUrl AppState.garmentHistory AppState.currentGarmentIndex].
    now replace (AppState.currentGarmentIndex s - 1 + 1) with (AppState.currentGarmentIndex s) by lia. }
  split; [|split; [|split]].
  - cbn [calls setHist]. now rewrite Hw1.
  - cbn [heap setHist]. now rewrite Hw1.
  - exact Hfinal.
  - intros Ha Ho Hp. rewrite Hfinal. f_equal. subst s. destruct (state r).
    cbn in *. congruence.
Qed.

(** X21.  The Save button and [handleSaveOutfit] agree.  Not loading,
    with a model image and a displayed image and a garment index that is
    not negative: when [canSave] holds the handler prepends one outfit,
    with the id [outfit-] followed by the time, the displayed image as
    thumbnail and the wardrobe of the render, and sets no error; when it
    does not hold the handler saves nothing and sets the error. *)
Theorem save_button_agrees (r : Render) (now localeString : string) (w : World) :
  isLoading (snapshot r) = false ->
  Js.truthy (AppState.modelImageUrl (state r)) = true ->
  Js.truthy (displayImageUrl r) = true ->
  0 <= AppState.currentGarmentIndex (state r) ->
  let w' := handleSaveOutfit r now localeString w in
  (canSave r = true ->
     exists outfit,
       w' = setSavedOutfits (outfit :: savedOutfits w) w
       /\ SavedOutfit.id outfit = ("outfit-" ++ now)%string
       /\ SavedOutfit.thumbnailUrl outfit = displayImageUrl r
       /\ SavedOutfit.wardrobe outfit = wardrobe (snapshot r)
       /\ SavedOutfit.activeAccessories outfit = AppState.activeAccessories (state r)
       /\ map StoredLayer.item (SavedOutfit.garmentHistory outfit)
          = map OutfitLayer.item (activeGarmentLayers (state r)))
  /\ (canSave r = false ->
      w' = setError (Some "Add at least one item to save an outfit."%string) w).
Proof.
  intros Hload Hm Hd Hidx w'. subst w'. unfold handleSaveOutfit, canSave.
  rewrite Hload, Hm, Hd. cbn [negb orb andb].
  destruct (Z.eqb_spec (AppState.currentGarmentIndex (state r)) 0) as [H0|H0].
  - rewrite H0. cbn [Z.ltb Z.compare orb andb].
    destruct (AppState.activeAccessories (state r)) as [|a rest] eqn:Ha.
    + cbn. split; [discriminate | reflexivity].
    + assert (Hlen : (Js.length (a :: rest) =? 0) = false).
      { apply Z.eqb_neq. unfold Js.length. cbn [List.length]. lia. }
      assert (Hpos : (0 <? Js.length (a :: rest)) = true).
      { apply Z.ltb_lt. unfold Js.length. cbn [List.length]. lia. }
      rewrite Hlen, Hpos. split; [|discriminate]. intros _.
      eexists. split; [reflexivity|]. cbn. rewrite map_map. cbn.
      repeat split; try assumption.
  - destruct (Z.ltb_spec 0 (AppState.currentGarmentIndex (state r))); [|lia].
    cbn [orb andb]. split; [|discriminate]. intros _.
    eexists. split; [reflexivity|]. cbn. rewrite map_map. cbn.
    repeat split.
Qed.

(** X25.  Undo after a successful try-on of a new garment brings back
    what was there before: the history has something to undo, and after
    the undo the application renders the state of before the try-on, with
    the same displayed image and the same active items; the try-on can be
    redone and no call is made. *)
Theorem undo_after_try_on (w : World) (r : Render) (itemFile : File)
    (itemInfo : WardrobeItem.t) (base newImageUrl : string)
    (currentLayer : OutfitLayer.t) :
  render w = Some r ->
  isLoading w = false ->
  baseGarmentImageUrl r = Some base -> base <> ""%string ->
  WardrobeItem.type itemInfo = garment ->
  is_next_layer (state r) itemInfo = false ->
  gemini (calls w) (GarmentTryOn (Some base) itemFile) = Returns newImageUrl ->
  HistoryState.valid (hist w) ->
  Js.index (AppState.garmentHistory (state r)) (AppState.currentGarmentIndex (state r))
    = Some currentLayer ->
  (OutfitLayer.poseImages currentLayer < List.length (heap w))%nat ->
  let w' := handleItemSelect r itemFile itemInfo w in
  let w'' := dispatch undo w' in
  HistoryState.canUndo (hist w') = true
  /\ exists r'',
       render w'' = Some r''
       /\ state r'' = state r
       /\ displayImageUrl r'' = displayImageUrl r
       /\ activeItemIds r'' = activeItemIds r
       /\ HistoryState.canRedo (hist w'') = true
       /\ calls w'' = calls w'.
Proof.
  intros Hr Hload Hbase Hne Hty Hnext Hapi Hvalid Hcur Halloc w' w''.
  pose proof (index_Some_valid _ _ _ Hcur) as Hidx.
  destruct (render_sound _ _ Hr) as [Hsnap Hst].
  destruct (handleItemSelect_success _ _ _ _ _ _ Hr Hload Hbase Hne Hty Hnext Hapi Hidx)
    as (_ & Hheap & _ & _ & _ & _ & _ & _ & Hhist).
  destruct (new_garment_rendered _ _ _ _ _ _ Hr Hload Hbase Hne Hty Hnext Hapi Hidx)
    as (r' & Hr' & _).
  destruct (render_sound _ _ Hr') as [Hsnap' _].
  fold w' in Hheap, Hhist, Hr', Hsnap'.
  unfold HistoryState.valid in Hvalid. rewrite (slice0_valid _ _ Hvalid) in Hhist.
  set (i := HistoryState.currentIndex (hist w)) in *.
  set (kept := firstn (S (Z.to_nat i)) (HistoryState.history (hist w))) in *.
  match type of Hhist with
  | _ = {| HistoryState.history := _ ++ [?x]; HistoryState.currentIndex := _ |} =>
      set (s' := x) in *
  end.
  assert (Hlen : Js.length (kept ++ [s']) - 1 = i + 1).
  { unfold Js.length in *. subst kept. rewrite length_app, length_firstn.
    cbn [List.length]. lia. }
  rewrite Hlen in Hhist.
  assert (Hw'' : hist w'' = {| HistoryState.history := kept ++ [s'];
                               HistoryState.currentIndex := i |}
                 /\ heap w'' = heap w' /\ calls w'' = calls w').
  { subst w''. unfold dispatch. rewrite Hr'. unfold undo, HistoryState.undo.
    rewrite Hsnap', Hhist. cbn [HistoryState.currentIndex HistoryState.history].
    destruct (Z.ltb_spec 0 (i + 1)); [|lia]. cbn [hist heap calls setHist].
    now replace (i + 1 - 1) with i by lia. }
  destruct Hw'' as (Hh'' & Hheap'' & Hcalls'').
  assert (Hst'' : HistoryState.state (hist w'') = Some (state r)).
  { rewrite Hh''. unfold HistoryState.state. cbn [HistoryState.currentIndex HistoryState.history].
    apply index_app_old. subst kept. rewrite index_firstn by lia. exact Hst. }
  split.
  - rewrite Hhist. unfold HistoryState.canUndo. cbn. apply Z.ltb_lt. lia.
  - exists {| snapshot := w''; state := state r; activeGarmentIds := activeGarmentIds r |}.
    split; [|split; [reflexivity|split; [|split; [reflexivity|split]]]].
    + unfold render. now rewrite Hst'', (render_ids _ _ Hr).
    + unfold displayImageUrl. cbn [state snapshot]. rewrite Hcur, Hsnap, Hheap'', Hheap.
      now rewrite deref_old.
    + rewrite Hh''. unfold HistoryState.canRedo.
      cbn [HistoryState.history HistoryState.currentIndex]. rewrite Hlen.
      apply Z.ltb_lt. lia.
    + exact Hcalls''.
Qed.

(** X26.  The remove button of the outfit stack and its handler: the
    stack is given the active layers and shows the button on the row of
    the last of them, the current layer; [handleRemoveLastGarment] makes no
    call and leaves as active layers the former ones without that last
    one. *)
Theorem remove_button_removes_its_row (w : World) (r : Render) :
  render w = Some r ->
  0 < AppState.currentGarmentIndex (state r)
    < Js.length (AppState.garmentHistory (state r)) ->
  let active := activeGarmentLayers (state r) in
  let w' := handleRemoveLastGarment r w in
  (forall index,
      OutfitStack.removable active index = true
      <-> index = AppState.currentGarmentIndex (state r) - 1)
  /\ Js.index active (AppState.currentGarmentIndex (state r))
     = Js.index (AppState.garmentHistory (state r)) (AppState.currentGarmentIndex (state r))
  /\ exists s',
       HistoryState.state (hist w') = Some s'
       /\ activeGarmentLayers s' = removelast active
       /\ calls w' = calls w.
Proof.
  intros Hr Hidx active w'. subst active w'.
  assert (Hidx0 : 0 <= AppState.currentGarmentIndex (state r)
                  < Js.length (AppState.garmentHistory (state r))) by lia.
  assert (Hidx1 : 0 <= AppState.currentGarmentIndex (state r) - 1
                  < Js.length (AppState.garmentHistory (state r))) by lia.
  unfold activeGarmentLayers. rewrite (slice0_valid _ _ Hidx0).
  split; [|split].
  - intros index. unfold OutfitStack.removable, OutfitStack.reorderableGarments, Js.slice1.
    unfold Js.length in *. rewrite length_skipn, length_firstn.
    rewrite Z.eqb_eq. lia.
  - apply index_firstn. lia.
  - unfold handleRemoveLastGarment.
    destruct (Z.ltb_spec 0 (AppState.currentGarmentIndex (state r))); [|lia].
    rewrite setState_changed by (apply same_json_garment_index; simpl; lia).
    eexists. split; [apply state_setHist_push|].
    cbn [AppState.garmentHistory AppState.currentGarmentIndex calls setHist].
    split; [|reflexivity].
    rewrite (slice0_valid _ _ Hidx1).
    replace (S (Z.to_nat (AppState.currentGarmentIndex (state r))))
      with (S (S (Z.to_nat (AppState.currentGarmentIndex (state r) - 1)))) by lia.
    symmetry. apply removelast_firstn. unfold Js.length in *. lia.
Qed.

Lemma keys_set (o : Js.object) (k v : string) : In k (Js.keys (Js.set o k v)).
Proof.
  unfold Js.keys. induction o as [|[k' v'] o IH]; cbn [Js.set map fst In].
  - now left.
  - destruct (String.eqb_spec k' k) as [->|Hk]; cbn [map fst In]; [now left | now right].
Qed.

(** The cells after a pose was generated with no accessory active. *)
Lemma pose_generated_cells (w : World) (r : Render) (newIndex : Z)
    (currentLayer : OutfitLayer.t) (base newImageUrl : string) :
  render w = Some r ->
  isLoading w = false ->
  newIndex <> AppState.currentPoseIndex (state r) ->
  Js.index (AppState.garmentHistory (state r))
           (AppState.currentGarmentIndex (state r)) = Some currentLayer ->
  Js.truthy (Js.get (deref (heap w) (OutfitLayer.poseImages currentLayer))
                    (pose_key newIndex)) = false ->
  Js.values0 (deref (heap w) (OutfitLayer.poseImages currentLayer)) = Some base ->
  base <> ""%string ->
  gemini (calls w) (PoseVariation base (Js.index POSE_INSTRUCTIONS newIndex))
    = Returns newImageUrl ->
  AppState.activeAccessories (state r) = [] ->
  let w' := handlePoseSelect r newIndex w in
  hist w'
  = {| HistoryState.history :=
         Js.slice0 (HistoryState.history (hist w)) (HistoryState.currentIndex (hist w) + 1)
         ++ [with_pose newIndex (state r)];
       HistoryState.currentIndex :=
         Js.length (Js.slice0 (HistoryState.history (hist w))
                              (HistoryState.currentIndex (hist w) + 1)
                    ++ [with_pose newIndex (state r)]) - 1 |}
  /\ heap w' = update (OutfitLayer.poseImages currentLayer)
                      (fun o => Js.set o (pose_key newIndex) newImageUrl) (heap w)
  /\ isLoading w' = false.
Proof.
  intros Hr Hload Hnew Hlayer Hcached Hvalues Hne Hapi Hacc.
  destruct (render_sound _ _ Hr) as [Hsnap _].
  unfold handlePoseSelect. rewrite Hsnap, Hload.
  pose proof (index_Some_valid _ _ _ Hlayer) as Hlen.
  destruct (Z.eqb_spec (Js.length (AppState.garmentHistory (state r))) 0); [lia|].
  destruct (Z.eqb_spec newIndex (AppState.currentPoseIndex (state r))); [contradiction|].
  simpl orb. cbv iota. rewrite Hlayer. fold (pose_key newIndex). rewrite Hcached, Hvalues.
  destruct (String.eqb_spec base ""); [contradiction|].
  unfold call. simpl calls. rewrite Hapi, Hacc. cbv zeta beta.
  rewrite setState_changed by (apply same_json_pose_index; cbn; congruence).
  rewrite Hsnap. cbn. unfold with_pose. repeat split.
Qed.

(** X27.  A generated pose stays cached across undo.  The image is
    written into the [poseImages] object of the layer, which the earlier
    history entries share: after a pose was generated (no accessory
    active) and undone, the application renders the state of before, the
    new pose is among the available ones, and selecting it again makes
    no call. *)
Theorem pose_stays_cached_after_undo (w : World) (r : Render) (newIndex : Z)
    (currentLayer : OutfitLayer.t) (base newImageUrl : string) :
  render w = Some r ->
  isLoading w = false ->
  newIndex <> AppState.currentPoseIndex (state r) ->
  Js.index (AppState.garmentHistory (state r))
           (AppState.currentGarmentIndex (state r)) = Some currentLayer ->
  Js.truthy (Js.get (deref (heap w) (OutfitLayer.poseImages currentLayer))
                    (pose_key newIndex)) = false ->
  Js.values0 (deref (heap w) (OutfitLayer.poseImages currentLayer)) = Some base ->
  base <> ""%string ->
  gemini (calls w) (PoseVariation base (Js.index POSE_INSTRUCTIONS newIndex))
    = Returns newImageUrl ->
  newImageUrl <> ""%string ->
  AppState.activeAccessories (state r) = [] ->
  HistoryState.valid (hist w) ->
  let w'' := dispatch undo (handlePoseSelect r newIndex w) in
  exists r'',
    render w'' = Some r''
    /\ state r'' = state r
    /\ In (pose_key newIndex) (availablePoseKeys r'')
    /\ calls (handlePoseSelect r'' newIndex w'') = calls w''.
Proof.
  intros Hr Hload Hnew Hlayer Hcached Hvalues Hne Hapi Hnonempty Hacc Hvalid w''.
  destruct (pose_generated_cells _ _ _ _ _ _ Hr Hload Hnew Hlayer Hcached Hvalues Hne Hapi Hacc)
    as (Hhist & Hheap & Hload').
  destruct (render_sound _ _ Hr) as [Hsnap Hst].
  pose proof (values0_allocated _ _ _ Hvalues) as Hl.
  pose proof (index_Some_valid _ _ _ Hlayer) as Hlen.
  set (w' := handlePoseSelect r newIndex w) in *.
  unfold HistoryState.valid in Hvalid. rewrite (slice0_valid _ _ Hvalid) in Hhist.
  set (i := HistoryState.currentIndex (hist w)) in *.
  set (kept := firstn (S (Z.to_nat i)) (HistoryState.history (hist w))) in *.
  assert (Hk : Js.length (kept ++ [with_pose newIndex (state r)]) - 1 = i + 1).
  { unfold Js.length in *. subst kept. rewrite length_app, length_firstn.
    cbn [List.length]. lia. }
  rewrite Hk in Hhist.
  assert (Hr' : render w' = Some {| snapshot := w'; state := with_pose newIndex (state r);
                                    activeGarmentIds := activeGarmentIds r |}).
  { unfold render. rewrite Hhist. unfold HistoryState.state.
    cbn [HistoryState.history HistoryState.currentIndex]. rewrite <- Hk at 1.
    rewrite index_app_last.
    change (activeGarmentLayers (with_pose newIndex (state r)))
      with (activeGarmentLayers (state r)).
    now rewrite (render_ids _ _ Hr). }
  assert (Hw'' : hist w'' = {| HistoryState.history := kept ++ [with_pose newIndex (state r)];
                               HistoryState.currentIndex := i |}
                 /\ heap w'' = heap w' /\ calls w'' = calls w'
                 /\ isLoading w'' = false).
  { subst w''. unfold dispatch. rewrite Hr'. unfold undo, HistoryState.undo.
    cbn [snapshot]. rewrite Hhist. cbn [HistoryState.currentIndex HistoryState.history].
    destruct (Z.ltb_spec 0 (i + 1)); [|lia]. cbn [hist heap calls isLoading setHist].
    replace (i + 1 - 1) with i by lia. auto. }
  destruct Hw'' as (Hh'' & Hheap'' & Hcalls'' & Hload'').
  assert (Hst'' : HistoryState.state (hist w'') = Some (state r)).
  { rewrite Hh''. unfold HistoryState.state. cbn [HistoryState.currentIndex HistoryState.history].
    apply index_app_old. subst kept. rewrite index_firstn by lia. exact Hst. }
  assert (Hobj : deref (heap w'') (OutfitLayer.poseImages currentLayer)
                 = Js.set (deref (heap w) (OutfitLayer.poseImages currentLayer))
                          (pose_key newIndex) newImageUrl).
  { rewrite Hheap'', Hheap. now apply deref_update. }
  exists {| snapshot := w''; state := state r; activeGarmentIds := activeGarmentIds r |}.
  split; [|split; [reflexivity|split]].
  - unfold render. now rewrite Hst'', (render_ids _ _ Hr).
  - unfold availablePoseKeys. cbn [state snapshot]. rewrite Hlayer, Hobj.
    destruct (Z.eqb_spec (Js.length (AppState.garmentHistory (state r))) 0); [lia|].
    apply keys_set.
  - unfold handlePoseSelect. cbn [state snapshot]. rewrite Hload'', Hlayer.
    destruct (Z.eqb_spec (Js.length (AppState.garmentHistory (state r))) 0); [lia|].
    destruct (Z.eqb_spec newIndex (AppState.currentPoseIndex (state r))); [contradiction|].
    simpl orb. cbv iota. fold (pose_key newIndex). rewrite Hobj, get_set.
    cbn [Js.truthy]. destruct (String.eqb_spec newImageUrl ""); [contradiction|].
    cbn [negb]. rewrite Hacc. reflexivity.
Qed.

End SelectFacts.

(* ===================================================================== *)
(** ** The style score and the suggestions *)
(* ===================================================================== *)

Section AdviceFacts.

Context {E : Env}.
Variable trim : string -> string.
Variable JSON_parse : string -> option GeminiService.json.
Variable generateContent : string -> string -> Js.outcome (option string).
Variable generateStyleSuggestions :
  list (option WardrobeItem.t) -> list WardrobeItem.t -> Js.outcome (list string).

Lemma generateStyleScore_on_scale (item : WardrobeItem.t) (rest : list WardrobeItem.t)
    (sent : list string) (result : GeminiService.StyleScore) :
  GeminiService.generateStyleScore trim JSON_parse generateContent (item :: rest)
    = (sent, Returns result) ->
  on_scale (Some result).
Proof.
  unfold GeminiService.generateStyleScore.
  destruct (generateContent _ _) as [responseText|err]; [|discriminate].
  destruct (GeminiService.parse_score trim JSON_parse responseText) as [parsed|] eqn:Hp;
    [|discriminate].
  intros [= _ <-]. destruct (ServiceFacts.parse_score_scored _ _ _ _ Hp) as (n & _ & Hn).
  cbn [on_scale]. rewrite Hn. apply ServiceFacts.clamp_range.
Qed.

Lemma generateStyleScore_sent (items : list WardrobeItem.t) :
  (List.length (fst (GeminiService.generateStyleScore trim JSON_parse generateContent items))
   <= 1)%nat.
Proof.
  unfold GeminiService.generateStyleScore. destruct items; [cbn; lia|].
  destruct (generateContent _ _); cbn; lia.
Qed.

Lemma defined_cons {A} (x : option A) (a : list (option A)) (items : list A) :
  defined (x :: a) = Some items -> exists item rest, items = item :: rest.
Proof.
  cbn [defined]. destruct x as [item|]; [|discriminate].
  destruct (defined a) as [rest|]; [|discriminate]. intros [= <-]. now exists item, rest.
Qed.

(** X22.  [handleGetStyleScore] does nothing while a score is being
    computed or when nothing is worn.  Otherwise it never asks for the
    score of an empty outfit: the score it leaves, if any, is on the scale
    from 1 to 10 whatever the API answered; it sends at most one prompt,
    ends with [isScoringStyle] false, and of the other cells changes the
    error alone. *)
Theorem handleGetStyleScore_on_scale (r : Render) (seen : Advice) (app : AppCells) :
  let app' := handleGetStyleScore trim JSON_parse generateContent r seen app in
  let refused :=
    isScoringStyle seen
    || ((Js.length (activeGarmentLayers (state r)) <=? 1)
        && (Js.length (AppState.activeAccessories (state r)) =? 0)) in
  (refused = true -> app' = app)
  /\ (refused = false ->
      on_scale (styleScore (advice app'))
      /\ isScoringStyle (advice app') = false
      /\ (exists sent, prompts (advice app') = prompts (advice app) ++ sent
                       /\ (List.length sent <= 1)%nat)
      /\ (exists e, world app' = setError e (world app))
      /\ styleSuggestions (advice app') = styleSuggestions (advice app)).
Proof.
  intros app' refused. subst app' refused. unfold handleGetStyleScore.
  destruct (_ || _); split; try discriminate; intros _; [reflexivity|].
  destruct (wornItems r) as [|x a] eqn:Hworn.
  - cbn. repeat split; [exists []; rewrite app_nil_r; split; [reflexivity | cbn; lia] | now exists None].
  - destruct (defined (x :: a)) as [items|] eqn:Hdef.
    + destruct (defined_cons _ _ _ Hdef) as (item & rest & ->).
      pose proof (generateStyleScore_sent (item :: rest)) as Hsent.
      destruct (GeminiService.generateStyleScore _ _ _ (item :: rest)) as [sent result] eqn:Hg.
      cbn [fst] in Hsent.
      destruct result as [result|err].
      * cbn. split; [exact (generateStyleScore_on_scale _ _ _ _ Hg)|].
        repeat split; [now exists sent | now exists None].
      * cbn. repeat split; [now exists sent | eexists; reflexivity].
    + cbn. repeat split;
        [exists []; rewrite app_nil_r; split; [reflexivity | cbn; lia] | eexists; reflexivity].
Qed.

(** X23.  [handleGetStyleSuggestions] does nothing while suggesting or
    loading, and with nothing worn it only sets the error.  Otherwise it
    asks the service at most once, and not at all when every wardrobe
    item is active; every suggestion it leaves is a wardrobe item whose id
    the service returned; when the service names only ids of the items it
    was offered, no suggestion is an active item; and it ends with
    [isSuggesting] false. *)
Theorem handleGetStyleSuggestions_suggests (r : Render) (seen : Advice) (app : AppCells) :
  let app' := handleGetStyleSuggestions generateStyleSuggestions r seen app in
  let available :=
    filter (fun item => negb (existsb (String.eqb (WardrobeItem.id item)) (activeItemIds r)))
           (wardrobe (snapshot r)) in
  let refused := isSuggesting seen || isLoading (snapshot r) in
  (refused = true -> app' = app)
  /\ (refused = false ->
      (wornItems r = [] ->
         app' = in_world (setError (Some "Add at least one item to get suggestions."%string)) app)
      /\ (wornItems r <> [] ->
          isSuggesting (advice app') = false
          /\ suggestionCalls (advice app')
             = suggestionCalls (advice app)
               ++ match available with
                  | [] => []
                  | _ :: _ => [(wornItems r, available)]
                  end
          /\ (forall x, In x (styleSuggestions (advice app')) ->
                In x (wardrobe (snapshot r))
                /\ exists ids,
                     generateStyleSuggestions (wornItems r) available = Returns ids
                     /\ In (WardrobeItem.id x) ids)
          /\ (forall ids,
                generateStyleSuggestions (wornItems r) available = Returns ids ->
                (forall id, In id ids -> In id (map WardrobeItem.id available)) ->
                forall x, In x (styleSuggestions (advice app')) ->
                          ~ In (WardrobeItem.id x) (activeItemIds r)))).
Proof.
  intros app' available refused. subst app' available refused.
  unfold handleGetStyleSuggestions.
  remember (filter (fun item => negb (existsb (String.eqb (WardrobeItem.id item))
                                              (activeItemIds r)))
                   (wardrobe (snapshot r))) as available eqn:Hav.
  destruct (_ || _); split; try discriminate; intros _; [reflexivity|].
  destruct (wornItems r) as [|x a] eqn:Hworn.
  - split; [reflexivity | intros H; now contradiction H].
  - split; [discriminate|]. intros _.
    assert (Hsug : forall ids y,
              In y (filter (fun item => existsb (String.eqb (WardrobeItem.id item)) ids)
                           (wardrobe (snapshot r))) ->
              In y (wardrobe (snapshot r)) /\ In (WardrobeItem.id y) ids).
    { intros ids y Hy. apply filter_In in Hy as [Hin Hex]. split; [assumption|].
      apply existsb_exists in Hex as (id & Hid & Heq). apply String.eqb_eq in Heq.
      now rewrite Heq. }
    destruct available as [|v rest].
    + cbn. split; [reflexivity|]. split; [now rewrite app_nil_r|].
      split; intros; contradiction.
    + destruct (generateStyleSuggestions (x :: a) (v :: rest)) as [ids|err] eqn:Hg.
      * cbn. split; [reflexivity|]. split; [reflexivity|]. split.
        -- intros y Hy. destruct (Hsug _ _ Hy) as [H1 H2]. split; [assumption|].
           now exists ids.
        -- intros ids' [= <-] Hids y Hy Hact. destruct (Hsug _ _ Hy) as [_ H2].
           apply Hids in H2.
           change (In (WardrobeItem.id y) (map WardrobeItem.id (v :: rest))) in H2.
           rewrite Hav in H2. apply in_map_iff in H2 as (z & Hz & Hin).
           apply filter_In in Hin as [_ Hin].
           apply negb_true_iff in Hin.
           assert (Ht : existsb (String.eqb (WardrobeItem.id z)) (activeItemIds r) = true).
           { apply existsb_exists. exists (WardrobeItem.id y).
             split; [assumption|]. rewrite Hz. apply String.eqb_refl. }
           congruence.
      * cbn. split; [reflexivity|]. split; [reflexivity|].
        split; [intros y [] | intros ids' [=]].
Qed.

End AdviceFacts.

(* ===================================================================== *)
(** ** What every handler but redo keeps *)
(* ===================================================================== *)

Section InvariantFacts.

Context {E : Env}.

Lemma Forall_firstn {A} (P : A -> Prop) (k : nat) (l : list A) :
  Forall P l -> Forall P (firstn k l).
Proof.
  intros H. apply Forall_forall. intros x Hx. rewrite Forall_forall in H.
  apply H. rewrite <- (firstn_skipn k l). apply in_or_app. now left.
Qed.

Lemma Forall_slice0 {A} (P : A -> Prop) (l : list A) (e : Z) :
  Forall P l -> Forall P (Js.slice0 l e).
Proof. apply Forall_firstn. Qed.

Lemma Forall_slice1_slice0 {A} (P : A -> Prop) (l : list A) (e : Z) :
  Forall P (Js.slice1 l) -> Forall P (Js.slice1 (Js.slice0 l e)).
Proof.
  unfold Js.slice1, Js.slice0. rewrite skipn_firstn_comm. apply Forall_firstn.
Qed.

Lemma Forall_slice1_push {A} (P : A -> Prop) (l : list A) (x : A) :
  Forall P (Js.slice1 l) -> P x -> Forall P (Js.slice1 (l ++ [x])).
Proof.
  unfold Js.slice1. destruct l as [|y l]; cbn [skipn app]; intros Hl Hx.
  - constructor.
  - apply Forall_app. split; [assumption | now constructor].
Qed.

Lemma index_In {A} (l : list A) (i : Z) (x : A) : Js.index l i = Some x -> In x l.
Proof.
  unfold Js.index. destruct (i <? 0); [discriminate|]. apply nth_error_In.
Qed.

Lemma index_valid {A} (l : list A) (i : Z) :
  0 <= i < Js.length l -> exists x, Js.index l i = Some x.
Proof.
  intros H. unfold Js.index, Js.length in *. destruct (Z.ltb_spec i 0); [lia|].
  destruct (nth_error l (Z.to_nat i)) as [x|] eqn:Hn; [now exists x|].
  apply nth_error_None in Hn. lia.
Qed.

Lemma item_ids_defined (layers : list OutfitLayer.t) :
  Forall has_item layers -> exists ids, item_ids layers = Some ids.
Proof.
  induction 1 as [|l layers Hl _ [ids IH]]; [now exists []|].
  cbn [item_ids]. unfold has_item in Hl. destruct (OutfitLayer.item l) as [it|]; [|contradiction].
  rewrite IH. now eexists.
Qed.

(** A state that differs in neither the model, the layers nor the
    garment index. *)
Lemma well_formed_same_layers (s s' : AppState.t) :
  AppState.modelImageUrl s' = AppState.modelImageUrl s ->
  AppState.garmentHistory s' = AppState.garmentHistory s ->
  AppState.currentGarmentIndex s' = AppState.currentGarmentIndex s ->
  well_formed s -> well_formed s'.
Proof.
  unfold well_formed. now intros -> -> ->.
Qed.

Lemma invariant_frame (w w' : World) :
  hist w' = hist w -> savedOutfits w' = savedOutfits w -> invariant w -> invariant w'.
Proof.
  unfold invariant. now intros -> ->.
Qed.

Lemma invariant_reset (s : AppState.t) (w : World) :
  well_formed s -> invariant w -> invariant (reset s w).
Proof.
  intros Hs (_ & _ & Hsaved). unfold invariant, reset, HistoryState.valid.
  cbn. split; [unfold Js.length; cbn; lia|]. split; [now constructor | assumption].
Qed.

Lemma well_formed_initial : well_formed initialState.
Proof.
  split; [left; repeat split | constructor].
Qed.

(** An application that keeps the invariant renders. *)
Lemma invariant_renders (w : World) :
  invariant w ->
  exists r, render w = Some r /\ snapshot r = w /\ well_formed (state r)
            /\ HistoryState.state (hist w) = Some (state r).
Proof.
  intros (Hv & Hwf & _). destruct (index_valid _ _ Hv) as [s Hs].
  assert (Hs' : well_formed s).
  { rewrite Forall_forall in Hwf. apply Hwf. exact (index_In _ _ _ Hs). }
  destruct (item_ids_defined (Js.slice1 (activeGarmentLayers s))) as [ids Hids].
  { apply Forall_slice1_slice0, Hs'. }
  exists {| snapshot := w; state := s; activeGarmentIds := ids |}.
  unfold render, HistoryState.state in *. rewrite Hs, Hids. auto.
Qed.

Section AtRender.

Variable r : Render.
Hypothesis Hseen : invariant (snapshot r).
Hypothesis Hstate : HistoryState.state (hist (snapshot r)) = Some (state r).

Lemma state_well_formed : well_formed (state r).
Proof.
  destruct Hseen as (_ & Hwf & _). rewrite Forall_forall in Hwf. apply Hwf.
  exact (index_In _ _ _ Hstate).
Qed.

(** Before a model is chosen there is no base image for a try-on. *)
Lemma based_is_indexed (base : string) :
  baseGarmentImageUrl r = Some base ->
  0 <= AppState.currentGarmentIndex (state r)
    < Js.length (AppState.garmentHistory (state r)).
Proof.
  destruct state_well_formed as [[(Hm & Hg & Hi) | Hv] _]; [|now intros _].
  unfold baseGarmentImageUrl, displayImageUrl. rewrite Hm, Hg, Hi. cbn. discriminate.
Qed.

Lemma setState_keeps (value : AppState.t -> AppState.t) (w : World) :
  well_formed (value (state r)) -> invariant w -> invariant (setState r value w).
Proof.
  intros Hnew Hw. unfold setState, HistoryState.setState.
  destruct (same_json _ _ _); [exact Hw|].
  destruct Hseen as (_ & Hwf & _). destruct Hw as (_ & _ & Hsaved).
  unfold invariant, HistoryState.valid. cbn [hist savedOutfits setHist
    HistoryState.history HistoryState.currentIndex].
  split; [|split; [|assumption]].
  - unfold Js.length. rewrite length_app. cbn [List.length]. lia.
  - apply Forall_app. split; [now apply Forall_slice0 | now constructor].
Qed.

Lemma updateAccessoryLayer_keeps (accessories : list WardrobeItem.t)
    (override : option string) (w : World) :
  invariant w -> invariant (updateAccessoryLayer r accessories override w).
Proof.
  intros Hw. pose proof state_well_formed as Hs. unfold updateAccessoryLayer.
  destruct (accessoryBaseImageUrl r override w) as [base|]; [|exact Hw].
  destruct (String.eqb base ""); [exact Hw|].
  destruct accessories as [|a rest].
  - apply setState_keeps; [|exact Hw]. now apply (well_formed_same_layers (state r)).
  - destruct (accessoryFiles (a :: rest)) as [files|err]; [|exact Hw].
    unfold call. destruct (gemini _ _) as [newImageUrl|err]; [|exact Hw].
    change (invariant (setState r
      (fun prev => with_accessories (a :: rest) (Some newImageUrl) prev)
      (setCalls (calls w ++ [AccessoryTryOn base files (a :: rest)])
         (setError None (setLoadingMessage "Styling accessories..." (setIsLoading true w)))))).
    apply setState_keeps; [|exact Hw]. now apply (well_formed_same_layers (state r)).
Qed.

Lemma handleItemSelect_keeps (itemFile : File) (itemInfo : WardrobeItem.t) (w : World) :
  invariant w -> invariant (handleItemSelect r itemFile itemInfo w).
Proof.
  intros Hw. pose proof state_well_formed as [_ Hitems]. unfold handleItemSelect.
  destruct (baseGarmentImageUrl r) as [base|] eqn:Hbase; [|exact Hw].
  pose proof (based_is_indexed _ Hbase) as Hidx.
  destruct (_ || _); [exact Hw|].
  destruct (WardrobeItem.type itemInfo).
  - destruct (is_next_layer (state r) itemInfo) eqn:Hnext.
    + apply setState_keeps; [|exact Hw]. split; [right|exact Hitems].
      cbn [AppState.garmentHistory AppState.currentGarmentIndex].
      unfold is_next_layer in Hnext.
      destruct (Js.index _ (_ + 1)) as [nextLayer|] eqn:Hn; [|discriminate].
      exact (index_Some_valid _ _ _ Hn).
    + unfold call. destruct (gemini _ _) as [newImageUrl|err]; [|exact Hw].
      unfold alloc. cbv iota beta.
      match goal with
      | |- invariant (setLoadingMessage _ (setIsLoading _ (if ?c then ?a else _))) =>
          assert (Ha : invariant a); [|destruct c; exact Ha]
      end.
      apply setState_keeps; [|exact Hw].
      split; [right | apply Forall_slice1_push;
                       [now apply Forall_slice1_slice0 | discriminate]].
      cbn [AppState.garmentHistory AppState.currentGarmentIndex].
      rewrite (slice0_valid _ _ Hidx). unfold Js.length in *.
      rewrite length_app, length_firstn. cbn [List.length]. lia.
  - now apply updateAccessoryLayer_keeps.
Qed.

Lemma handleRemoveLastGarment_keeps (w : World) :
  invariant w -> invariant (handleRemoveLastGarment r w).
Proof.
  intros Hw. pose proof state_well_formed as [Hidx Hitems]. unfold handleRemoveLastGarment.
  destruct (Z.ltb_spec 0 (AppState.currentGarmentIndex (state r))); [|exact Hw].
  apply setState_keeps; [|exact Hw]. split; [right|exact Hitems].
  cbn [AppState.garmentHistory AppState.currentGarmentIndex].
  destruct Hidx as [(_ & _ & H0) | Hv]; lia.
Qed.

Lemma handlePoseSelect_keeps (newIndex : Z) (w : World) :
  invariant w -> invariant (handlePoseSelect r newIndex w).
Proof.
  intros Hw. pose proof state_well_formed as Hs. unfold handlePoseSelect.
  destruct (_ || _); [exact Hw|].
  destruct (Js.index _ _) as [currentLayer|]; [|exact Hw].
  destruct (Js.truthy _).
  - assert (Hfirst : invariant (setState r
              (fun prev => with_pose newIndex prev) w)).
    { apply setState_keeps; [|exact Hw]. now apply (well_formed_same_layers (state r)). }
    destruct (AppState.activeAccessories (state r)); [exact Hfirst|].
    now apply updateAccessoryLayer_keeps.
  - destruct (Js.values0 _) as [baseImage|]; [|exact Hw].
    destruct (String.eqb baseImage ""); [exact Hw|].
    unfold call. destruct (gemini _ _) as [newImageUrl|err]; [|exact Hw].
    match goal with
    | |- invariant (setLoadingMessage _ (setIsLoading _ ?w0)) => change (invariant w0)
    end.
    match goal with
    | |- invariant (match _ with [] => ?a | _ :: _ => _ end) =>
        assert (Hfirst : invariant a)
    end.
    { apply setState_keeps; [|exact Hw]. now apply (well_formed_same_layers (state r)). }
    destruct (AppState.activeAccessories (state r)); [exact Hfirst|].
    now apply updateAccessoryLayer_keeps.
Qed.

Lemma handleSaveOutfit_keeps (now localeString : string) (w : World) :
  invariant w -> invariant (handleSaveOutfit r now localeString w).
Proof.
  intros Hw. pose proof state_well_formed as [Hidx Hitems]. unfold handleSaveOutfit.
  destruct (Js.truthy (AppState.modelImageUrl (state r))) eqn:Hm; [|exact Hw].
  cbn [negb orb]. destruct (_ || _); [exact Hw|].
  destruct Hw as (Hv & Hwf & Hsaved). split; [exact Hv|]. split; [exact Hwf|].
  cbn [savedOutfits setSavedOutfits]. constructor; [|exact Hsaved].
  destruct Hidx as [(Hnone & _) | Hidx]; [now rewrite Hnone in Hm|].
  unfold restorable. cbn [SavedOutfit.garmentHistory]. split.
  - unfold activeGarmentLayers. rewrite (slice0_valid _ _ Hidx).
    unfold Js.length in Hidx.
    destruct (AppState.garmentHistory (state r)); [cbn in Hidx; lia | discriminate].
  - unfold Js.slice1. rewrite skipn_map. apply Forall_map.
    cbn [StoredLayer.item]. now apply (Forall_slice1_slice0 has_item).
Qed.

Lemma restored_items (h : list Js.object) (stored : list StoredLayer.t)
    (layers : list OutfitLayer.t) :
  Forall2 (restores h) stored layers ->
  map OutfitLayer.item layers = map StoredLayer.item stored.
Proof.
  induction 1 as [|st l stored layers [Hitem _] _ IH]; [reflexivity|].
  cbn [map]. now rewrite Hitem, IH.
Qed.

Lemma slice1_items (layers : list OutfitLayer.t) :
  Forall has_item (Js.slice1 layers)
  <-> Forall (fun o => o <> None) (Js.slice1 (map OutfitLayer.item layers)).
Proof.
  unfold Js.slice1. rewrite skipn_map, Forall_map. reflexivity.
Qed.

Lemma handleLoadOutfit_keeps (outfitId : string) (w : World) :
  invariant w -> invariant (handleLoadOutfit r outfitId w).
Proof.
  intros Hw. pose proof state_well_formed as Hs. unfold handleLoadOutfit.
  destruct (isLoading (snapshot r)); [exact Hw|].
  destruct (find _ _) as [outfitToLoad|] eqn:Hfind; [|exact Hw].
  assert (Hout : restorable outfitToLoad).
  { destruct Hseen as (_ & _ & Hsaved). rewrite Forall_forall in Hsaved.
    apply Hsaved. now apply find_some in Hfind. }
  destruct Hout as [Hne Hitems].
  destruct (reconstruct _ _) as [layers w1] eqn:Hrec.
  destruct (reconstruct_spec _ _ _ _ Hrec) as (Hw1 & _ & _ & Hres).
  pose proof (restored_items _ _ _ Hres) as Hmap.
  assert (Hlen : 0 < Js.length layers).
  { unfold Js.length. apply (f_equal (@List.length _)) in Hmap. rewrite !length_map in Hmap.
    rewrite Hmap. destruct (SavedOutfit.garmentHistory outfitToLoad); [contradiction|].
    cbn [List.length]. lia. }
  set (loaded := {| AppState.modelImageUrl := SavedOutfit.modelImageUrl outfitToLoad;
                    AppState.garmentHistory := layers;
                    AppState.currentGarmentIndex := Js.length layers - 1;
                    AppState.activeAccessories := SavedOutfit.activeAccessories outfitToLoad;
                    AppState.generatedAccessoryImageUrl := None;
                    AppState.currentPoseIndex := 0 |}).
  assert (Hloaded : well_formed loaded).
  { split; [right; cbn; lia|]. cbn [AppState.garmentHistory loaded].
    apply slice1_items. rewrite Hmap. unfold Js.slice1. rewrite skipn_map, Forall_map.
    exact Hitems. }
  assert (Hreset : invariant (setWardrobe (SavedOutfit.wardrobe outfitToLoad)
                                (reset loaded w1))).
  { apply (invariant_frame (reset loaded w)); [reflexivity | now rewrite Hw1 |].
    now apply invariant_reset. }
  destruct (SavedOutfit.activeAccessories outfitToLoad) as [|a rest] eqn:Hacc.
  - match goal with
    | |- invariant (setLoadingMessage _ (setIsLoading _ ?w0)) => change (invariant w0)
    end.
    apply setState_keeps; [|exact Hreset]. now apply (well_formed_same_layers (state r)).
  - destruct (Js.index layers _) as [lastLayer|]; [|exact Hreset].
    match goal with
    | |- invariant (setLoadingMessage _ (setIsLoading _ ?w0)) => change (invariant w0)
    end.
    now apply updateAccessoryLayer_keeps.
Qed.

Lemma regenerated_have_items (h : list Js.object) log image layers made new final :
  regenerated h log image layers made new final -> Forall has_item new.
Proof.
  induction 1; constructor; [|assumption]. unfold has_item. congruence.
Qed.

Lemma handleReorderGarments_keeps (reorderedItems : list OutfitLayer.t) (w : World) :
  invariant w -> invariant (handleReorderGarments r reorderedItems w).
Proof.
  intros Hw. pose proof state_well_formed as Hs. unfold handleReorderGarments.
  destruct (AppState.garmentHistory (state r)) as [|base rest] eqn:Hgh; [exact Hw|].
  destruct (same_ids _ _); [exact Hw|].
  destruct (regenerate _ _ _ _) as [[[final out]|err] w1] eqn:Hreg.
  - destruct (regenerate_frame _ _ _ _ _ _ Hreg) as (Hh & _ & _ & _ & _ & Hsv & _).
    destruct (regenerate_success _ _ _ _ _ _ _ Hreg) as (made & new & -> & _ & _ & Hnew).
    assert (Hw1 : invariant w1) by (now apply (invariant_frame w)).
    match goal with
    | |- invariant (setLoadingMessage _ (setIsLoading _ ?w0)) => change (invariant w0)
    end.
    match goal with
    | |- invariant (match _ with [] => ?a | _ :: _ => _ end) =>
        assert (Hfirst : invariant a)
    end.
    { apply setState_keeps; [|exact Hw1]. split.
      - right. cbn [AppState.garmentHistory AppState.currentGarmentIndex].
        unfold Js.length. cbn [app List.length]. lia.
      - cbn [AppState.garmentHistory app Js.slice1 skipn].
        exact (regenerated_have_items _ _ _ _ _ _ _ Hnew). }
    destruct (AppState.activeAccessories (state r)); [exact Hfirst|].
    now apply updateAccessoryLayer_keeps.
  - destruct (regenerate_frame _ _ _ _ _ _ Hreg) as (Hh & _ & _ & _ & _ & Hsv & _).
    now apply (invariant_frame w).
Qed.

Lemma handleItemClick_keeps (item : WardrobeItem.t) (w : World) :
  invariant w -> invariant (handleItemClick r item w).
Proof.
  intros Hw. unfold handleItemClick.
  destruct (isLoading (snapshot r)); [exact Hw|].
  destruct (_ && _); [exact Hw|].
  destruct (urlToFile _ _) as [file|err]; [|exact Hw].
  now apply handleItemSelect_keeps.
Qed.

Lemma handleSuggestionClick_keeps (item : WardrobeItem.t) (w : World) :
  invariant w -> invariant (handleSuggestionClick r item w).
Proof.
  intros Hw. unfold handleSuggestionClick.
  destruct (isLoading (snapshot r)); [exact Hw|].
  destruct (urlToFile _ _) as [file|err]; [|exact Hw].
  now apply handleItemSelect_keeps.
Qed.

Lemma handleFileChange_keeps (files : list Upload) (read : ReadResult) (now : string)
    (w : World) :
  invariant w -> invariant (handleFileChange r files read now w).
Proof.
  intros Hw. unfold handleFileChange.
  destruct files as [|chosen others]; [exact Hw|].
  destruct (negb _); [exact Hw|].
  destruct read as [dataUrl|]; [|exact Hw].
  destruct (Js.truthy dataUrl); [|exact Hw].
  now apply handleItemSelect_keeps.
Qed.

Lemma handleDeleteOutfit_keeps (outfitId : string) (w : World) :
  invariant w -> invariant (handleDeleteOutfit r outfitId w).
Proof.
  intros Hw. unfold handleDeleteOutfit.
  destruct (isLoading (snapshot r)); [exact Hw|].
  destruct Hw as (Hv & Hwf & Hsaved). split; [exact Hv|]. split; [exact Hwf|].
  cbn [savedOutfits setSavedOutfits]. rewrite Forall_forall in *.
  intros o Ho. apply Hsaved. now apply filter_In in Ho.
Qed.

Lemma handleRemoveAccessory_keeps (accessoryId : string) (w : World) :
  invariant w -> invariant (handleRemoveAccessory r accessoryId w).
Proof.
  intros Hw. unfold handleRemoveAccessory.
  destruct (isLoading (snapshot r)); [exact Hw|]. now apply updateAccessoryLayer_keeps.
Qed.

Lemma handleReorderAccessories_keeps (reorderedItems : list WardrobeItem.t) (w : World) :
  invariant w -> invariant (handleReorderAccessories r reorderedItems w).
Proof.
  intros Hw. unfold handleReorderAccessories.
  destruct (isLoading (snapshot r)); [exact Hw|]. now apply updateAccessoryLayer_keeps.
Qed.

(** [undo] at the cells of its render. *)
Lemma undo_keeps : invariant (undo r (snapshot r)).
Proof.
  destruct Hseen as (Hv & Hwf & Hsaved). unfold undo, HistoryState.undo.
  destruct (Z.ltb_spec 0 (HistoryState.currentIndex (hist (snapshot r))));
    [|exact (conj Hv (conj Hwf Hsaved))].
  unfold invariant, HistoryState.valid in *. cbn. repeat split; try assumption; lia.
Qed.

End AtRender.

Lemma handleModelFinalized_keeps (url : string) (w : World) :
  invariant w -> invariant (handleModelFinalized url w).
Proof.
  intros Hw. unfold handleModelFinalized, alloc.
  match goal with
  | |- invariant (reset ?s (setHeap ?h w)) =>
      apply (invariant_frame (reset s w)); [reflexivity | reflexivity |];
      apply invariant_reset; [|exact Hw]
  end.
  split; [right; cbn; unfold Js.length; cbn; lia | constructor].
Qed.

Section Sessions.

Variable trim : string -> string.
Variable JSON_parse : string -> option GeminiService.json.
Variable generateContent : string -> string -> Js.outcome (option string).
Variable generateStyleSuggestions :
  list (option WardrobeItem.t) -> list WardrobeItem.t -> Js.outcome (list string).
Variable sameArrays : Render -> Render -> bool.

Lemma handleGetStyleScore_frame (r : Render) (seen : Advice) (app : AppCells) :
  invariant (world app) ->
  invariant (world (handleGetStyleScore trim JSON_parse generateContent r seen app)).
Proof.
  intros Hw. unfold handleGetStyleScore.
  destruct (_ || _); [exact Hw|].
  destruct (wornItems r); [exact Hw|].
  destruct (defined _); [|exact Hw].
  destruct (GeminiService.generateStyleScore _ _ _ _) as [sent [result|err]]; exact Hw.
Qed.

Lemma handleGetStyleSuggestions_frame (r : Render) (seen : Advice) (app : AppCells) :
  invariant (world app) ->
  invariant (world (handleGetStyleSuggestions generateStyleSuggestions r seen app)).
Proof.
  intros Hw. unfold handleGetStyleSuggestions.
  destruct (_ || _); [exact Hw|].
  destruct (wornItems r); [exact Hw|].
  destruct (filter _ _); [exact Hw|].
  destruct (generateStyleSuggestions _ _); exact Hw.
Qed.

Lemma handler_keeps (ev : Event) (r : Render) (app : AppCells) :
  ev <> Redo ->
  invariant (world app) ->
  snapshot r = world app ->
  HistoryState.state (hist (world app)) = Some (state r) ->
  invariant (world (handler trim JSON_parse generateContent generateStyleSuggestions
                            ev r (advice app) app)).
Proof.
  intros Hev Hw Hsnap Hst. rewrite <- Hsnap in Hw, Hst.
  assert (Hlive : invariant (world app)) by (now rewrite <- Hsnap).
  destruct ev; cbn [handler in_world in_advice world].
  - now apply handleModelFinalized_keeps.
  - unfold handleStartOver. cbn [in_world in_advice world].
    apply (invariant_frame (reset initialState (world app))); [reflexivity | reflexivity |].
    apply invariant_reset; [apply well_formed_initial | exact Hlive].
  - now apply handleItemClick_keeps.
  - now apply handleFileChange_keeps.
  - now apply handleSuggestionClick_keeps.
  - now apply handleRemoveLastGarment_keeps.
  - now apply handlePoseSelect_keeps.
  - now apply handleSaveOutfit_keeps.
  - now apply handleLoadOutfit_keeps.
  - now apply handleDeleteOutfit_keeps.
  - now apply handleReorderGarments_keeps.
  - now apply handleRemoveAccessory_keeps.
  - now apply handleReorderAccessories_keeps.
  - rewrite <- Hsnap. now apply undo_keeps.
  - contradiction.
  - now apply handleGetStyleScore_frame.
  - now apply handleGetStyleSuggestions_frame.
  - exact Hlive.
  - exact Hlive.
Qed.

Lemma handle_keeps (ev : Event) (app : AppCells) :
  ev <> Redo ->
  invariant (world app) ->
  invariant (world (handle trim JSON_parse generateContent generateStyleSuggestions
                           sameArrays ev app)).
Proof.
  intros Hev Hw. unfold handle.
  destruct (invariant_renders _ Hw) as (r & Hr & Hsnap & _ & Hst).
  rewrite Hr. pose proof (handler_keeps ev r app Hev Hw Hsnap Hst) as Hafter.
  cbv zeta.
  set (app' := handler trim JSON_parse generateContent generateStyleSuggestions
                       ev r (advice app) app) in *.
  destruct (render (world app')) as [r'|]; [|exact Hafter].
  destruct (outfitChanged sameArrays r r'); exact Hafter.
Qed.

(** X24.  The handlers keep the application in a state it can render.
    From cells in which the history index is an index of the history,
    every state of the history is either the state before a model is
    chosen or has a garment index inside its layers and an item in every
    layer above the base, and every saved outfit has a base layer and
    items above it, any sequence of events other than redo leads to cells
    with the same properties, in which [App] renders, whatever objects
    the effect that clears the style score and the suggestions finds
    changed.  (Redo is excluded: it can move the history index out of
    the history.) *)
Theorem session_without_redo_renders (events : list Event) (app : AppCells) :
  invariant (world app) ->
  ~ In Redo events ->
  let app' := run trim JSON_parse generateContent generateStyleSuggestions sameArrays
                  events app in
  invariant (world app')
  /\ exists r, render (world app') = Some r /\ well_formed (state r).
Proof.
  revert app. induction events as [|ev events IH]; intros app Hw Hno; cbn [run fold_left].
  - split; [exact Hw|]. destruct (invariant_renders _ Hw) as (r & Hr & _ & Hs & _).
    now exists r.
  - apply IH.
    + apply handle_keeps; [|exact Hw]. intros ->. apply Hno. now left.
    + intros Hin. apply Hno. now right.
Qed.

End Sessions.

End InvariantFacts.

(* ===================================================================== *)
(** ** The saved outfits across a reload *)
(* ===================================================================== *)

Section PersistenceFacts.

Variable JSON_stringify : list SavedOutfit.t -> string.
Variable JSON_parse : string -> option (list SavedOutfit.t).
Variable fits : string -> bool.

Lemma store_cells (outfits : list SavedOutfit.t) (p : Page) :
  cells (store JSON_stringify fits outfits p) = cells p.
Proof. unfold store. now destruct (fits _). Qed.

Lemma store_fits (outfits : list SavedOutfit.t) (p : Page) :
  fits (JSON_stringify outfits) = true ->
  stored (store JSON_stringify fits outfits p) = Some (JSON_stringify outfits).
Proof. intros H. unfold store. now rewrite H. Qed.

(** X28.  The saved outfits survive a reload.  When the effect that
    follows the last change of [savedOutfits] could store the list, and
    the engine reads back what it printed, a page that mounts on that
    storage ends with the same list in [savedOutfits] and in the storage,
    whatever its other cells hold.  When the storage holds nothing that
    can be read (no item, the empty string, or text that [JSON.parse]
    refuses), mounting leaves the cells as they are and stores the list
    of the first render if the storage accepts it. *)
Theorem outfits_survive_reload (p : Page) (outfits : list SavedOutfit.t) (w0 : World) :
  JSON_parse (JSON_stringify outfits) = Some outfits ->
  JSON_stringify outfits <> ""%string ->
  fits (JSON_stringify outfits) = true ->
  let left := store JSON_stringify fits outfits p in
  let back := mount JSON_stringify JSON_parse fits {| stored := stored left; cells := w0 |} in
  cells back = setSavedOutfits outfits w0
  /\ stored back = Some (JSON_stringify outfits)
  /\ (forall q,
        loaded JSON_parse q = None ->
        let q' := mount JSON_stringify JSON_parse fits q in
        cells q' = cells q
        /\ stored q' = (if fits (JSON_stringify (savedOutfits (cells q)))
                        then Some (JSON_stringify (savedOutfits (cells q)))
                        else stored q)).
Proof.
  intros Hread Hne Hfits left back. subst left back.
  rewrite (store_fits _ _ Hfits).
  assert (Hloaded : loaded JSON_parse {| stored := Some (JSON_stringify outfits); cells := w0 |}
                    = Some outfits).
  { unfold loaded. cbn [stored].
    destruct (String.eqb_spec (JSON_stringify outfits) ""); [contradiction | exact Hread]. }
  unfold mount. rewrite Hloaded.
  split; [|split].
  - now rewrite !store_cells.
  - now apply store_fits.
  - intros q Hq. unfold mount. rewrite Hq. unfold store.
    destruct (fits (JSON_stringify (savedOutfits (cells q)))); split; reflexivity.
Qed.

End PersistenceFacts.

(* ===================================================================== *)
(** ** The further properties on the example values *)
(* ===================================================================== *)

Module MoreSessions.
Import GeminiService ImageService Scenario Examples.
#[local] Open Scope string_scope.

(** A pose variation of a string that is no data URL. *)
Lemma invalid_url_witness :
  generatePoseVariation (fun t => t) answers "MODEL.png" "Side profile view"
  = ([], Rejected (Exception (Js.Error "Invalid data URL"))).
Proof.
  refine (proj2 (proj2 (ImageFacts.invalid_url_sends_nothing (fun t => t) reads answers
                          "MODEL.png" photo [] [] "Side profile view" _))).
  cbv. intuition discriminate.
Defined.

(** A pose variation of a model image, answered with [one_image]. *)
Lemma returned_image_witness :
  exists request response d,
    fst (generatePoseVariation (fun t => t) answers "data:image/png;base64,MODEL"
                               "Side profile view") = [request]
    /\ answers request = Returns response
    /\ first_image (match candidates response with Some cs => cs | None => [] end) = Some d
    /\ "data:image/png;base64,AAAA" = data_url d
    /\ (carried d ->
        forall nextPose,
          fst (generatePoseVariation (fun t => t) answers "data:image/png;base64,AAAA" nextPose)
          = [ {| model := imageModel;
                 contents := [ {| inlineData := Some d; partText := None |};
                               text_part (pose_prompt nextPose) ];
                 responseModalities := [IMAGE; TEXT] |} ]).
Proof.
  exact (ImageFacts.returned_image_chains (fun t => t) reads answers photo photo
           "data:image/png;base64,MODEL" [] [] "data:image/png;base64,MODEL"
           "Side profile view"
           (generatePoseVariation (fun t => t) answers "data:image/png;base64,MODEL"
                                  "Side profile view")
           "data:image/png;base64,AAAA"
           (or_intror (or_intror (or_intror (or_introl eq_refl)))) eq_refl).
Defined.

(** A state pushed in the middle of a history of three. *)
Lemma setState_pushes_witness :
  HistoryState.history
    (HistoryState.setState Nat.eqb [10; 20; 30]%nat 1 20%nat (fun _ => 40%nat)
       {| HistoryState.history := [10; 20; 30]%nat; HistoryState.currentIndex := 1 |})
  = [10; 20; 40]%nat.
Proof.
  refine (proj1 (setState_pushes Nat.eqb
                   {| HistoryState.history := [10; 20; 30]%nat;
                      HistoryState.currentIndex := 1 |}
                   20%nat (fun _ => 40%nat) _ eq_refl)).
  unfold HistoryState.valid. vm_compute. split; congruence.
Defined.

(** The hat of [accessorized] removed: no accessory is left. *)
Lemma handleRemoveAccessory_witness :
  calls (@handleRemoveAccessory studio (render_of accessorized) "beanie-hat" accessorized)
  = calls accessorized.
Proof.
  refine (proj1 (proj1 (proj2 (@handleRemoveAccessory_removes studio accessorized
                                 (render_of accessorized) "beanie-hat"
                                 "data:image/png;base64,0" eq_refl eq_refl eq_refl _))
                       eq_refl)).
  discriminate.
Defined.


(** The shirt uploaded on [modelled]. *)
Lemma handleFileChange_witness :
  In ("custom-" ++ "1700000000000")
     (map WardrobeItem.id
          (wardrobe (@handleFileChange studio (render_of modelled) [shirt]
                       (Loaded (Some "data:image/png;base64,SHIRT")) "1700000000000"
                       modelled))).
Proof.
  refine (proj1 (proj2 (proj2 (proj2
            (@handleFileChange_upload studio modelled (render_of modelled) shirt []
               "data:image/png;base64,SHIRT" "1700000000000"
               "data:image/png;base64,MODEL" "data:image/png;base64,0"
               eq_refl eq_refl eq_refl _ eq_refl _ eq_refl eq_refl _))))).
  - discriminate.
  - discriminate.
  - vm_compute. split; congruence.
Defined.

(** The blazer of [two_garments] removed and selected again. *)
Lemma remove_then_reselect_witness :
  calls (@handleItemSelect studio
           (render_of (handleRemoveLastGarment (render_of two_garments) two_garments))
           (file_of blazer) blazer
           (handleRemoveLastGarment (render_of two_garments) two_garments))
  = calls two_garments.
Proof.
  refine (proj1 (@remove_then_reselect_replays studio two_garments (render_of two_garments)
                   (render_of (handleRemoveLastGarment (render_of two_garments) two_garments))
                   (file_of blazer) blazer blazer
                   {| OutfitLayer.item := Some blazer; OutfitLayer.poseImages := 2%nat |}
                   "data:image/png;base64,0"
                   eq_refl eq_refl eq_refl eq_refl eq_refl eq_refl eq_refl eq_refl eq_refl _)).
  discriminate.
Defined.

(** [dressed] can be saved. *)
Lemma save_button_witness :
  exists outfit,
    handleSaveOutfit (render_of dressed) "1700000000000" "11/14/2023" dressed
    = setSavedOutfits (outfit :: savedOutfits dressed) dressed
    /\ SavedOutfit.id outfit = "outfit-" ++ "1700000000000"
    /\ SavedOutfit.thumbnailUrl outfit = displayImageUrl (render_of dressed)
    /\ SavedOutfit.wardrobe outfit = wardrobe (snapshot (render_of dressed))
    /\ SavedOutfit.activeAccessories outfit
       = AppState.activeAccessories (state (render_of dressed))
    /\ map StoredLayer.item (SavedOutfit.garmentHistory outfit)
       = map OutfitLayer.item (activeGarmentLayers (state (render_of dressed))).
Proof.
  refine (proj1 (save_button_agrees (render_of dressed) "1700000000000" "11/14/2023" dressed
                   eq_refl eq_refl eq_refl _) eq_refl).
  vm_compute. congruence.
Defined.

(** The session [evening] from the fresh application. *)
Lemma session_witness :
  exists r,
    render (world (@run studio (fun t => t) parse_twelve answer_twelve no_idea
                        (fun _ _ => true) evening fresh))
    = Some r
    /\ well_formed (state r).
Proof.
  refine (proj2 (@session_without_redo_renders studio (fun t => t) parse_twelve answer_twelve
                   no_idea (fun _ _ => true) evening fresh _ _)).
  - split; [vm_compute; split; congruence|].
    split; [|constructor].
    constructor; [|constructor]. split; [left; repeat split | constructor].
  - cbn. intuition discriminate.
Defined.

(** The tee put on [modelled], and undone. *)
Lemma undo_after_try_on_witness :
  HistoryState.canUndo
    (hist (@handleItemSelect studio (render_of modelled) (file_of tee) tee modelled)) = true.
Proof.
  refine (proj1 (@undo_after_try_on studio modelled (render_of modelled) (file_of tee) tee
                   "data:image/png;base64,MODEL" "data:image/png;base64,0"
                   {| OutfitLayer.item := None; OutfitLayer.poseImages := 0%nat |}
                   eq_refl eq_refl eq_refl _ eq_refl eq_refl eq_refl _ eq_refl _)).
  - discriminate.
  - unfold HistoryState.valid. vm_compute. split; congruence.
  - vm_compute. lia.
Defined.

(** The remove button on [two_garments]. *)
Lemma remove_button_witness :
  OutfitStack.removable (activeGarmentLayers (state (render_of two_garments))) 1 = true.
Proof.
  refine (proj2 (proj1 (@remove_button_removes_its_row two_garments (render_of two_garments)
                          eq_refl _) 1) eq_refl).
  vm_compute. split; congruence.
Defined.

(** The second pose generated on [modelled], and undone. *)
Lemma pose_stays_cached_witness :
  let w'' := dispatch undo (@handlePoseSelect studio (render_of modelled) 1 modelled) in
  exists r'',
    render w'' = Some r''
    /\ state r'' = state (render_of modelled)
    /\ In (pose_key 1) (availablePoseKeys r'')
    /\ calls (@handlePoseSelect studio r'' 1 w'') = calls w''.
Proof.
  refine (@pose_stays_cached_after_undo studio modelled (render_of modelled) 1
            {| OutfitLayer.item := None; OutfitLayer.poseImages := 0%nat |}
            "data:image/png;base64,MODEL" "data:image/png;base64,0"
            eq_refl eq_refl _ eq_refl eq_refl eq_refl _ eq_refl _ eq_refl _).
  - discriminate.
  - discriminate.
  - discriminate.
  - unfold HistoryState.valid. vm_compute. split; congruence.
Defined.

(** The outfit of [dressed] stored, and a fresh page mounted on it. *)
Lemma outfits_survive_witness :
  savedOutfits
    (cells (mount print_outfits read_outfits (fun _ => true)
              {| stored := stored (store print_outfits (fun _ => true) keepsake
                                         {| stored := None; cells := dressed |});
                 cells := start |}))
  = keepsake.
Proof.
  rewrite (proj1 (outfits_survive_reload print_outfits read_outfits (fun _ => true)
                    {| stored := None; cells := dressed |} keepsake start
                    eq_refl ltac:(discriminate) eq_refl)).
  reflexivity.
Defined.

End MoreSessions.
